(** * gollama: the streaming response protocol handler of the Ollama client

    A shallow embedding of [gollama.go]: the error model, the request and
    response records, the unary executor [do], the five streaming
    operations and the eight unary operations of [Client], followed by the
    properties of the specification that concern them.

    Go strings and byte slices are [string]s (sequences of bytes).  The
    parts of the Go standard library the client calls are modelled next to
    the code that calls them: [strings.TrimSpace], [bufio.Scanner] with its
    default line splitter and token limit, [encoding/json] decoding into the
    record types of the package.  What the client cannot observe or decide
    (the network, the clock, the caller's callbacks) is an input of the
    model. *)

From Stdlib Require Import String Ascii List ZArith NArith Bool Lia.
From Stdlib Require Import DecimalString.
Import ListNotations.
Open Scope string_scope.
Open Scope Z_scope.

Set Implicit Arguments.
Set Warnings "-register-all".

(* ===================================================================== *)
(** * Bytes and strings *)
(* ===================================================================== *)

Module Bytes.

Definition code (a : ascii) : N := N_of_ascii a.
Definition byte (n : N) : ascii := ascii_of_N n.

Definition between (lo hi : N) (a : ascii) : bool :=
  ((lo <=? code a) && (code a <=? hi))%N.

Definition isByte (n : N) (a : ascii) : bool := (code a =? n)%N.

Definition LF : ascii := byte 10.
Definition CR : ascii := byte 13.
Definition DQUOTE : ascii := byte 34.
Definition BACKSLASH : ascii := byte 92.

Fixpoint rev_onto (s acc : string) : string :=
  match s with
  | EmptyString => acc
  | String a r => rev_onto r (String a acc)
  end.

(** The bytes of [s] in reverse order. *)
Definition rev (s : string) : string := rev_onto s EmptyString.

Definition isEmpty (s : string) : bool :=
  match s with EmptyString => true | _ => false end.

Fixpoint replicate (n : nat) (a : ascii) : string :=
  match n with
  | O => EmptyString
  | S k => String a (replicate k a)
  end.

Fixpoint contains (a : ascii) (s : string) : bool :=
  match s with
  | EmptyString => false
  | String b r => Ascii.eqb a b || contains a r
  end.

Fixpoint lengthN (s : string) : N :=
  match s with
  | EmptyString => 0%N
  | String _ r => N.succ (lengthN r)
  end.

(** [fmt.Sprintf("%d", n)]. *)
Definition itoa (n : Z) : string := NilZero.string_of_int (Z.to_int n).

(** Test data is written with an apostrophe where JSON has a double
    quote; [q] puts the double quotes back. *)
Fixpoint q (s : string) : string :=
  match s with
  | EmptyString => EmptyString
  | String a r => String (if isByte 39 a then DQUOTE else a) (q r)
  end.

End Bytes.

(* ===================================================================== *)
(** * [strings.TrimSpace] *)
(* ===================================================================== *)

(** [TrimSpace] removes every leading and trailing code point that has the
    Unicode White_Space property.  In UTF-8 these are the six ASCII bytes
    below, U+0085 and U+00A0 (two bytes), and U+1680, U+2000..U+200A,
    U+2028, U+2029, U+202F, U+205F and U+3000 (three bytes). *)
Module Strings.
Import Bytes.

Definition asciiSpace (a : ascii) : bool :=
  isByte 9 a || isByte 10 a || isByte 11 a || isByte 12 a || isByte 13 a || isByte 32 a.

Definition space2 (a b : ascii) : bool :=
  isByte 194 a && (isByte 133 b || isByte 160 b).

Definition space3 (a b c : ascii) : bool :=
  (isByte 225 a && isByte 154 b && isByte 128 c)
  || (isByte 226 a && isByte 128 b && (between 128 138 c || isByte 168 c || isByte 169 c || isByte 175 c))
  || (isByte 226 a && isByte 129 b && isByte 159 c)
  || (isByte 227 a && isByte 128 b && isByte 128 c).

(** Strips leading white space; [fwd] tells whether the bytes are met in
    reading order or (for the right end) in reverse. *)
Fixpoint trimLeading (fwd : bool) (s : string) : string :=
  match s with
  | EmptyString => s
  | String a r1 =>
      if asciiSpace a then trimLeading fwd r1 else
      match r1 with
      | EmptyString => s
      | String b r2 =>
          if (if fwd then space2 a b else space2 b a) then trimLeading fwd r2 else
          match r2 with
          | EmptyString => s
          | String c r3 =>
              if (if fwd then space3 a b c else space3 c b a)
              then trimLeading fwd r3 else s
          end
      end
  end.

Definition TrimLeft (s : string) : string := trimLeading true s.
Definition TrimRight (s : string) : string := rev (trimLeading false (rev s)).
Definition TrimSpace (s : string) : string := TrimRight (TrimLeft s).

End Strings.

(* ===================================================================== *)
(** * [bufio.Scanner] over a response body *)
(* ===================================================================== *)

Module Bufio.
Import Bytes.

(** [bufio.MaxScanTokenSize]: the scanner's buffer never grows beyond
    64 KiB, so a line needs its bytes and its newline to fit in it. *)
Definition MaxScanTokenSize : N := 65536.

(** [dropCR]: one trailing carriage return is removed from a token. *)
Definition dropCR_rev (revline : string) : string :=
  match revline with
  | String a r => if Ascii.eqb a CR then rev r else rev revline
  | EmptyString => EmptyString
  end.

(** How the token sequence ends: the reader is exhausted, or the buffer
    filled up without a newline ([bufio.ErrTooLong]). *)
Inductive Ending := Drained | TooLong.

(** One successful [Scan]: the token, and whether producing it took the
    scanner to the end of the reader (the last, unterminated line). *)
Record Token := { text : string; atEnd : bool }.

(** [scan data cur n] walks the body.  [cur] holds the bytes of the
    current line in reverse, [n] is their count.  A newline ends the
    line ([ScanLines]); input that ends inside a line yields that line as
    the final token; a line of [MaxScanTokenSize] bytes with no newline
    in sight stops the scanner. *)
Fixpoint scan (data : string) (cur : string) (n : N) : list Token * Ending :=
  match data with
  | EmptyString =>
      if isEmpty cur then ([], Drained)
      else ([ {| text := dropCR_rev cur; atEnd := true |} ], Drained)
  | String a rest =>
      if Ascii.eqb a LF then
        let (toks, e) := scan rest EmptyString 0%N in
        ({| text := dropCR_rev cur; atEnd := false |} :: toks, e)
      else if (N.succ n <? MaxScanTokenSize)%N then
        scan rest (String a cur) (N.succ n)
      else ([], TooLong)
  end.

Definition ScanLines (data : string) : list Token * Ending :=
  scan data EmptyString 0%N.

End Bufio.

(* ===================================================================== *)
(** * [encoding/json]: syntax *)
(* ===================================================================== *)

(** [json.Unmarshal] first checks that its input is one well-formed JSON
    value ([checkValid]) and only then decodes it.  The syntax check is a
    byte-level automaton; here it is a lexer followed by a parser with an
    explicit stack, both by recursion on their input.  String and number
    literals are kept as written: the decoders below unquote or convert
    them the way the target type asks. *)
Module Json.
Import Bytes.

Inductive json :=
| JNull
| JBool (b : bool)
| JNumber (lit : string)            (* the literal, as written *)
| JString (raw : string)            (* the bytes between the quotes, as written *)
| JArray (elems : list json)
| JObject (members : list (string * json)).   (* member names as written *)

Inductive token :=
| TLBrace | TRBrace | TLBracket | TRBracket | TColon | TComma
| TString (raw : string) | TNumber (lit : string)
| TTrue | TFalse | TNull.

(** ** Lexer *)

(** Where the automaton is inside a number literal. *)
Inductive NumState :=
| NNeg        (* after the minus sign *)
| NZero       (* after a leading 0 *)
| NInt        (* in the integer digits *)
| NDot        (* after the decimal point *)
| NFrac       (* in the fraction digits *)
| NExp        (* after e or E *)
| NExpSign    (* after the sign of the exponent *)
| NExpDigits. (* in the exponent digits *)

Inductive LexState :=
| Idle
| InString (rawrev : string)
| InEscape (rawrev : string)
| InHex (rawrev : string) (remaining : nat)
| InNumber (st : NumState) (litrev : string)
| InLiteral (tok : token) (expect : string).

Definition isDigit (a : ascii) : bool := between 48 57 a.
Definition isDigit19 (a : ascii) : bool := between 49 57 a.
Definition isHex (a : ascii) : bool :=
  between 48 57 a || between 97 102 a || between 65 70 a.
Definition isWhite (a : ascii) : bool :=
  isByte 32 a || isByte 9 a || isByte 13 a || isByte 10 a.
Definition isE (a : ascii) : bool := isByte 101 a || isByte 69 a.

Definition numStep (st : NumState) (a : ascii) : option NumState :=
  match st with
  | NNeg => if isByte 48 a then Some NZero
            else if isDigit19 a then Some NInt else None
  | NZero => if isByte 46 a then Some NDot
             else if isE a then Some NExp else None
  | NInt => if isDigit a then Some NInt
            else if isByte 46 a then Some NDot
            else if isE a then Some NExp else None
  | NDot => if isDigit a then Some NFrac else None
  | NFrac => if isDigit a then Some NFrac
             else if isE a then Some NExp else None
  | NExp => if isByte 43 a || isByte 45 a then Some NExpSign
            else if isDigit a then Some NExpDigits else None
  | NExpSign => if isDigit a then Some NExpDigits else None
  | NExpDigits => if isDigit a then Some NExpDigits else None
  end.

(** The states in which a number literal may end. *)
Definition numAccepting (st : NumState) : bool :=
  match st with
  | NZero | NInt | NFrac | NExpDigits => true
  | _ => false
  end.

(** A byte met between tokens. *)
Definition lexStart (a : ascii) : option (LexState * list token) :=
  if isWhite a then Some (Idle, [])
  else if isByte 123 a then Some (Idle, [TLBrace])
  else if isByte 125 a then Some (Idle, [TRBrace])
  else if isByte 91 a then Some (Idle, [TLBracket])
  else if isByte 93 a then Some (Idle, [TRBracket])
  else if isByte 58 a then Some (Idle, [TColon])
  else if isByte 44 a then Some (Idle, [TComma])
  else if isByte 34 a then Some (InString EmptyString, [])
  else if isByte 45 a then Some (InNumber NNeg (String a EmptyString), [])
  else if isByte 48 a then Some (InNumber NZero (String a EmptyString), [])
  else if isDigit19 a then Some (InNumber NInt (String a EmptyString), [])
  else if isByte 116 a then Some (InLiteral TTrue "rue", [])
  else if isByte 102 a then Some (InLiteral TFalse "alse", [])
  else if isByte 110 a then Some (InLiteral TNull "ull", [])
  else None.

Definition isSimpleEscape (a : ascii) : bool :=
  isByte 98 a || isByte 102 a || isByte 110 a || isByte 114 a || isByte 116 a
  || isByte 92 a || isByte 47 a || isByte 34 a.

Definition lexStep (st : LexState) (a : ascii) : option (LexState * list token) :=
  match st with
  | Idle => lexStart a
  | InString r =>
      if isByte 34 a then Some (Idle, [TString (rev r)])
      else if isByte 92 a then Some (InEscape (String a r), [])
      else if (code a <? 32)%N then None
      else Some (InString (String a r), [])
  | InEscape r =>
      if isSimpleEscape a then Some (InString (String a r), [])
      else if isByte 117 a then Some (InHex (String a r) 4, [])
      else None
  | InHex r k =>
      if isHex a then
        match k with
        | S (S k') => Some (InHex (String a r) (S k'), [])
        | _ => Some (InString (String a r), [])
        end
      else None
  | InNumber ns l =>
      match numStep ns a with
      | Some ns' => Some (InNumber ns' (String a l), [])
      | None =>
          if numAccepting ns then
            match lexStart a with
            | Some (st', out) => Some (st', TNumber (rev l) :: out)
            | None => None
            end
          else None
      end
  | InLiteral tok expect =>
      match expect with
      | String e rest =>
          if Ascii.eqb a e then
            if isEmpty rest then Some (Idle, [tok]) else Some (InLiteral tok rest, [])
          else None
      | EmptyString => None
      end
  end.

Definition lexEnd (st : LexState) : option (list token) :=
  match st with
  | Idle => Some []
  | InNumber ns l => if numAccepting ns then Some [TNumber (rev l)] else None
  | _ => None
  end.

Fixpoint lex (st : LexState) (s : string) : option (list token) :=
  match s with
  | EmptyString => lexEnd st
  | String a r =>
      match lexStep st a with
      | None => None
      | Some (st', out) =>
          match lex st' r with
          | None => None
          | Some more => Some (out ++ more)%list
          end
      end
  end.

(** ** Parser *)

(** An open array or object: what it holds so far, last first. *)
Inductive Frame :=
| FArray (elems_rev : list json)
| FObject (members_rev : list (string * json)) (key : option string).

Inductive Expect :=
| EValue (mayClose : bool)   (* a value; right after [ also ] *)
| EKey (mayClose : bool)     (* a member name; right after { also } *)
| EColon
| EAfter                     (* after a value in a container: a comma or the closer *)
| EDone (v : json).          (* the top-level value is complete *)

Record PState := { stack : list Frame; depth : N; expect : Expect }.

(** The scanner refuses input nested deeper than this. *)
Definition maxNestingDepth : N := 10000.

(** A complete value goes to the innermost open container, or ends the
    input. *)
Definition deliver (v : json) (st : list Frame) (d : N) : option PState :=
  match st with
  | [] => Some {| stack := []; depth := d; expect := EDone v |}
  | FArray es :: up =>
      Some {| stack := FArray (v :: es) :: up; depth := d; expect := EAfter |}
  | FObject ms (Some k) :: up =>
      Some {| stack := FObject ((k, v) :: ms) None :: up; depth := d; expect := EAfter |}
  | FObject _ None :: _ => None
  end.

Definition open (f : Frame) (e : Expect) (p : PState) : option PState :=
  if (N.succ (depth p) <=? maxNestingDepth)%N
  then Some {| stack := f :: stack p; depth := N.succ (depth p); expect := e |}
  else None.

Definition closeArray (p : PState) : option PState :=
  match stack p with
  | FArray es :: up => deliver (JArray (List.rev es)) up (N.pred (depth p))
  | _ => None
  end.

Definition closeObject (p : PState) : option PState :=
  match stack p with
  | FObject ms None :: up => deliver (JObject (List.rev ms)) up (N.pred (depth p))
  | _ => None
  end.

Definition startValue (p : PState) (t : token) : option PState :=
  match t with
  | TNull => deliver JNull (stack p) (depth p)
  | TTrue => deliver (JBool true) (stack p) (depth p)
  | TFalse => deliver (JBool false) (stack p) (depth p)
  | TNumber l => deliver (JNumber l) (stack p) (depth p)
  | TString r => deliver (JString r) (stack p) (depth p)
  | TLBracket => open (FArray []) (EValue true) p
  | TLBrace => open (FObject [] None) (EKey true) p
  | _ => None
  end.

Definition pstep (p : PState) (t : token) : option PState :=
  match expect p, t with
  | EValue true, TRBracket => closeArray p
  | EValue _, _ => startValue p t
  | EKey true, TRBrace => closeObject p
  | EKey _, TString k =>
      match stack p with
      | FObject ms None :: up =>
          Some {| stack := FObject ms (Some k) :: up; depth := depth p; expect := EColon |}
      | _ => None
      end
  | EColon, TColon =>
      Some {| stack := stack p; depth := depth p; expect := EValue false |}
  | EAfter, TComma =>
      match stack p with
      | FArray _ :: _ =>
          Some {| stack := stack p; depth := depth p; expect := EValue false |}
      | FObject _ None :: _ =>
          Some {| stack := stack p; depth := depth p; expect := EKey false |}
      | _ => None
      end
  | EAfter, TRBracket => closeArray p
  | EAfter, TRBrace => closeObject p
  | _, _ => None
  end.

Fixpoint psteps (p : PState) (ts : list token) : option json :=
  match ts with
  | [] => match expect p with EDone v => Some v | _ => None end
  | t :: r => match pstep p t with None => None | Some p' => psteps p' r end
  end.

(** The value a text denotes, or [None] where [json.Unmarshal] reports a
    syntax error. *)
Definition parse (s : string) : option json :=
  match lex Idle s with
  | None => None
  | Some ts => psteps {| stack := []; depth := 0; expect := EValue false |} ts
  end.

End Json.

(* ===================================================================== *)
(** * [encoding/json]: decoding into Go values *)
(* ===================================================================== *)

Module Decode.
Import Bytes Json.

(** ** String literals *)

Definition hexVal (a : ascii) : N :=
  if between 48 57 a then code a - 48
  else if between 97 102 a then code a - 87
  else code a - 55.

Definition hex4 (a b c d : ascii) : N :=
  ((hexVal a * 16 + hexVal b) * 16 + hexVal c) * 16 + hexVal d.

(** [utf8.EncodeRune] on a code point that is not a surrogate. *)
Definition encodeRune (n : N) : string :=
  (if n <? 128 then String (byte n) EmptyString
   else if n <? 2048 then
     String (byte (192 + n / 64)) (String (byte (128 + n mod 64)) EmptyString)
   else if n <? 65536 then
     String (byte (224 + n / 4096))
       (String (byte (128 + (n / 64) mod 64))
          (String (byte (128 + n mod 64)) EmptyString))
   else
     String (byte (240 + n / 262144))
       (String (byte (128 + (n / 4096) mod 64))
          (String (byte (128 + (n / 64) mod 64))
             (String (byte (128 + n mod 64)) EmptyString))))%N.

(** U+FFFD, which stands in for whatever is not a code point. *)
Definition replacement : string := encodeRune 65533.

Definition isSurrogate (n : N) : bool := ((55296 <=? n) && (n <=? 57343))%N.
Definition isHighSurrogate (n : N) : bool := ((55296 <=? n) && (n <=? 56319))%N.
Definition isLowSurrogate (n : N) : bool := ((56320 <=? n) && (n <=? 57343))%N.

Definition escapeByte (e : ascii) : ascii :=
  if isByte 98 e then byte 8
  else if isByte 102 e then byte 12
  else if isByte 110 e then byte 10
  else if isByte 114 e then byte 13
  else if isByte 116 e then byte 9
  else e.

(** The escapes of a literal resolved.  A [\u] escape becomes the UTF-8
    form of its code point; a high surrogate takes the low surrogate
    escape that follows it directly, and a surrogate without its partner
    becomes U+FFFD. *)
Fixpoint unescape (raw : string) : string :=
  match raw with
  | EmptyString => EmptyString
  | String a r =>
      if isByte 92 a then
        match r with
        | EmptyString => EmptyString
        | String e r1 =>
            if isByte 117 e then
              match r1 with
              | String h1 (String h2 (String h3 (String h4 r2))) =>
                  let hi := hex4 h1 h2 h3 h4 in
                  if isSurrogate hi then
                    match r2 with
                    | String b (String u (String g1 (String g2 (String g3 (String g4 r3))))) =>
                        let lo := hex4 g1 g2 g3 g4 in
                        if isByte 92 b && isByte 117 u
                           && isHex g1 && isHex g2 && isHex g3 && isHex g4
                           && isHighSurrogate hi && isLowSurrogate lo
                        then encodeRune (65536 + (hi - 55296) * 1024 + (lo - 56320))%N
                               ++ unescape r3
                        else replacement ++ unescape r2
                    | _ => replacement ++ unescape r2
                    end
                  else encodeRune hi ++ unescape r2
              | _ => EmptyString
              end
            else String (escapeByte e) (unescape r1)
        end
      else String a (unescape r)
  end.

Definition isCont (a : ascii) : bool := between 128 191 a.

(** The length of the UTF-8 sequence that starts with [a] and goes on
    with [b], [c], [d]; 0 when there is none ([utf8.DecodeRune] then
    reports an error of width 1). *)
Definition seqLen (a : ascii) (b c d : option ascii) : nat :=
  let ok (f : ascii -> bool) (x : option ascii) :=
    match x with Some y => f y | None => false end in
  if between 194 223 a then (if ok isCont b then 2 else 0)%nat
  else if between 224 239 a then
    if ok (if isByte 224 a then between 160 191
           else if isByte 237 a then between 128 159 else isCont) b
       && ok isCont c then 3%nat else 0%nat
  else if between 240 244 a then
    if ok (if isByte 240 a then between 144 191
           else if isByte 244 a then between 128 143 else isCont) b
       && ok isCont c && ok isCont d then 4%nat else 0%nat
  else 0%nat.

(** Bytes that are not UTF-8 become U+FFFD, one per offending byte. *)
Fixpoint toValidUTF8 (s : string) : string :=
  match s with
  | EmptyString => EmptyString
  | String a r1 =>
      if (code a <? 128)%N then String a (toValidUTF8 r1) else
      match r1 with
      | EmptyString => replacement
      | String b r2 =>
          match r2 with
          | EmptyString =>
              match seqLen a (Some b) None None with
              | 2%nat => String a (String b EmptyString)
              | _ => replacement ++ toValidUTF8 r1
              end
          | String c r3 =>
              let d := match r3 with String d _ => Some d | EmptyString => None end in
              match seqLen a (Some b) (Some c) d with
              | 2%nat => String a (String b (toValidUTF8 r2))
              | 3%nat => String a (String b (String c (toValidUTF8 r3)))
              | 4%nat =>
                  match r3 with
                  | String d' r4 => String a (String b (String c (String d' (toValidUTF8 r4))))
                  | EmptyString => replacement ++ toValidUTF8 r1
                  end
              | _ => replacement ++ toValidUTF8 r1
              end
          end
      end
  end.

(** [unquote]: the Go string a JSON string literal denotes. *)
Definition unquote (raw : string) : string := toValidUTF8 (unescape raw).

(** ** Member names *)

(** [foldName]: names are compared after folding case.  Besides the ASCII
    letters, U+017F folds to S and U+212A to K; no other code point folds
    to an ASCII letter. *)
Fixpoint foldName (s : string) : string :=
  match s with
  | EmptyString => EmptyString
  | String a r1 =>
      if between 97 122 a then String (byte (code a - 32)) (foldName r1) else
      match r1 with
      | String b r2 =>
          if isByte 197 a && isByte 191 b then String (byte 83) (foldName r2) else
          match r2 with
          | String c r3 =>
              if isByte 226 a && isByte 132 b && isByte 170 c
              then String (byte 75) (foldName r3)
              else String a (foldName r1)
          | EmptyString => String a (foldName r1)
          end
      | EmptyString => String a (foldName r1)
      end
  end.

(** Does the member name written [rawKey] select the field tagged
    [name]?  (The tags of one struct never fold to the same name here, so
    the exact match Go tries first selects the same field.) *)
Definition selects (name rawKey : string) : bool :=
  String.eqb (foldName (unquote rawKey)) (foldName name).

(** ** Scalars

    A decoder takes the JSON value and the value the target holds and
    returns the new content of the target, or [None] where
    [json.Unmarshal] ends with an error.  A JSON [null] leaves strings,
    numbers and booleans as they are. *)

Definition Into (A : Type) := json -> A -> option A.

Definition intoString : Into string := fun v old =>
  match v with
  | JString raw => Some (unquote raw)
  | JNull => Some old
  | _ => None
  end.

Definition intoBool : Into bool := fun v old =>
  match v with
  | JBool b => Some b
  | JNull => Some old
  | _ => None
  end.

Fixpoint digitsValue (s : string) (acc : Z) : option Z :=
  match s with
  | EmptyString => Some acc
  | String a r =>
      if isDigit a then digitsValue r (acc * 10 + Z.of_N (code a - 48)) else None
  end.

(** [strconv.ParseInt(lit, 10, 64)] on a JSON number literal: a fraction
    or an exponent is an error, and so is a value outside int64. *)
Definition ParseInt64 (lit : string) : option Z :=
  let inRange (n : Z) :=
    if (- 2 ^ 63 <=? n) && (n <=? 2 ^ 63 - 1) then Some n else None in
  match lit with
  | EmptyString => None
  | String a r =>
      if isByte 45 a then
        match r with
        | EmptyString => None
        | _ => match digitsValue r 0 with Some n => inRange (- n) | None => None end
        end
      else match digitsValue lit 0 with Some n => inRange n | None => None end
  end.

(** [int64], and [int] on a 64-bit platform. *)
Definition intoInt64 : Into Z := fun v old =>
  match v with
  | JNumber lit => ParseInt64 lit
  | JNull => Some old
  | _ => None
  end.

(** ** Structs and slices *)

(** The members of an object are decoded one after the other, each into
    the field its name selects.  [field] follows one field through the
    members: every member that selects it is decoded into what the field
    holds by then; members that select no field are skipped. *)
Definition field {A : Type} (into : Into A) (name : string)
    (members : list (string * json)) (start : A) : option A :=
  fold_left
    (fun acc kv =>
       match acc with
       | None => None
       | Some x => if selects name (fst kv) then into (snd kv) x else Some x
       end)
    members (Some start).

(** A struct target: an object is decoded member by member, [null] leaves
    the struct alone, anything else is a type error. *)
Definition intoStruct {T : Type}
    (fields : list (string * json) -> T -> option T) : Into T := fun v old =>
  match v with
  | JObject members => fields members old
  | JNull => Some old
  | _ => None
  end.

(** A slice while it is being decoded: the elements in view and the
    cells of its backing array behind them. *)
Definition Slice (A : Type) : Type := (list A * list A)%type.

(** Element [i] of an array is decoded into cell [i] of the slice, which
    holds what an earlier decoding left there, or the zero value. *)
Fixpoint intoCells {A : Type} (into : Into A) (zero : A)
    (elems : list json) (cells : list A) : option (Slice A) :=
  match elems with
  | [] => Some ([], cells)
  | e :: es =>
      let (cell, behind) :=
        match cells with c :: cs => (c, cs) | [] => (zero, []) end in
      match into e cell with
      | None => None
      | Some x =>
          match intoCells into zero es behind with
          | None => None
          | Some (view, spare) => Some (x :: view, spare)
          end
      end
  end.

(** A slice target: an empty array gives a fresh empty slice, [null] the
    nil slice. *)
Definition intoSlice {A : Type} (into : Into A) (zero : A) : Into (Slice A) :=
  fun v old =>
    match v with
    | JArray [] => Some ([], [])
    | JArray elems => intoCells into zero elems (fst old ++ snd old)%list
    | JNull => Some ([], [])
    | _ => None
    end.

(** A field of slice type starts out nil; only the elements in view go
    into the record. *)
Definition sliceField {A : Type} (into : Into A) (zero : A) (name : string)
    (members : list (string * json)) : option (list A) :=
  option_map fst (field (intoSlice into zero) name members ([], [])).

(** [json.Unmarshal(data, &target)] for a struct target holding [zero]. *)
Definition Unmarshal {T : Type}
    (fields : list (string * json) -> T -> option T) (zero : T)
    (data : string) : option T :=
  match parse data with
  | None => None
  | Some v => intoStruct fields v zero
  end.

End Decode.

(* ===================================================================== *)
(** * Errors, and what the client takes from its environment *)
(* ===================================================================== *)

(** [OllamaError]: the structured error of the package. *)
Module OllamaError.
Record t := { StatusCode : Z; Message : string }.

(** [func (e *OllamaError) Error() string] *)
Definition Error (e : t) : string :=
  "Ollama API error (status " ++ Bytes.itoa (StatusCode e) ++ "): " ++ Message e.
End OllamaError.

(** [ctx.Err()] once the context is done. *)
Inductive CtxErr := Canceled | DeadlineExceeded.

(** Go [error] values, as far as the client makes or passes them on. *)
Inductive error :=
| Errorf (msg : string)                  (* fmt.Errorf with no %w: a new error *)
| Wrapf (prefix : string) (cause : error)  (* fmt.Errorf(prefix + "%w", cause) *)
| ApiError (e : OllamaError.t)           (* *OllamaError *)
| ContextError (c : CtxErr)              (* context.Canceled, context.DeadlineExceeded *)
| ErrTooLong                             (* bufio.ErrTooLong *)
| JSONError                              (* a syntax or type error of encoding/json *)
| Foreign (msg : string).                (* any other error a library returns *)

(** [errors.Unwrap] *)
Definition Unwrap (e : error) : option error :=
  match e with Wrapf _ c => Some c | _ => None end.

(** The error and everything it wraps, outermost first. *)
Fixpoint chain (e : error) : list error :=
  e :: match e with Wrapf _ c => chain c | _ => [] end.

(** [errors.As(err, &ollamaErr)] with [ollamaErr] a [*OllamaError]. *)
Fixpoint AsOllamaError (e : error) : option OllamaError.t :=
  match e with
  | ApiError o => Some o
  | Wrapf _ c => AsOllamaError c
  | _ => None
  end.

(** [errors.Is(err, context.Canceled)] and the like. *)
Fixpoint IsContextError (c : CtxErr) (e : error) : bool :=
  match e with
  | ContextError c' =>
      match c, c' with
      | Canceled, Canceled | DeadlineExceeded, DeadlineExceeded => true
      | _, _ => false
      end
  | Wrapf _ cause => IsContextError c cause
  | _ => false
  end.

(** A request body as [json.Marshal] writes it: the document, not its
    bytes. *)
Inductive wire :=
| WNull
| WBool (b : bool)
| WString (s : string)
| WArray (elems : list wire)
| WObject (members : list (string * wire)).

(** The types and functions of the Go runtime that the client uses and
    that are kept abstract here. *)
Class GoRuntime := {
  (** [time.Time], its zero value, and the parser [Time.UnmarshalJSON]
      applies to the bytes between the quotes. *)
  Time : Type;
  zeroTime : Time;
  parseStrictRFC3339 : string -> option Time;
  (** [float64] and [strconv.ParseFloat] on a number literal. *)
  Float64 : Type;
  zeroFloat64 : Float64;
  parseFloat64 : string -> option Float64;
  (** [map[string]interface{}]: its [len] and what [json.Marshal] makes of
      it (dynamic values can be unsupported). *)
  Options : Type;
  optionsLen : Options -> nat;
  marshalOptions : Options -> error + wire;
  (** [%q] of [fmt]. *)
  strconvQuote : string -> string;
  (** [url.JoinPath]. *)
  urlJoinPath : string -> string -> error + string;
  (** The checks of [http.NewRequestWithContext] on method and URL. *)
  httpNewRequestCheck : string -> string -> option error
}.

(** Sequencing of decoders. *)
Notation "'let*' x ':=' e 'in' k" :=
  (match e with Some x => k | None => None end)
  (at level 10, x name, e at level 100, k at level 200, only parsing).

(* ===================================================================== *)
(** * Data model (types.go) *)
(* ===================================================================== *)

Module Message.
Import Decode.
Record t := { Role : string; Content : string }.
Definition zero : t := {| Role := EmptyString; Content := EmptyString |}.
Definition fields (ms : list (string * Json.json)) (old : t) : option t :=
  let* role := field intoString "role" ms (Role old) in
  let* content := field intoString "content" ms (Content old) in
  Some {| Role := role; Content := content |}.
Definition marshal (m : t) : wire :=
  WObject [("role", WString (toValidUTF8 (Role m)));
           ("content", WString (toValidUTF8 (Content m)))].
End Message.

Module ModelDetails.
Import Decode.
Record t := {
  ParameterSize : string;
  QuantizationLevel : string;
  Family : string;
  ParentModel : string;
  Format : string
}.
Definition zero : t :=
  {| ParameterSize := EmptyString; QuantizationLevel := EmptyString;
     Family := EmptyString; ParentModel := EmptyString; Format := EmptyString |}.
Definition fields (ms : list (string * Json.json)) (old : t) : option t :=
  let* a := field intoString "parameter_size" ms (ParameterSize old) in
  let* b := field intoString "quantization_level" ms (QuantizationLevel old) in
  let* c := field intoString "family" ms (Family old) in
  let* d := field intoString "parent_model" ms (ParentModel old) in
  let* e := field intoString "format" ms (Format old) in
  Some {| ParameterSize := a; QuantizationLevel := b; Family := c;
          ParentModel := d; Format := e |}.
End ModelDetails.

Section RuntimeDecoders.
Context {rt : GoRuntime}.
Import Json Decode.

(** [time.Time] decodes itself ([UnmarshalJSON]): a string literal is
    parsed as written, [null] is ignored, anything else is an error. *)
Definition intoTime : Into Time := fun v old =>
  match v with
  | JString raw => parseStrictRFC3339 raw
  | JNull => Some old
  | _ => None
  end.

Definition intoFloat64 : Into Float64 := fun v old =>
  match v with
  | JNumber lit => parseFloat64 lit
  | JNull => Some old
  | _ => None
  end.
End RuntimeDecoders.

Module ModelResponse.
Import Decode.
Record t {rt : GoRuntime} := {
  Name : string;
  ModifiedAt : Time;
  Size : Z;
  Digest : string;
  Details : ModelDetails.t
}.
Section Decoding.
Context {rt : GoRuntime}.
Definition zero : t :=
  {| Name := EmptyString; ModifiedAt := zeroTime; Size := 0;
     Digest := EmptyString; Details := ModelDetails.zero |}.
Definition fields (ms : list (string * Json.json)) (old : t) : option t :=
  let* a := field intoString "name" ms (Name old) in
  let* b := field intoTime "modified_at" ms (ModifiedAt old) in
  let* c := field intoInt64 "size" ms (Size old) in
  let* d := field intoString "digest" ms (Digest old) in
  let* e := field (intoStruct ModelDetails.fields) "details" ms (Details old) in
  Some {| Name := a; ModifiedAt := b; Size := c; Digest := d; Details := e |}.
Definition unmarshal : string -> option t := Unmarshal fields zero.
End Decoding.
End ModelResponse.

Module ListModelsResponse.
Import Decode.
Record t {rt : GoRuntime} := { Models : list ModelResponse.t }.
Section Decoding.
Context {rt : GoRuntime}.
Definition zero : t := {| Models := [] |}.
Definition fields (ms : list (string * Json.json)) (old : t) : option t :=
  let* a := sliceField (intoStruct ModelResponse.fields) ModelResponse.zero
              "models" ms in
  Some {| Models := a |}.
Definition unmarshal : string -> option t := Unmarshal fields zero.
End Decoding.
End ListModelsResponse.

Module PSResponse.
Import Decode.
Record t {rt : GoRuntime} := { Models : list ModelResponse.t }.
Section Decoding.
Context {rt : GoRuntime}.
Definition zero : t := {| Models := [] |}.
Definition fields (ms : list (string * Json.json)) (old : t) : option t :=
  let* a := sliceField (intoStruct ModelResponse.fields) ModelResponse.zero
              "models" ms in
  Some {| Models := a |}.
Definition unmarshal : string -> option t := Unmarshal fields zero.
End Decoding.
End PSResponse.

Module GenerateRequest.
Import Decode.
Record t {rt : GoRuntime} := {
  Model : string;
  Prompt : string;
  Stream : bool;
  Options : Options
}.
Section Encoding.
Context {rt : GoRuntime}.
(** [stream] and [options] are tagged [omitempty]: a false flag and an
    empty or nil map are left out of the document. *)
Definition marshal (r : t) : error + wire :=
  let head := [("model", WString (toValidUTF8 (Model r)));
               ("prompt", WString (toValidUTF8 (Prompt r)))] in
  let stream := if Stream r then [("stream", WBool true)] else [] in
  match optionsLen (Options r) with
  | O => inr (WObject (head ++ stream))
  | S _ =>
      match marshalOptions (Options r) with
      | inl e => inl e
      | inr o => inr (WObject (head ++ stream ++ [("options", o)]))
      end
  end.
(** [reqCopy := *req; reqCopy.Stream = b] *)
Definition withStream (b : bool) (r : t) : t :=
  {| Model := Model r; Prompt := Prompt r; Stream := b; Options := Options r |}.
End Encoding.
End GenerateRequest.

Module GenerateResponse.
Import Decode.
Record t {rt : GoRuntime} := {
  Model : string;
  CreatedAt : Time;
  Response : string;
  Done : bool;
  Context : list Z;
  TotalDuration : Z;
  LoadDuration : Z;
  PromptEvalCount : Z;
  PromptEvalDuration : Z;
  EvalCount : Z;
  EvalDuration : Z
}.
Section Decoding.
Context {rt : GoRuntime}.
Definition zero : t :=
  {| Model := EmptyString; CreatedAt := zeroTime; Response := EmptyString;
     Done := false; Context := []; TotalDuration := 0; LoadDuration := 0;
     PromptEvalCount := 0; PromptEvalDuration := 0; EvalCount := 0;
     EvalDuration := 0 |}.
Definition fields (ms : list (string * Json.json)) (old : t) : option t :=
  let* a := field intoString "model" ms (Model old) in
  let* b := field intoTime "created_at" ms (CreatedAt old) in
  let* c := field intoString "response" ms (Response old) in
  let* d := field intoBool "done" ms (Done old) in
  let* e := sliceField intoInt64 0 "context" ms in
  let* f := field intoInt64 "total_duration" ms (TotalDuration old) in
  let* g := field intoInt64 "load_duration" ms (LoadDuration old) in
  let* h := field intoInt64 "prompt_eval_count" ms (PromptEvalCount old) in
  let* i := field intoInt64 "prompt_eval_duration" ms (PromptEvalDuration old) in
  let* j := field intoInt64 "eval_count" ms (EvalCount old) in
  let* k := field intoInt64 "eval_duration" ms (EvalDuration old) in
  Some {| Model := a; CreatedAt := b; Response := c; Done := d; Context := e;
          TotalDuration := f; LoadDuration := g; PromptEvalCount := h;
          PromptEvalDuration := i; EvalCount := j; EvalDuration := k |}.
Definition unmarshal : string -> option t := Unmarshal fields zero.
End Decoding.
End GenerateResponse.

Module ChatRequest.
Import Decode.
Record t {rt : GoRuntime} := {
  Model : string;
  Messages : list Message.t;
  Stream : bool;
  Options : Options
}.
Section Encoding.
Context {rt : GoRuntime}.
Definition marshal (r : t) : error + wire :=
  let head := [("model", WString (toValidUTF8 (Model r)));
               ("messages", WArray (map Message.marshal (Messages r)))] in
  let stream := if Stream r then [("stream", WBool true)] else [] in
  match optionsLen (Options r) with
  | O => inr (WObject (head ++ stream))
  | S _ =>
      match marshalOptions (Options r) with
      | inl e => inl e
      | inr o => inr (WObject (head ++ stream ++ [("options", o)]))
      end
  end.
Definition withStream (b : bool) (r : t) : t :=
  {| Model := Model r; Messages := Messages r; Stream := b; Options := Options r |}.
End Encoding.
End ChatRequest.

Module ChatResponse.
Import Decode.
Record t {rt : GoRuntime} := {
  Model : string;
  CreatedAt : Time;
  Message : Message.t;
  Done : bool;
  TotalDuration : Z;
  LoadDuration : Z;
  PromptEvalCount : Z;
  PromptEvalDuration : Z;
  EvalCount : Z;
  EvalDuration : Z
}.
Section Decoding.
Context {rt : GoRuntime}.
Definition zero : t :=
  {| Model := EmptyString; CreatedAt := zeroTime; Message := Message.zero;
     Done := false; TotalDuration := 0; LoadDuration := 0;
     PromptEvalCount := 0; PromptEvalDuration := 0; EvalCount := 0;
     EvalDuration := 0 |}.
Definition fields (ms : list (string * Json.json)) (old : t) : option t :=
  let* a := field intoString "model" ms (Model old) in
  let* b := field intoTime "created_at" ms (CreatedAt old) in
  let* c := field (intoStruct Message.fields) "message" ms (Message old) in
  let* d := field intoBool "done" ms (Done old) in
  let* f := field intoInt64 "total_duration" ms (TotalDuration old) in
  let* g := field intoInt64 "load_duration" ms (LoadDuration old) in
  let* h := field intoInt64 "prompt_eval_count" ms (PromptEvalCount old) in
  let* i := field intoInt64 "prompt_eval_duration" ms (PromptEvalDuration old) in
  let* j := field intoInt64 "eval_count" ms (EvalCount old) in
  let* k := field intoInt64 "eval_duration" ms (EvalDuration old) in
  Some {| Model := a; CreatedAt := b; Message := c; Done := d;
          TotalDuration := f; LoadDuration := g; PromptEvalCount := h;
          PromptEvalDuration := i; EvalCount := j; EvalDuration := k |}.
Definition unmarshal : string -> option t := Unmarshal fields zero.
End Decoding.
End ChatResponse.

Module EmbeddingRequest.
Import Decode.
Record t := { Model : string; Prompt : string }.
Definition marshal (r : t) : wire :=
  WObject [("model", WString (toValidUTF8 (Model r)));
           ("prompt", WString (toValidUTF8 (Prompt r)))].
End EmbeddingRequest.

Module EmbeddingResponse.
Import Decode.
Record t {rt : GoRuntime} := { Embedding : list Float64 }.
Section Decoding.
Context {rt : GoRuntime}.
Definition zero : t := {| Embedding := [] |}.
Definition fields (ms : list (string * Json.json)) (old : t) : option t :=
  let* a := sliceField intoFloat64 zeroFloat64 "embedding" ms in
  Some {| Embedding := a |}.
Definition unmarshal : string -> option t := Unmarshal fields zero.
End Decoding.
End EmbeddingResponse.

Module ShowRequest.
Record t := { Model : string }.
Definition marshal (r : t) : wire :=
  WObject [("model", WString (Decode.toValidUTF8 (Model r)))].
End ShowRequest.

Module CopyRequest.
Record t := { Source : string; Destination : string }.
Definition marshal (r : t) : wire :=
  WObject [("source", WString (Decode.toValidUTF8 (Source r)));
           ("destination", WString (Decode.toValidUTF8 (Destination r)))].
End CopyRequest.

Module DeleteRequest.
Record t := { Model : string }.
Definition marshal (r : t) : wire :=
  WObject [("model", WString (Decode.toValidUTF8 (Model r)))].
End DeleteRequest.

Module PullRequest.
Record t := { Model : string }.
Definition marshal (r : t) : wire :=
  WObject [("model", WString (Decode.toValidUTF8 (Model r)))].
End PullRequest.

Module PullProgress.
Import Decode.
Record t := { Status : string; Digest : string; Total : Z; Completed : Z }.
Definition zero : t :=
  {| Status := EmptyString; Digest := EmptyString; Total := 0; Completed := 0 |}.
Definition fields (ms : list (string * Json.json)) (old : t) : option t :=
  let* a := field intoString "status" ms (Status old) in
  let* b := field intoString "digest" ms (Digest old) in
  let* c := field intoInt64 "total" ms (Total old) in
  let* d := field intoInt64 "completed" ms (Completed old) in
  Some {| Status := a; Digest := b; Total := c; Completed := d |}.
Definition unmarshal : string -> option t := Unmarshal fields zero.
End PullProgress.

Module CreateRequest.
Record t := { Model : string; Modelfile : string }.
Definition marshal (r : t) : wire :=
  WObject [("name", WString (Decode.toValidUTF8 (Model r)));
           ("modelfile", WString (Decode.toValidUTF8 (Modelfile r)))].
End CreateRequest.

Module CreateProgress.
Import Decode.
Record t := { Status : string }.
Definition zero : t := {| Status := EmptyString |}.
Definition fields (ms : list (string * Json.json)) (old : t) : option t :=
  let* a := field intoString "status" ms (Status old) in
  Some {| Status := a |}.
Definition unmarshal : string -> option t := Unmarshal fields zero.
End CreateProgress.

Module PushRequest.
Record t := { Model : string }.
Definition marshal (r : t) : wire :=
  WObject [("name", WString (Decode.toValidUTF8 (Model r)))].
End PushRequest.

Module PushProgress.
Import Decode.
Record t := { Status : string; Digest : string; Total : Z; Completed : Z }.
Definition zero : t :=
  {| Status := EmptyString; Digest := EmptyString; Total := 0; Completed := 0 |}.
Definition fields (ms : list (string * Json.json)) (old : t) : option t :=
  let* a := field intoString "status" ms (Status old) in
  let* b := field intoString "digest" ms (Digest old) in
  let* c := field intoInt64 "total" ms (Total old) in
  let* d := field intoInt64 "completed" ms (Completed old) in
  Some {| Status := a; Digest := b; Total := c; Completed := d |}.
Definition unmarshal : string -> option t := Unmarshal fields zero.
End PushProgress.

(** [ErrorResponse]: the error envelope of the server. *)
Module ErrorResponse.
Import Decode.
Record t := { Error : string }.
Definition zero : t := {| Error := EmptyString |}.
Definition fields (ms : list (string * Json.json)) (old : t) : option t :=
  let* a := field intoString "error" ms (Error old) in
  Some {| Error := a |}.
Definition unmarshal : string -> option t := Unmarshal fields zero.
End ErrorResponse.

(** [parseErrorResponse]: the structured error of a failed response.  A
    body that decodes as the envelope gives its [error] member as the
    message; any other body is the message itself. *)
Definition parseErrorResponse (statusCode : Z) (body : string) : error :=
  match ErrorResponse.unmarshal body with
  | None =>
      ApiError {| OllamaError.StatusCode := statusCode; OllamaError.Message := body |}
  | Some errorResp =>
      ApiError {| OllamaError.StatusCode := statusCode;
                  OllamaError.Message := ErrorResponse.Error errorResp |}
  end.

(* ===================================================================== *)
(** * The network, the caller, and the client (gollama.go) *)
(* ===================================================================== *)

Module HttpRequest.
Record t := {
  Method : string;
  URL : string;
  Header : list (string * string);
  Body : option wire
}.

(** [req.Header.Set(key, value)] *)
Definition HeaderSet (key value : string) (r : t) : t :=
  {| Method := Method r; URL := URL r;
     Header := filter (fun kv => negb (String.eqb (fst kv) key)) (Header r)
                 ++ [(key, value)];
     Body := Body r |}.
End HttpRequest.

(** A response body as a reader: the bytes it delivers and, when reading
    does not end with end-of-file, the error that ends it.  The reader
    reports its end on a read of its own, after the last byte. *)
Module ResponseBody.
Record t := { data : string; readErr : option error }.

(** [io.ReadAll] *)
Definition ReadAll (b : t) : error + string :=
  match readErr b with
  | Some e => inl e
  | None => inr (data b)
  end.
End ResponseBody.

Module HttpResponse.
Record t := { StatusCode : Z; Body : ResponseBody.t }.
End HttpResponse.

(** [*http.Client]: what [Do] answers to a request, given the state of the
    context the request carries. *)
Record HttpClient := {
  Do : option CtxErr -> HttpRequest.t -> error + HttpResponse.t
}.

(** [Client] *)
Record Client := { httpClient : HttpClient; baseURL : string }.

(** [NewClient(host ...string)].  The [http.Client] it builds stands for the
    network and is an argument here. *)
Definition NewClient (network : HttpClient) (host : list string) : Client * option error :=
  let baseURL :=
    match host with
    | h :: _ => if Bytes.isEmpty h then "http://localhost:11434" else h
    | [] => "http://localhost:11434"
    end in
  ({| httpClient := network; baseURL := baseURL |}, None).

Definition BaseURL (c : Client) : string := baseURL c.

Definition MethodGet : string := "GET".
Definition MethodPost : string := "POST".
Definition MethodDelete : string := "DELETE".

Section Gollama.
Context {rt : GoRuntime}.
(** Whatever else the calling program holds. *)
Variable U : Type.

Import Bytes Strings Bufio.

(** The calling program as far as a call can touch it: the context it
    passes ([ctxErr] is [ctx.Err()]), the request structs it passes by
    pointer (a pointer is an address into the store of its type), and
    the rest of its state, which only its callbacks know. *)
Record Caller := {
  ctxErr : option CtxErr;
  generateRequests : nat -> GenerateRequest.t;
  chatRequests : nat -> ChatRequest.t;
  embeddingRequests : nat -> EmbeddingRequest.t;
  user : U
}.

(** [sent]: the requests handed to [httpClient.Do] so far, oldest first. *)
Record World := { sent : list HttpRequest.t; caller : Caller }.

(** A Go function body: it runs in a world, and ends with an error or
    with its result. *)
Definition M (A : Type) : Type := World -> (error + A) * World.

Definition ret {A : Type} (a : A) : M A := fun w => (inr a, w).
Definition fail {A : Type} (e : error) : M A := fun w => (inl e, w).
Definition bind {A B : Type} (m : M A) (k : A -> M B) : M B :=
  fun w =>
    match m w with
    | (inl e, w') => (inl e, w')
    | (inr a, w') => k a w'
    end.

Notation "x <- m ;; k" := (bind m (fun x => k))
  (at level 61, m at next level, right associativity).

(** [v, err := f(...); if err != nil { return fmt.Errorf(prefix+"%w", err) }] *)
Definition try {A : Type} (prefix : string) (r : error + A) : M A :=
  match r with
  | inl e => fail (Wrapf prefix e)
  | inr a => ret a
  end.

(** The same for a call that runs in the world. *)
Definition tryM {A : Type} (prefix : string) (m : M A) : M A :=
  fun w =>
    match m w with
    | (inl e, w') => (inl (Wrapf prefix e), w')
    | (inr a, w') => (inr a, w')
    end.

Definition getCaller : M Caller := fun w => (inr (caller w), w).

(** A callback runs: the caller's state changes, the log of requests
    does not (a callback is taken not to call the client itself). *)
Definition runCaller {A : Type} (f : Caller -> A * Caller) : M A :=
  fun w => let (a, c') := f (caller w) in
           (inr a, {| sent := sent w; caller := c' |}).

(** [c.httpClient.Do(req)] *)
Definition httpClientDo (c : Client) (req : HttpRequest.t) : M HttpResponse.t :=
  fun w => (Do (httpClient c) (ctxErr (caller w)) req,
            {| sent := sent w ++ [req]; caller := caller w |}).

(** [http.NewRequestWithContext(ctx, method, u, body)] *)
Definition NewRequestWithContext (method u : string) (body : option wire)
  : error + HttpRequest.t :=
  match httpNewRequestCheck method u with
  | Some e => inl e
  | None => inr {| HttpRequest.Method := method; HttpRequest.URL := u;
                   HttpRequest.Header := []; HttpRequest.Body := body |}
  end.

(** The two [Header.Set] calls every request gets. *)
Definition setHeaders (r : HttpRequest.t) : HttpRequest.t :=
  HttpRequest.HeaderSet "Accept" "application/json"
    (HttpRequest.HeaderSet "Content-Type" "application/json" r).

Definition non2xx (statusCode : Z) : bool :=
  (statusCode <? 200) || (statusCode >=? 300).

(** The values passed to [json.Marshal] as request bodies. *)
Inductive Payload :=
| PShow (r : ShowRequest.t)
| PCopy (r : CopyRequest.t)
| PDelete (r : DeleteRequest.t)
| PPull (r : PullRequest.t)
| PCreate (r : CreateRequest.t)
| PPush (r : PushRequest.t)
| PGenerate (r : GenerateRequest.t)
| PChat (r : ChatRequest.t)
| PEmbedding (r : EmbeddingRequest.t).

(** [json.Marshal] *)
Definition jsonMarshal (p : Payload) : error + wire :=
  match p with
  | PShow r => inr (ShowRequest.marshal r)
  | PCopy r => inr (CopyRequest.marshal r)
  | PDelete r => inr (DeleteRequest.marshal r)
  | PPull r => inr (PullRequest.marshal r)
  | PCreate r => inr (CreateRequest.marshal r)
  | PPush r => inr (PushRequest.marshal r)
  | PGenerate r => GenerateRequest.marshal r
  | PChat r => ChatRequest.marshal r
  | PEmbedding r => inr (EmbeddingRequest.marshal r)
  end.

(** ** The unary executor *)

(** [do].  [resBody] is the pointer to the response target: [None] for
    nil, else the decoder of the target's type; [target] is what the
    target holds when [do] is called, and the result is what it holds
    when [do] returns. *)
Definition do {A : Type} (c : Client) (method path : string)
    (reqBody : option Payload) (resBody : option (string -> option A))
    (target : A) : M A :=
  u <- try "failed to construct URL: " (urlJoinPath (baseURL c) path) ;;
  body <- match reqBody with
          | Some p =>
              jsonData <- try "failed to marshal request body: " (jsonMarshal p) ;;
              ret (Some jsonData)
          | None => ret None
          end ;;
  req <- try "failed to create request: " (NewRequestWithContext method u body) ;;
  resp <- tryM "failed to execute request: " (httpClientDo c (setHeaders req)) ;;
  respBody <- try "failed to read response body: "
                (ResponseBody.ReadAll (HttpResponse.Body resp)) ;;
  if non2xx (HttpResponse.StatusCode resp) then
    fail (parseErrorResponse (HttpResponse.StatusCode resp) respBody)
  else
    match resBody with
    | Some unmarshal =>
        if isEmpty respBody then ret target
        else match unmarshal respBody with
             | None => fail (Wrapf "failed to unmarshal response body: " JSONError)
             | Some v => ret v
             end
    | None => ret target
    end.

(** ** The streaming loops *)

(** [bufio.NewScanner(resp.Body)]: the tokens [Scan] will produce and how
    scanning ends. *)
Record Scanner := { tokens : list Token; ending : Ending; reader : ResponseBody.t }.

Definition NewScanner (body : ResponseBody.t) : Scanner :=
  let (toks, e) := ScanLines (ResponseBody.data body) in
  {| tokens := toks; ending := e; reader := body |}.

(** How a read loop is left. *)
Inductive LoopExit :=
| Exhausted                 (* Scan returned false *)
| Broke (atEnd : bool)      (* break, after the token just scanned *)
| Returned (e : error).     (* return from inside the loop *)

(** [scanner.Err()] after the loop: the scanner has an error to report
    once it has met the end of the reader or a line that is too long. *)
Definition ScannerErr (s : Scanner) (exit : LoopExit) : option error :=
  match exit with
  | Exhausted =>
      match ending s with
      | TooLong => Some ErrTooLong
      | Drained => ResponseBody.readErr (reader s)
      end
  | Broke true => ResponseBody.readErr (reader s)
  | _ => None
  end.

(** The loop of [Pull], [Create] and [Push], for a progress record [R]:
<<
    for scanner.Scan() {
        line := strings.TrimSpace(scanner.Text())
        if line == "" { continue }
        var progress R
        if err := json.Unmarshal([]byte(line), &progress); err != nil { continue }
        fn(progress)
    }
>> *)
Fixpoint progressLoop {R : Type} (unmarshal : string -> option R)
    (fn : R -> Caller -> Caller) (toks : list Token) (c : Caller)
  : LoopExit * Caller :=
  match toks with
  | [] => (Exhausted, c)
  | tok :: rest =>
      let line := TrimSpace (text tok) in
      if isEmpty line then progressLoop unmarshal fn rest c
      else match unmarshal line with
           | None => progressLoop unmarshal fn rest c
           | Some progress => progressLoop unmarshal fn rest (fn progress c)
           end
  end.

(** The loop of [GenerateStream] and [ChatStream], for a response record
    [R] with its [Done] flag:
<<
    for scanner.Scan() {
        select {
        case <-ctx.Done(): return ctx.Err()
        default:
        }
        line := strings.TrimSpace(scanner.Text())
        if line == "" { continue }
        var response R
        if err := json.Unmarshal([]byte(line), &response); err != nil { continue }
        fn(&response)
        if response.Done { break }
    }
>>
    The callback gets the address of [response], so the flag tested after
    it is the one the callback leaves in the struct. *)
Fixpoint responseLoop {R : Type} (unmarshal : string -> option R)
    (done : R -> bool) (fn : R -> Caller -> R * Caller) (toks : list Token)
    (c : Caller) : LoopExit * Caller :=
  match toks with
  | [] => (Exhausted, c)
  | tok :: rest =>
      match ctxErr c with
      | Some e => (Returned (ContextError e), c)
      | None =>
          let line := TrimSpace (text tok) in
          if isEmpty line then responseLoop unmarshal done fn rest c
          else match unmarshal line with
               | None => responseLoop unmarshal done fn rest c
               | Some decoded =>
                   let (response, c') := fn decoded c in
                   if done response then (Broke (atEnd tok), c')
                   else responseLoop unmarshal done fn rest c'
               end
      end
  end.

(** The part of a streaming operation after the status check: the loop,
    then
<<
    if err := scanner.Err(); err != nil { return fmt.Errorf(prefix+"%w", err) }
    return nil
>> *)
Definition stream (prefix : string) (body : ResponseBody.t)
    (loop : list Token -> Caller -> LoopExit * Caller) : M unit :=
  let scanner := NewScanner body in
  exit <- runCaller (loop (tokens scanner)) ;;
  match exit with
  | Returned e => fail e
  | _ =>
      match ScannerErr scanner exit with
      | Some err => fail (Wrapf prefix err)
      | None => ret tt
      end
  end.

(** The branch every streaming operation takes on a status outside
    [200,300). *)
Definition failedStatus {A : Type} (what : string) (resp : HttpResponse.t) : M A :=
  match ResponseBody.ReadAll (HttpResponse.Body resp) with
  | inl readErr =>
      fail (Wrapf (what ++ " request failed with status "
                     ++ itoa (HttpResponse.StatusCode resp)
                     ++ " and could not read response body: ") readErr)
  | inr respBody => fail (parseErrorResponse (HttpResponse.StatusCode resp) respBody)
  end.

(** ** Model management *)

Definition List (c : Client) : M ListModelsResponse.t :=
  tryM "failed to list models: "
    (do c MethodGet "/api/tags" None
        (Some ListModelsResponse.unmarshal) ListModelsResponse.zero).

Definition Show (c : Client) (modelName : string) : M ModelResponse.t :=
  if isEmpty modelName then fail (Errorf "model name cannot be empty") else
  let req := {| ShowRequest.Model := modelName |} in
  tryM ("failed to show model " ++ strconvQuote modelName ++ ": ")
    (do c MethodPost "/api/show" (Some (PShow req))
        (Some ModelResponse.unmarshal) ModelResponse.zero).

Definition Copy (c : Client) (source destination : string) : M unit :=
  if isEmpty source then fail (Errorf "source model name cannot be empty") else
  if isEmpty destination then fail (Errorf "destination model name cannot be empty") else
  let req := {| CopyRequest.Source := source; CopyRequest.Destination := destination |} in
  tryM ("failed to copy model from " ++ strconvQuote source ++ " to "
          ++ strconvQuote destination ++ ": ")
    (do c MethodPost "/api/copy" (Some (PCopy req)) None tt).

Definition Delete (c : Client) (modelName : string) : M unit :=
  if isEmpty modelName then fail (Errorf "model name cannot be empty") else
  let req := {| DeleteRequest.Model := modelName |} in
  tryM ("failed to delete model " ++ strconvQuote modelName ++ ": ")
    (do c MethodDelete "/api/delete" (Some (PDelete req)) None tt).

Definition Pull (c : Client) (modelName : string)
    (fn : option (PullProgress.t -> Caller -> Caller)) : M unit :=
  if isEmpty modelName then fail (Errorf "model name cannot be empty") else
  match fn with
  | None => fail (Errorf "progress callback function cannot be nil")
  | Some fn =>
      let req := {| PullRequest.Model := modelName |} in
      jsonData <- try "failed to marshal pull request: " (jsonMarshal (PPull req)) ;;
      u <- try "failed to construct URL: " (urlJoinPath (baseURL c) "/api/pull") ;;
      httpReq <- try "failed to create request: "
                   (NewRequestWithContext MethodPost u (Some jsonData)) ;;
      resp <- tryM "failed to execute pull request: "
                (httpClientDo c (setHeaders httpReq)) ;;
      if non2xx (HttpResponse.StatusCode resp) then failedStatus "pull" resp
      else stream "error reading pull response stream: " (HttpResponse.Body resp)
             (progressLoop PullProgress.unmarshal fn)
  end.

Definition Create (c : Client) (modelName modelfileContent : string)
    (fn : option (CreateProgress.t -> Caller -> Caller)) : M unit :=
  if isEmpty modelName then fail (Errorf "model name cannot be empty") else
  if isEmpty modelfileContent then fail (Errorf "modelfile content cannot be empty") else
  match fn with
  | None => fail (Errorf "progress callback function cannot be nil")
  | Some fn =>
      let req := {| CreateRequest.Model := modelName;
                    CreateRequest.Modelfile := modelfileContent |} in
      jsonData <- try "failed to marshal create request: " (jsonMarshal (PCreate req)) ;;
      u <- try "failed to construct URL: " (urlJoinPath (baseURL c) "/api/create") ;;
      httpReq <- try "failed to create request: "
                   (NewRequestWithContext MethodPost u (Some jsonData)) ;;
      resp <- tryM "failed to execute create request: "
                (httpClientDo c (setHeaders httpReq)) ;;
      if non2xx (HttpResponse.StatusCode resp) then failedStatus "create" resp
      else stream "error reading create response stream: " (HttpResponse.Body resp)
             (progressLoop CreateProgress.unmarshal fn)
  end.

Definition Push (c : Client) (modelName : string)
    (fn : option (PushProgress.t -> Caller -> Caller)) : M unit :=
  if isEmpty modelName then fail (Errorf "model name cannot be empty") else
  match fn with
  | None => fail (Errorf "progress callback function cannot be nil")
  | Some fn =>
      let req := {| PushRequest.Model := modelName |} in
      jsonData <- try "failed to marshal push request: " (jsonMarshal (PPush req)) ;;
      u <- try "failed to construct URL: " (urlJoinPath (baseURL c) "/api/push") ;;
      httpReq <- try "failed to create request: "
                   (NewRequestWithContext MethodPost u (Some jsonData)) ;;
      resp <- tryM "failed to execute push request: "
                (httpClientDo c (setHeaders httpReq)) ;;
      if non2xx (HttpResponse.StatusCode resp) then failedStatus "push" resp
      else stream "error reading push response stream: " (HttpResponse.Body resp)
             (progressLoop PushProgress.unmarshal fn)
  end.

(** ** Generation, chat, embeddings, process status *)

(** [*req] for the three request types passed by pointer. *)
Definition loadGenerateRequest (p : nat) : M GenerateRequest.t :=
  fun w => (inr (generateRequests (caller w) p), w).
Definition loadChatRequest (p : nat) : M ChatRequest.t :=
  fun w => (inr (chatRequests (caller w) p), w).
Definition loadEmbeddingRequest (p : nat) : M EmbeddingRequest.t :=
  fun w => (inr (embeddingRequests (caller w) p), w).

Definition Generate (c : Client) (req : option nat) : M GenerateResponse.t :=
  match req with
  | None => fail (Errorf "generate request cannot be nil")
  | Some p =>
      r <- loadGenerateRequest p ;;
      if isEmpty (GenerateRequest.Model r) then fail (Errorf "model name cannot be empty") else
      let reqCopy := GenerateRequest.withStream false r in
      tryM "failed to generate text: "
        (do c MethodPost "/api/generate" (Some (PGenerate reqCopy))
            (Some GenerateResponse.unmarshal) GenerateResponse.zero)
  end.

Definition GenerateStream (c : Client) (req : option nat)
    (fn : option (GenerateResponse.t -> Caller -> GenerateResponse.t * Caller)) : M unit :=
  match req with
  | None => fail (Errorf "generate request cannot be nil")
  | Some p =>
      r <- loadGenerateRequest p ;;
      if isEmpty (GenerateRequest.Model r) then fail (Errorf "model name cannot be empty") else
      match fn with
      | None => fail (Errorf "callback function cannot be nil")
      | Some fn =>
          let reqCopy := GenerateRequest.withStream true r in
          jsonData <- try "failed to marshal generate request: "
                        (jsonMarshal (PGenerate reqCopy)) ;;
          u <- try "failed to construct URL: " (urlJoinPath (baseURL c) "/api/generate") ;;
          httpReq <- try "failed to create request: "
                       (NewRequestWithContext MethodPost u (Some jsonData)) ;;
          resp <- tryM "failed to execute generate request: "
                    (httpClientDo c (setHeaders httpReq)) ;;
          if non2xx (HttpResponse.StatusCode resp) then failedStatus "generate" resp
          else stream "error reading generate response stream: " (HttpResponse.Body resp)
                 (responseLoop GenerateResponse.unmarshal GenerateResponse.Done fn)
      end
  end.

Definition Chat (c : Client) (req : option nat) : M ChatResponse.t :=
  match req with
  | None => fail (Errorf "chat request cannot be nil")
  | Some p =>
      r <- loadChatRequest p ;;
      if isEmpty (ChatRequest.Model r) then fail (Errorf "model name cannot be empty") else
      match ChatRequest.Messages r with
      | [] => fail (Errorf "at least one message is required")
      | _ :: _ =>
          let reqCopy := ChatRequest.withStream false r in
          tryM "failed to chat: "
            (do c MethodPost "/api/chat" (Some (PChat reqCopy))
                (Some ChatResponse.unmarshal) ChatResponse.zero)
      end
  end.

Definition ChatStream (c : Client) (req : option nat)
    (fn : option (ChatResponse.t -> Caller -> ChatResponse.t * Caller)) : M unit :=
  match req with
  | None => fail (Errorf "chat request cannot be nil")
  | Some p =>
      r <- loadChatRequest p ;;
      if isEmpty (ChatRequest.Model r) then fail (Errorf "model name cannot be empty") else
      match ChatRequest.Messages r with
      | [] => fail (Errorf "at least one message is required")
      | _ :: _ =>
          match fn with
          | None => fail (Errorf "callback function cannot be nil")
          | Some fn =>
              let reqCopy := ChatRequest.withStream true r in
              jsonData <- try "failed to marshal chat request: "
                            (jsonMarshal (PChat reqCopy)) ;;
              u <- try "failed to construct URL: " (urlJoinPath (baseURL c) "/api/chat") ;;
              httpReq <- try "failed to create request: "
                           (NewRequestWithContext MethodPost u (Some jsonData)) ;;
              resp <- tryM "failed to execute chat request: "
                        (httpClientDo c (setHeaders httpReq)) ;;
              if non2xx (HttpResponse.StatusCode resp) then failedStatus "chat" resp
              else stream "error reading chat response stream: " (HttpResponse.Body resp)
                     (responseLoop ChatResponse.unmarshal ChatResponse.Done fn)
          end
      end
  end.

Definition Embeddings (c : Client) (req : option nat) : M EmbeddingResponse.t :=
  match req with
  | None => fail (Errorf "embedding request cannot be nil")
  | Some p =>
      r <- loadEmbeddingRequest p ;;
      if isEmpty (EmbeddingRequest.Model r) then fail (Errorf "model name cannot be empty") else
      if isEmpty (EmbeddingRequest.Prompt r) then fail (Errorf "prompt cannot be empty") else
      tryM "failed to generate embeddings: "
        (do c MethodPost "/api/embeddings" (Some (PEmbedding r))
            (Some EmbeddingResponse.unmarshal) EmbeddingResponse.zero)
  end.

Definition PS (c : Client) : M PSResponse.t :=
  tryM "failed to get process status: "
    (do c MethodGet "/api/ps" None (Some PSResponse.unmarshal) PSResponse.zero).

(** ** The public surface as a whole *)

(** A call of a public operation with its arguments (the context is the
    caller's [ctxErr]). *)
Inductive Call :=
| CallList
| CallShow (modelName : string)
| CallCopy (source destination : string)
| CallDelete (modelName : string)
| CallPull (modelName : string) (fn : option (PullProgress.t -> Caller -> Caller))
| CallCreate (modelName modelfileContent : string)
    (fn : option (CreateProgress.t -> Caller -> Caller))
| CallPush (modelName : string) (fn : option (PushProgress.t -> Caller -> Caller))
| CallGenerate (req : option nat)
| CallGenerateStream (req : option nat)
    (fn : option (GenerateResponse.t -> Caller -> GenerateResponse.t * Caller))
| CallChat (req : option nat)
| CallChatStream (req : option nat) (fn : option (ChatResponse.t -> Caller -> ChatResponse.t * Caller))
| CallEmbeddings (req : option nat)
| CallPS.

(** The [error] result of a run, and the world it leaves. *)
Definition errorOf {A : Type} (r : (error + A) * World) : option error * World :=
  (match fst r with inl e => Some e | inr _ => None end, snd r).

Definition invoke (c : Client) (call : Call) (w : World) : option error * World :=
  match call with
  | CallList => errorOf (List c w)
  | CallShow m => errorOf (Show c m w)
  | CallCopy s d => errorOf (Copy c s d w)
  | CallDelete m => errorOf (Delete c m w)
  | CallPull m fn => errorOf (Pull c m fn w)
  | CallCreate m f fn => errorOf (Create c m f fn w)
  | CallPush m fn => errorOf (Push c m fn w)
  | CallGenerate r => errorOf (Generate c r w)
  | CallGenerateStream r fn => errorOf (GenerateStream c r fn w)
  | CallChat r => errorOf (Chat c r w)
  | CallChatStream r fn => errorOf (ChatStream c r fn w)
  | CallEmbeddings r => errorOf (Embeddings c r w)
  | CallPS => errorOf (PS c w)
  end.

End Gollama.

Arguments CallList {rt U}.
Arguments CallShow {rt U} modelName.
Arguments CallCopy {rt U} source destination.
Arguments CallDelete {rt U} modelName.
Arguments CallPull {rt U} modelName fn.
Arguments CallCreate {rt U} modelName modelfileContent fn.
Arguments CallPush {rt U} modelName fn.
Arguments CallGenerate {rt U} req.
Arguments CallGenerateStream {rt U} req fn.
Arguments CallChat {rt U} req.
Arguments CallChatStream {rt U} req fn.
Arguments CallEmbeddings {rt U} req.
Arguments CallPS {rt U}.

(* ===================================================================== *)
(** * Vocabulary of the properties *)
(* ===================================================================== *)

Section Vocabulary.
Context {rt : GoRuntime}.
Variable U : Type.
Import Bytes Strings Bufio.

(** ** Response bodies made of lines *)

(** [dropCR] on a line given in reading order. *)
Definition dropCR (line : string) : string := dropCR_rev (rev line).

(** The text the loops hand to [json.Unmarshal] for a line. *)
Definition trimmed (line : string) : string := TrimSpace (dropCR line).

(** A body whose lines are [lines]: a newline after every line, the last
    one only if [terminated]. *)
Fixpoint framed (terminated : bool) (lines : list string) : string :=
  match lines with
  | [] => EmptyString
  | l :: rest =>
      match rest with
      | [] => if terminated then l ++ String LF EmptyString else l
      | _ => l ++ String LF (framed terminated rest)
      end
  end.

(** A line as the scanner can take it: no newline inside, and short
    enough for the scanner's buffer. *)
Definition fits (line : string) : Prop :=
  contains LF line = false /\ (lengthN line < MaxScanTokenSize)%N.

(** [yields unmarshal line o]: the line is not blank, and decoding it
    gives the record [r] ([o = Some r]) or fails ([o = None]). *)
Definition yields {R : Type} (unmarshal : string -> option R)
    (line : string) (o : option R) : Prop :=
  fits line /\ isEmpty (trimmed line) = false /\ unmarshal (trimmed line) = o.

(** A valid line and the record it carries. *)
Definition carries {R : Type} (unmarshal : string -> option R)
    (line : string) (r : R) : Prop :=
  yields unmarshal line (Some r).

(** The records among the outcomes of a sequence of lines. *)
Definition records {R : Type} (outcomes : list (option R)) : list R :=
  flat_map (fun o => match o with Some r => [r] | None => [] end) outcomes.

(** The callback applied to the records [rs], one after the other. *)
Definition callbacks {R : Type} (fn : R -> Caller U -> Caller U) (rs : list R)
    (k : Caller U) : Caller U :=
  fold_left (fun k r => fn r k) rs k.

(** A byte that can be part of white space as [TrimSpace] knows it: one
    of the six ASCII spaces, or a byte of a longer code point. *)
Definition spaceByte (a : ascii) : bool := asciiSpace a || (128 <=? code a)%N.

Fixpoint spacey (s : string) : bool :=
  match s with
  | EmptyString => true
  | String a r => spaceByte a && spacey r
  end.

Fixpoint spaceFree (s : string) : bool :=
  match s with
  | EmptyString => true
  | String a r => negb (spaceByte a) && spaceFree r
  end.

(** The lexer states that occur: the rest of a literal is letters. *)
Definition lexReachable (st : Json.LexState) : Prop :=
  match st with
  | Json.InLiteral _ expect => spaceFree expect = true
  | _ => True
  end.

(** A valid line as the specification has it: the line itself is the
    JSON text of the record. *)
Definition validLine {R : Type} (unmarshal : string -> option R)
    (line : string) (r : R) : Prop :=
  fits line /\ unmarshal line = Some r.

(** The tokens the scanner makes of the lines of a body. *)
Fixpoint lineTokens (terminated : bool) (lines : list string) : list Token :=
  match lines with
  | [] => []
  | l :: rest =>
      {| text := dropCR l;
         atEnd := match rest with [] => negb terminated | _ => false end |}
        :: lineTokens terminated rest
  end.

(** What a token gives once trimmed and decoded. *)
Definition decode {R : Type} (unmarshal : string -> option R) (tok : Token)
  : option R :=
  let line := TrimSpace (text tok) in
  if isEmpty line then None else unmarshal line.

(** The records a loop finds in a sequence of tokens. *)
Definition decoded {R : Type} (unmarshal : string -> option R)
    (toks : list Token) : list R :=
  records (map (decode unmarshal) toks).

(** ** Exchanges with the server *)

(** The request a call makes for [payload] at [path] and the response it
    gets, when every step up to the response succeeds. *)
Definition exchange (c : Client) (w : World U) (method path : string)
    (payload : option (Payload (rt := rt))) : option (HttpRequest.t * HttpResponse.t) :=
  match urlJoinPath (baseURL c) path with
  | inl _ => None
  | inr u =>
      let body :=
        match payload with
        | None => inr None
        | Some p => match jsonMarshal p with inl e => inl e | inr d => inr (Some d) end
        end in
      match body with
      | inl _ => None
      | inr b =>
          match NewRequestWithContext method u b with
          | inl _ => None
          | inr req =>
              match Do (httpClient c) (ctxErr (caller w)) (setHeaders req) with
              | inl _ => None
              | inr resp => Some (setHeaders req, resp)
              end
          end
      end
  end.

(** The server answers the request for [payload] at [path] with a status
    in [200,300) and the body [body]. *)
Definition streams (c : Client) (w : World U) (path : string)
    (payload : Payload (rt := rt)) (req : HttpRequest.t) (body : ResponseBody.t) : Prop :=
  exists status,
    exchange c w MethodPost path (Some payload)
      = Some (req, {| HttpResponse.StatusCode := status; HttpResponse.Body := body |})
    /\ non2xx status = false.

(** The world after a call that sent [req] and ran the callback on [rs]. *)
Definition after {R : Type} (w : World U) (req : HttpRequest.t)
    (fn : R -> Caller U -> Caller U) (rs : list R) : World U :=
  {| sent := sent w ++ [req]; caller := callbacks fn rs (caller w) |}.

(** What a callback that gets its record by pointer does to the caller's
    state. *)
Definition effect {R : Type} (fn : R -> Caller U -> R * Caller U)
  : R -> Caller U -> Caller U :=
  fun r k => snd (fn r k).

(** The callback [fn] with a guard: it does nothing once the context is
    done. *)
Definition guarded {R : Type} (fn : R -> Caller U -> R * Caller U)
  : R -> Caller U -> R * Caller U :=
  fun r k => match ctxErr k with Some _ => (r, k) | None => fn r k end.

(** ** The members of a request body *)


(** ** Validation *)

Definition isNil {A : Type} (x : option A) : bool :=
  match x with None => true | Some _ => false end.

(** The calls the specification wants refused before any network
    access: an empty required identifier, an empty message list, a nil
    callback, a nil request. *)
Definition invalid (call : Call U) (w : World U) : bool :=
  match call with
  | CallList | CallPS => false
  | CallShow m => isEmpty m
  | CallCopy s d => isEmpty s || isEmpty d
  | CallDelete m => isEmpty m
  | CallPull m fn => isEmpty m || isNil fn
  | CallCreate m f fn => isEmpty m || isEmpty f || isNil fn
  | CallPush m fn => isEmpty m || isNil fn
  | CallGenerate req =>
      match req with
      | None => true
      | Some p => isEmpty (GenerateRequest.Model (generateRequests (caller w) p))
      end
  | CallGenerateStream req fn =>
      match req with
      | None => true
      | Some p => isEmpty (GenerateRequest.Model (generateRequests (caller w) p))
      end || isNil fn
  | CallChat req =>
      match req with
      | None => true
      | Some p =>
          isEmpty (ChatRequest.Model (chatRequests (caller w) p))
          || match ChatRequest.Messages (chatRequests (caller w) p) with
             | [] => true | _ => false end
      end
  | CallChatStream req fn =>
      match req with
      | None => true
      | Some p =>
          isEmpty (ChatRequest.Model (chatRequests (caller w) p))
          || match ChatRequest.Messages (chatRequests (caller w) p) with
             | [] => true | _ => false end
      end || isNil fn
  | CallEmbeddings req =>
      match req with
      | None => true
      | Some p =>
          isEmpty (EmbeddingRequest.Model (embeddingRequests (caller w) p))
          || isEmpty (EmbeddingRequest.Prompt (embeddingRequests (caller w) p))
      end
  end.

(** The messages of the validation errors. *)
Definition validationMessages : list string :=
  [ "model name cannot be empty";
    "source model name cannot be empty";
    "destination model name cannot be empty";
    "modelfile content cannot be empty";
    "progress callback function cannot be nil";
    "callback function cannot be nil";
    "generate request cannot be nil";
    "chat request cannot be nil";
    "embedding request cannot be nil";
    "at least one message is required";
    "prompt cannot be empty" ].

Definition isValidationError (e : error) : Prop :=
  exists msg, e = Errorf msg /\ In msg validationMessages.

(** ** Wrapping *)

Definition isUnary (call : Call U) : bool :=
  match call with
  | CallList | CallShow _ | CallCopy _ _ | CallDelete _ | CallGenerate _
  | CallChat _ | CallEmbeddings _ | CallPS => true
  | _ => false
  end.

(** The prefix a unary operation puts before an error of [do]. *)
Definition operationPrefix (call : Call U) : string :=
  match call with
  | CallList => "failed to list models: "
  | CallShow m => "failed to show model " ++ strconvQuote m ++ ": "
  | CallCopy s d =>
      "failed to copy model from " ++ strconvQuote s ++ " to " ++ strconvQuote d ++ ": "
  | CallDelete m => "failed to delete model " ++ strconvQuote m ++ ": "
  | CallGenerate _ => "failed to generate text: "
  | CallChat _ => "failed to chat: "
  | CallEmbeddings _ => "failed to generate embeddings: "
  | CallPS => "failed to get process status: "
  | _ => EmptyString
  end.

(** The word by which a streaming operation names itself in its
    messages. *)
Definition operationWord (call : Call U) : string :=
  match call with
  | CallPull _ _ => "pull"
  | CallCreate _ _ _ => "create"
  | CallPush _ _ => "push"
  | CallGenerateStream _ _ => "generate"
  | CallChatStream _ _ => "chat"
  | _ => EmptyString
  end.

(** ** The common course of the streaming operations *)

(** What the five streaming operations do once their arguments are
    accepted; they differ in the word by which they name themselves, the
    path, the payload and the loop. *)
Definition streamingCall (c : Client) (word path : string)
    (payload : Payload (rt := rt))
    (loop : list Token -> Caller U -> LoopExit * Caller U) : M U unit :=
  bind (try ("failed to marshal " ++ word ++ " request: ") (jsonMarshal payload))
    (fun jsonData =>
  bind (try "failed to construct URL: " (urlJoinPath (baseURL c) path))
    (fun u =>
  bind (try "failed to create request: "
          (NewRequestWithContext MethodPost u (Some jsonData)))
    (fun httpReq =>
  bind (tryM ("failed to execute " ++ word ++ " request: ")
          (httpClientDo c (setHeaders httpReq)))
    (fun resp =>
       if non2xx (HttpResponse.StatusCode resp) then failedStatus word resp
       else stream ("error reading " ++ word ++ " response stream: ")
              (HttpResponse.Body resp) loop)))).

(** The body [do] and the streaming operations give a request. *)
Definition bodyFor (reqBody : option (Payload (rt := rt))) : option wire :=
  match reqBody with
  | None => None
  | Some p => match jsonMarshal p with inr d => Some d | inl _ => None end
  end.

(** The value a call hands to [json.Marshal] once its arguments are
    accepted. *)
Definition payloadOf (call : Call U) (w : World U) : option (Payload (rt := rt)) :=
  match call with
  | CallList | CallPS => None
  | CallShow m => Some (PShow {| ShowRequest.Model := m |})
  | CallCopy s d =>
      Some (PCopy {| CopyRequest.Source := s; CopyRequest.Destination := d |})
  | CallDelete m => Some (PDelete {| DeleteRequest.Model := m |})
  | CallPull m _ => Some (PPull {| PullRequest.Model := m |})
  | CallCreate m f _ =>
      Some (PCreate {| CreateRequest.Model := m; CreateRequest.Modelfile := f |})
  | CallPush m _ => Some (PPush {| PushRequest.Model := m |})
  | CallGenerate (Some p) =>
      Some (PGenerate (GenerateRequest.withStream false (generateRequests (caller w) p)))
  | CallGenerateStream (Some p) _ =>
      Some (PGenerate (GenerateRequest.withStream true (generateRequests (caller w) p)))
  | CallChat (Some p) =>
      Some (PChat (ChatRequest.withStream false (chatRequests (caller w) p)))
  | CallChatStream (Some p) _ =>
      Some (PChat (ChatRequest.withStream true (chatRequests (caller w) p)))
  | CallEmbeddings (Some p) => Some (PEmbedding (embeddingRequests (caller w) p))
  | _ => None
  end.

(** [loop] is the read loop of the call, run with the call's callback. *)
Definition loopOf (call : Call U)
    (loop : list Token -> Caller U -> LoopExit * Caller U) : Prop :=
  match call with
  | CallPull _ (Some fn) => loop = progressLoop PullProgress.unmarshal fn
  | CallCreate _ _ (Some fn) => loop = progressLoop CreateProgress.unmarshal fn
  | CallPush _ (Some fn) => loop = progressLoop PushProgress.unmarshal fn
  | CallGenerateStream _ (Some fn) =>
      loop = responseLoop GenerateResponse.unmarshal GenerateResponse.Done fn
  | CallChatStream _ (Some fn) =>
      loop = responseLoop ChatResponse.unmarshal ChatResponse.Done fn
  | _ => False
  end.

(** ** What a call may change *)

(** The callback of the call, if it has one, preserves [P]. *)
Definition callbackPreserves (call : Call U) (P : Caller U -> Prop) : Prop :=
  match call with
  | CallPull _ (Some fn) => forall r k, P k -> P (fn r k)
  | CallCreate _ _ (Some fn) => forall r k, P k -> P (fn r k)
  | CallPush _ (Some fn) => forall r k, P k -> P (fn r k)
  | CallGenerateStream _ (Some fn) => forall r k, P k -> P (effect fn r k)
  | CallChatStream _ (Some fn) => forall r k, P k -> P (effect fn r k)
  | _ => True
  end.

(** The request structs at address [p] are what they are in [w]. *)
Definition sameRequests (w : World U) (p : nat) (k : Caller U) : Prop :=
  generateRequests k p = generateRequests (caller w) p
  /\ chatRequests k p = chatRequests (caller w) p
  /\ embeddingRequests k p = embeddingRequests (caller w) p.

(** ** The error envelope *)

(** What the member names of an object say about [error]: every member
    the field takes is [null]. *)
Definition errorMembersNull (ms : list (string * Json.json)) : Prop :=
  forall k v, In (k, v) ms -> Decode.selects "error" k = true -> v = Json.JNull.

End Vocabulary.

(* ===================================================================== *)
(** * A small world for the worked examples *)
(* ===================================================================== *)

Module Sample.
Import Bytes.

(** A runtime for plain cases: no clock parser and no float parser (the
    examples have neither times nor floats), no option maps, [%q] that
    only adds the quotes, URLs joined by concatenation. *)
Definition runtime : GoRuntime := {|
  Time := unit;
  zeroTime := tt;
  parseStrictRFC3339 := fun _ => None;
  Float64 := unit;
  zeroFloat64 := tt;
  parseFloat64 := fun _ => None;
  Options := unit;
  optionsLen := fun _ => O;
  marshalOptions := fun _ => inr WNull;
  strconvQuote := fun s => String DQUOTE s ++ String DQUOTE EmptyString;
  urlJoinPath := fun base path => inr (base ++ path);
  httpNewRequestCheck := fun _ _ => None
|}.
#[local] Existing Instance runtime.

(** A server that answers every request with the same status and body,
    whatever the state of the context. *)
Definition server (status : Z) (body : string) : HttpClient :=
  {| Do := fun _ _ =>
       inr {| HttpResponse.StatusCode := status;
              HttpResponse.Body := {| ResponseBody.data := body;
                                      ResponseBody.readErr := None |} |} |}.

Definition client (status : Z) (body : string) : Client :=
  fst (NewClient (server status body) []).

(** The request structs of the caller; the caller has set [Stream] in the
    ones at odd addresses. *)
Definition generateRequest (p : nat) : GenerateRequest.t (rt := runtime) :=
  {| GenerateRequest.Model := "llama2"; GenerateRequest.Prompt := "Tell me a joke";
     GenerateRequest.Stream := Nat.odd p; GenerateRequest.Options := tt |}.

Definition chatRequest (p : nat) : ChatRequest.t (rt := runtime) :=
  {| ChatRequest.Model := "llama2";
     ChatRequest.Messages := [ {| Message.Role := "user"; Message.Content := "Hello" |} ];
     ChatRequest.Stream := Nat.odd p; ChatRequest.Options := tt |}.

Definition embeddingRequest : EmbeddingRequest.t :=
  {| EmbeddingRequest.Model := "llama2"; EmbeddingRequest.Prompt := "Hello" |}.

(** A caller who keeps the records its callback receives, in order. *)
Definition start (R : Type) : World (rt := runtime) (list R) :=
  {| sent := [];
     caller := {| ctxErr := None;
                  generateRequests := generateRequest;
                  chatRequests := chatRequest;
                  embeddingRequests := fun _ => embeddingRequest;
                  user := [] |} |}.

(** The request a call of the client makes at [path] with the body [doc]. *)
Definition post (path : string) (doc : wire) : HttpRequest.t :=
  {| HttpRequest.Method := "POST";
     HttpRequest.URL := "http://localhost:11434" ++ path;
     HttpRequest.Header := [("Content-Type", "application/json");
                            ("Accept", "application/json")];
     HttpRequest.Body := Some doc |}.

(** [func(r R) { seen = append(seen, r) }] *)
Definition record {R : Type} (r : R) (k : Caller (rt := runtime) (list R))
  : Caller (rt := runtime) (list R) :=
  {| ctxErr := ctxErr k; generateRequests := generateRequests k;
     chatRequests := chatRequests k; embeddingRequests := embeddingRequests k;
     user := (user k ++ [r])%list |}.

(** [func(r R) { seen = append(seen, r); cancel() }] *)
Definition recordAndCancel {R : Type} (r : R) (k : Caller (rt := runtime) (list R))
  : Caller (rt := runtime) (list R) :=
  {| ctxErr := match ctxErr k with Some e => Some e | None => Some Canceled end;
     generateRequests := generateRequests k;
     chatRequests := chatRequests k; embeddingRequests := embeddingRequests k;
     user := (user k ++ [r])%list |}.

(** [func(r *R) { seen = append(seen, *r) }] *)
Definition observe {R : Type} (r : R) (k : Caller (rt := runtime) (list R))
  : R * Caller (rt := runtime) (list R) :=
  (r, record r k).

(** [func(r *R) { seen = append(seen, *r); cancel() }] *)
Definition observeAndCancel {R : Type} (r : R) (k : Caller (rt := runtime) (list R))
  : R * Caller (rt := runtime) (list R) :=
  (r, recordAndCancel r k).

(** [func(r *GenerateResponse) { seen = append(seen, *r); r.Done = true }] *)
Definition observeAndFinish (r : GenerateResponse.t (rt := runtime))
    (k : Caller (rt := runtime) (list (GenerateResponse.t (rt := runtime))))
  : GenerateResponse.t (rt := runtime)
    * Caller (rt := runtime) (list (GenerateResponse.t (rt := runtime))) :=
  ({| GenerateResponse.Model := GenerateResponse.Model r;
      GenerateResponse.CreatedAt := GenerateResponse.CreatedAt r;
      GenerateResponse.Response := GenerateResponse.Response r;
      GenerateResponse.Done := true;
      GenerateResponse.Context := GenerateResponse.Context r;
      GenerateResponse.TotalDuration := GenerateResponse.TotalDuration r;
      GenerateResponse.LoadDuration := GenerateResponse.LoadDuration r;
      GenerateResponse.PromptEvalCount := GenerateResponse.PromptEvalCount r;
      GenerateResponse.PromptEvalDuration := GenerateResponse.PromptEvalDuration r;
      GenerateResponse.EvalCount := GenerateResponse.EvalCount r;
      GenerateResponse.EvalDuration := GenerateResponse.EvalDuration r |},
   record r k).

(** The pull scenario of the specification. *)
Definition pullLines : list string :=
  [ q "{'status':'downloading','completed':100,'total':1000}";
    q "{'status':'downloading','completed':500,'total':1000}";
    q "{'status':'success'}" ].

Definition pullRecords : list PullProgress.t :=
  [ {| PullProgress.Status := "downloading"; PullProgress.Digest := EmptyString;
       PullProgress.Total := 1000; PullProgress.Completed := 100 |};
    {| PullProgress.Status := "downloading"; PullProgress.Digest := EmptyString;
       PullProgress.Total := 1000; PullProgress.Completed := 500 |};
    {| PullProgress.Status := "success"; PullProgress.Digest := EmptyString;
       PullProgress.Total := 0; PullProgress.Completed := 0 |} ].

Definition statusLines : list string :=
  [ q "{'status':'reading model metadata'}"; q "{'status':'success'}" ].

Definition createRecords : list CreateProgress.t :=
  [ {| CreateProgress.Status := "reading model metadata" |};
    {| CreateProgress.Status := "success" |} ].

Definition pushRecords : list PushProgress.t :=
  [ {| PushProgress.Status := "reading model metadata"; PushProgress.Digest := EmptyString;
       PushProgress.Total := 0; PushProgress.Completed := 0 |};
    {| PushProgress.Status := "success"; PushProgress.Digest := EmptyString;
       PushProgress.Total := 0; PushProgress.Completed := 0 |} ].

Definition generated (response : string) (done : bool) : GenerateResponse.t (rt := runtime) :=
  {| GenerateResponse.Model := "llama2"; GenerateResponse.CreatedAt := tt;
     GenerateResponse.Response := response; GenerateResponse.Done := done;
     GenerateResponse.Context := []; GenerateResponse.TotalDuration := 0;
     GenerateResponse.LoadDuration := 0; GenerateResponse.PromptEvalCount := 0;
     GenerateResponse.PromptEvalDuration := 0; GenerateResponse.EvalCount := 0;
     GenerateResponse.EvalDuration := 0 |}.

Definition generateLines : list string :=
  [ q "{'model':'llama2','response':'Why','done':false}";
    q "{'model':'llama2','response':' not','done':false}" ].

Definition generateRecords : list GenerateResponse.t :=
  [ generated "Why" false; generated " not" false ].


Definition chatted (content : string) (done : bool) : ChatResponse.t (rt := runtime) :=
  {| ChatResponse.Model := "llama2"; ChatResponse.CreatedAt := tt;
     ChatResponse.Message := {| Message.Role := "assistant"; Message.Content := content |};
     ChatResponse.Done := done; ChatResponse.TotalDuration := 0;
     ChatResponse.LoadDuration := 0; ChatResponse.PromptEvalCount := 0;
     ChatResponse.PromptEvalDuration := 0; ChatResponse.EvalCount := 0;
     ChatResponse.EvalDuration := 0 |}.

Definition chatLines : list string :=
  [ q "{'model':'llama2','message':{'role':'assistant','content':'Hi'},'done':false}";
    q "{'model':'llama2','message':{'role':'assistant','content':' there'},'done':false}" ].

Definition chatRecords : list ChatResponse.t :=
  [ chatted "Hi" false; chatted " there" false ].


(** A line that is not JSON. *)
Definition malformed : string := q "{'status':".

(** The payloads of the sample calls. *)
Definition pullDoc : wire := WObject [("model", WString "llama2")].
Definition pushDoc : wire := WObject [("name", WString "llama2")].
Definition createDoc : wire :=
  WObject [("name", WString "mymodel"); ("modelfile", WString "FROM llama2")].
Definition generateDoc (stream : bool) : wire :=
  WObject ([("model", WString "llama2"); ("prompt", WString "Tell me a joke")]
             ++ if stream then [("stream", WBool true)] else []).
Definition chatDoc (stream : bool) : wire :=
  WObject ([("model", WString "llama2");
            ("messages", WArray [WObject [("role", WString "user");
                                          ("content", WString "Hello")]])]
             ++ if stream then [("stream", WBool true)] else []).

End Sample.

(* ===================================================================== *)
(** * Vocabulary of the further properties *)
(* ===================================================================== *)

(** ** Requests and answers *)

Section Routes.
Context {rt : GoRuntime}.
Variable U : Type.
Import Bytes.

(** The method and the path of the endpoint behind each operation. *)
Definition methodOf (call : Call U) : string :=
  match call with
  | CallList | CallPS => MethodGet
  | CallDelete _ => MethodDelete
  | _ => MethodPost
  end.

Definition pathOf (call : Call U) : string :=
  match call with
  | CallList => "/api/tags"
  | CallShow _ => "/api/show"
  | CallCopy _ _ => "/api/copy"
  | CallDelete _ => "/api/delete"
  | CallPull _ _ => "/api/pull"
  | CallCreate _ _ _ => "/api/create"
  | CallPush _ _ => "/api/push"
  | CallGenerate _ | CallGenerateStream _ _ => "/api/generate"
  | CallChat _ | CallChatStream _ _ => "/api/chat"
  | CallEmbeddings _ => "/api/embeddings"
  | CallPS => "/api/ps"
  end.

(** The request a call hands to the transport, if it gets that far: the
    arguments pass validation, the URL can be joined, the payload can be
    marshalled and [http.NewRequestWithContext] accepts method and URL. *)
Definition outgoing (c : Client) (call : Call U) (w : World U) : option HttpRequest.t :=
  if invalid call w then None else
  match urlJoinPath (baseURL c) (pathOf call) with
  | inl _ => None
  | inr u =>
      let body :=
        match payloadOf call w with
        | None => Some None
        | Some p => match jsonMarshal p with inl _ => None | inr d => Some (Some d) end
        end in
      match body, httpNewRequestCheck (methodOf call) u with
      | Some b, None =>
          Some {| HttpRequest.Method := methodOf call;
                  HttpRequest.URL := u;
                  HttpRequest.Header := [ ("Content-Type", "application/json");
                                          ("Accept", "application/json") ];
                  HttpRequest.Body := b |}
      | _, _ => None
      end
  end.

(** The error of a call as the operation passes it on: a unary operation
    puts its prefix before the error of [do]. *)
Definition passedOn (call : Call U) (e : error) : error :=
  if isUnary call then Wrapf (operationPrefix call) e else e.

(** What a data-returning operation makes of the body of a successful
    answer. *)
Definition bodyResult {A : Type} (prefix : string) (unmarshal : string -> option A)
    (zero : A) (data : string) : error + A :=
  if isEmpty data then inr zero
  else match unmarshal data with
       | Some v => inr v
       | None => inl (Wrapf prefix (Wrapf "failed to unmarshal response body: " JSONError))
       end.

End Routes.

(** ** Validation and the construction of the request *)

Section ValidationVocabulary.
Context {rt : GoRuntime}.
Variable U : Type.
Import Bytes.

(** The message of the first check a call fails, in the order in which
    the operation makes its checks. *)
Definition complaint (call : Call U) (w : World U) : option string :=
  let model (m : string) (next : option string) :=
    if isEmpty m then Some "model name cannot be empty" else next in
  let progress {A : Type} (fn : option A) :=
    if isNil fn then Some "progress callback function cannot be nil" else None in
  let callback {A : Type} (fn : option A) :=
    if isNil fn then Some "callback function cannot be nil" else None in
  match call with
  | CallList | CallPS => None
  | CallShow m | CallDelete m => model m None
  | CallCopy s d =>
      if isEmpty s then Some "source model name cannot be empty"
      else if isEmpty d then Some "destination model name cannot be empty"
      else None
  | CallPull m fn | CallPush m fn => model m (progress fn)
  | CallCreate m f fn =>
      model m (if isEmpty f then Some "modelfile content cannot be empty"
               else progress fn)
  | CallGenerate None | CallGenerateStream None _ => Some "generate request cannot be nil"
  | CallGenerate (Some p) => model (GenerateRequest.Model (generateRequests (caller w) p)) None
  | CallGenerateStream (Some p) fn =>
      model (GenerateRequest.Model (generateRequests (caller w) p)) (callback fn)
  | CallChat None | CallChatStream None _ => Some "chat request cannot be nil"
  | CallChat (Some p) =>
      model (ChatRequest.Model (chatRequests (caller w) p))
        (match ChatRequest.Messages (chatRequests (caller w) p) with
         | [] => Some "at least one message is required"
         | _ => None
         end)
  | CallChatStream (Some p) fn =>
      model (ChatRequest.Model (chatRequests (caller w) p))
        (match ChatRequest.Messages (chatRequests (caller w) p) with
         | [] => Some "at least one message is required"
         | _ => callback fn
         end)
  | CallEmbeddings None => Some "embedding request cannot be nil"
  | CallEmbeddings (Some p) =>
      model (EmbeddingRequest.Model (embeddingRequests (caller w) p))
        (if isEmpty (EmbeddingRequest.Prompt (embeddingRequests (caller w) p))
         then Some "prompt cannot be empty" else None)
  end.

End ValidationVocabulary.

Section ConstructionVocabulary.
Context {rt : GoRuntime}.
Variable U : Type.

(** The error of a call that passes validation and fails before it has
    a request to send.  [do] joins the URL before it marshals the payload;
    the streaming operations marshal first. *)
Definition constructionError (c : Client) (call : Call U) (w : World U) : option error :=
  let joined := urlJoinPath (baseURL c) (pathOf call) in
  let marshalled :=
    match payloadOf call w with
    | Some p => match jsonMarshal p with inl e => Some e | inr _ => None end
    | None => None
    end in
  let refused :=
    match joined with
    | inr u => httpNewRequestCheck (methodOf call) u
    | inl _ => None
    end in
  if isUnary call then
    match joined, marshalled, refused with
    | inl e, _, _ =>
        Some (Wrapf (operationPrefix call) (Wrapf "failed to construct URL: " e))
    | inr _, Some e, _ =>
        Some (Wrapf (operationPrefix call) (Wrapf "failed to marshal request body: " e))
    | inr _, None, Some e =>
        Some (Wrapf (operationPrefix call) (Wrapf "failed to create request: " e))
    | inr _, None, None => None
    end
  else
    match marshalled, joined, refused with
    | Some e, _, _ =>
        Some (Wrapf ("failed to marshal " ++ operationWord call ++ " request: ") e)
    | None, inl e, _ => Some (Wrapf "failed to construct URL: " e)
    | None, inr _, Some e => Some (Wrapf "failed to create request: " e)
    | None, inr _, None => None
    end.

End ConstructionVocabulary.

(** ** Streams in lines *)

Section StreamVocabulary.
Context {rt : GoRuntime}.
Variable U : Type.
Import Bytes Strings Bufio.

(** What a loop makes of one line: the line is trimmed; a blank line and
    a line that does not decode give nothing. *)
Definition lineRecord {R : Type} (unmarshal : string -> option R) (line : string)
  : option R :=
  if isEmpty (trimmed line) then None else unmarshal (trimmed line).

(** The records of a sequence of lines, in the order of the lines. *)
Definition lineRecords {R : Type} (unmarshal : string -> option R)
    (lines : list string) : list R :=
  records (map (lineRecord unmarshal) lines).

(** A run of a pointer callback on [rs] from the state [k] in which the
    callback leaves the flag of every record unset and the context
    live. *)
Fixpoint calm {R : Type} (done : R -> bool) (pf : R -> Caller U -> R * Caller U)
    (rs : list R) (k : Caller U) : Prop :=
  match rs with
  | [] => True
  | r :: rest =>
      done (fst (pf r k)) = false
      /\ ctxErr (effect pf r k) = None
      /\ calm done pf rest (effect pf r k)
  end.

(** The caller's state after the callback of a streaming call has run on
    the records of [lines]. *)
Definition deliveries (call : Call U) (lines : list string) (k : Caller U) : Caller U :=
  match call with
  | CallPull _ (Some fn) => callbacks fn (lineRecords PullProgress.unmarshal lines) k
  | CallCreate _ _ (Some fn) => callbacks fn (lineRecords CreateProgress.unmarshal lines) k
  | CallPush _ (Some fn) => callbacks fn (lineRecords PushProgress.unmarshal lines) k
  | CallGenerateStream _ (Some fn) =>
      callbacks (effect fn) (lineRecords GenerateResponse.unmarshal lines) k
  | CallChatStream _ (Some fn) =>
      callbacks (effect fn) (lineRecords ChatResponse.unmarshal lines) k
  | _ => k
  end.

(** Nothing in [lines] ends a call early: for [GenerateStream] and
    [ChatStream] the context is live at the start and the run of the
    callback on the records of the lines is calm.  [Pull], [Create] and
    [Push] have nothing that ends them early. *)
Definition uninterrupted (call : Call U) (lines : list string) (k : Caller U) : Prop :=
  match call with
  | CallGenerateStream _ (Some fn) =>
      ctxErr k = None
      /\ calm GenerateResponse.Done fn (lineRecords GenerateResponse.unmarshal lines) k
  | CallChatStream _ (Some fn) =>
      ctxErr k = None
      /\ calm ChatResponse.Done fn (lineRecords ChatResponse.unmarshal lines) k
  | _ => True
  end.

(** What a streaming call returns once its loop is through: the error of
    the reader under the operation's prefix, or nil. *)
Definition readerError (call : Call U) (readErr : option error) : option error :=
  match readErr with
  | Some e => Some (Wrapf ("error reading " ++ operationWord call ++ " response stream: ") e)
  | None => None
  end.




End StreamVocabulary.

Section TwoServerVocabulary.
Import Bytes Strings Bufio.



End TwoServerVocabulary.

(** ** The causes of the errors a call returns *)

(** The library calls whose error an operation passes on. *)
Inductive Stage :=
| JoinPath       (* url.JoinPath *)
| MarshalBody    (* json.Marshal *)
| NewRequest     (* http.NewRequestWithContext *)
| Transport      (* httpClient.Do *)
| ReadBody       (* io.ReadAll *)
| DecodeBody     (* json.Unmarshal of the body of a unary call *)
| Scan.          (* scanner.Err *)

Section Causes.
Context {rt : GoRuntime}.
Variable U : Type.
Import Bytes Bufio.

(** The prefix under which [call] passes on the error of [stage]:
    [fmt.Errorf(prefix + "%w", err)].  The streaming operations name the
    status of the answer when they cannot read the body of a failed
    answer. *)
Definition stagePrefix (call : Call U) (stage : Stage) (status : Z) : string :=
  if isUnary call then
    match stage with
    | JoinPath => "failed to construct URL: "
    | MarshalBody => "failed to marshal request body: "
    | NewRequest => "failed to create request: "
    | Transport => "failed to execute request: "
    | ReadBody => "failed to read response body: "
    | DecodeBody => "failed to unmarshal response body: "
    | Scan => EmptyString
    end
  else
    match stage with
    | JoinPath => "failed to construct URL: "
    | MarshalBody => "failed to marshal " ++ operationWord call ++ " request: "
    | NewRequest => "failed to create request: "
    | Transport => "failed to execute " ++ operationWord call ++ " request: "
    | ReadBody =>
        operationWord call ++ " request failed with status " ++ itoa status
          ++ " and could not read response body: "
    | DecodeBody => EmptyString
    | Scan => "error reading " ++ operationWord call ++ " response stream: "
    end.

(** [json.Unmarshal] of the body of a successful answer into the response
    type of a unary operation fails.  [Copy] and [Delete] decode
    nothing. *)
Definition undecoded (call : Call U) (data : string) : bool :=
  match call with
  | CallList => isNil (ListModelsResponse.unmarshal data)
  | CallShow _ => isNil (ModelResponse.unmarshal data)
  | CallGenerate _ => isNil (GenerateResponse.unmarshal data)
  | CallChat _ => isNil (ChatResponse.unmarshal data)
  | CallEmbeddings _ => isNil (EmbeddingResponse.unmarshal data)
  | CallPS => isNil (PSResponse.unmarshal data)
  | _ => false
  end.

(** [reports c call w stage status x]: in the call [call] made in the
    world [w], the library call of [stage] returns the error [x]; from
    [Transport] on, [status] is the status of the answer. *)
Definition reports (c : Client) (call : Call U) (w : World U)
    (stage : Stage) (status : Z) (x : error) : Prop :=
  match stage with
  | JoinPath => urlJoinPath (baseURL c) (pathOf call) = inl x
  | MarshalBody => exists p, payloadOf call w = Some p /\ jsonMarshal p = inl x
  | NewRequest =>
      exists u, urlJoinPath (baseURL c) (pathOf call) = inr u
                /\ httpNewRequestCheck (methodOf call) u = Some x
  | Transport =>
      exists req, outgoing c call w = Some req
                  /\ Do (httpClient c) (ctxErr (caller w)) req = inl x
  | ReadBody =>
      exists req body,
        outgoing c call w = Some req
        /\ Do (httpClient c) (ctxErr (caller w)) req
           = inr {| HttpResponse.StatusCode := status; HttpResponse.Body := body |}
        /\ ResponseBody.ReadAll body = inl x
  | DecodeBody =>
      exists req data,
        outgoing c call w = Some req
        /\ Do (httpClient c) (ctxErr (caller w)) req
           = inr {| HttpResponse.StatusCode := status;
                    HttpResponse.Body := {| ResponseBody.data := data;
                                            ResponseBody.readErr := None |} |}
        /\ non2xx status = false
        /\ isEmpty data = false
        /\ isUnary call = true
        /\ undecoded call data = true
        /\ x = JSONError
  | Scan =>
      exists req body,
        isUnary call = false
        /\ outgoing c call w = Some req
        /\ Do (httpClient c) (ctxErr (caller w)) req
           = inr {| HttpResponse.StatusCode := status; HttpResponse.Body := body |}
        /\ non2xx status = false
        /\ ((snd (ScanLines (ResponseBody.data body)) = TooLong /\ x = ErrTooLong)
            \/ ResponseBody.readErr body = Some x)
  end.

End Causes.

(* ===================================================================== *)
(** * The helper of the type tests (types_test.go) *)
(* ===================================================================== *)

Module TypesTest.

(** [s[i:j]] *)
Definition slice (s : string) (i j : nat) : string := String.substring i (j - i) s.

(** The loop of [contains]:
<<
    for i := 1; i <= len(s)-len(substr); i++ {
        if s[i:i+len(substr)] == substr { return true }
    }
    return false
>>
    [count] is the number of turns that are left. *)
Fixpoint search (s substr : string) (i count : nat) : bool :=
  match count with
  | O => false
  | S rest =>
      if String.eqb (slice s i (i + String.length substr)) substr then true
      else search s substr (S i) rest
  end.

(** [contains(s, substr)] *)
Definition contains (s substr : string) : bool :=
  (String.length substr <=? String.length s)%nat
  && (String.eqb s substr
      || (String.length substr =? 0)%nat
      || ((String.length substr <? String.length s)%nat
          && (String.eqb (slice s 0 (String.length substr)) substr
              || String.eqb (slice s (String.length s - String.length substr)
                               (String.length s)) substr
              || search s substr 1 (String.length s - String.length substr)))).

End TypesTest.

(* ===================================================================== *)
(** * Further servers for the worked cases *)
(* ===================================================================== *)

Module Cases.
Import Bytes.

(** A transport that reaches no server. *)
Definition refusing : HttpClient :=
  {| Do := fun _ _ => inl (Foreign "connection refused") |}.

(** A server whose answer breaks off: the body delivers [data] and then
    fails. *)
Definition breaking (status : Z) (data : string) : HttpClient :=
  {| Do := fun _ _ =>
       inr {| HttpResponse.StatusCode := status;
              HttpResponse.Body :=
                {| ResponseBody.data := data;
                   ResponseBody.readErr := Some (Foreign "unexpected EOF") |} |} |}.

Definition base : string := "http://localhost:11434".




(** A valid line of more than 64 KiB: the last record of the pull
    scenario with white space behind it. *)
Definition longLine : string :=
  q "{'status':'success'}" ++ replicate (N.to_nat Bufio.MaxScanTokenSize) " ".

(** Two valid lines, the second one too long for the scanner, and their
    records. *)
Definition longLines : list string := [ q "{'status':'downloading'}"; longLine ].

Definition longRecords : list PullProgress.t :=
  [ {| PullProgress.Status := "downloading"; PullProgress.Digest := EmptyString;
       PullProgress.Total := 0; PullProgress.Completed := 0 |};
    {| PullProgress.Status := "success"; PullProgress.Digest := EmptyString;
       PullProgress.Total := 0; PullProgress.Completed := 0 |} ].

(** A line of 64 KiB that is not JSON, between two valid lines. *)
Definition longNoise : string := replicate (N.to_nat Bufio.MaxScanTokenSize) "a".

Definition noisyLines : list string :=
  [ q "{'status':'downloading'}"; longNoise; q "{'status':'success'}" ].

Definition noisyOutcomes : list (option PullProgress.t) :=
  [ Some (hd PullProgress.zero longRecords); None;
    Some (last longRecords PullProgress.zero) ].


End Cases.

(* ===================================================================== *)
(** * Proof tools *)
(* ===================================================================== *)

Arguments stream : simpl never.

(** Opens the monadic plumbing of an operation. *)
Ltac open_monad :=
  unfold bind, try, tryM, fail, ret, httpClientDo, runCaller, getCaller,
    loadGenerateRequest, loadChatRequest, loadEmbeddingRequest, failedStatus.

(** From [streams c w path payload req body]: the steps of the exchange,
    one equation each. *)
Ltac open_exchange H :=
  let status := fresh "status" in
  let Hex := fresh "Hex" in
  let Hst := fresh "Hst" in
  destruct H as (status & Hex & Hst);
  unfold exchange in Hex;
  let Hu := fresh "Hurl" in
  destruct (urlJoinPath _ _) as [?|?u] eqn:Hu; [discriminate|];
  cbn [jsonMarshal] in Hex;
  let Hm := fresh "Hmarshal" in
  let Hn := fresh "Hnew" in
  let Hd := fresh "Hdo" in
  first
    [ destruct (GenerateRequest.marshal _) as [?|?doc] eqn:Hm; [discriminate|]
    | destruct (ChatRequest.marshal _) as [?|?doc] eqn:Hm; [discriminate|]
    | idtac ];
  destruct (NewRequestWithContext _ _ _) as [?|?hreq] eqn:Hn; [discriminate|];
  destruct (Do _ _ _) as [?|?resp] eqn:Hd; [discriminate|];
  inversion Hex; subst; clear Hex.

Ltac validation_error :=
  eexists; split; [reflexivity | eexists; split; [reflexivity | cbn; tauto]].

(** Closes the side conditions of a worked case by evaluation. *)
Ltac by_evaluation := vm_compute; repeat split; try reflexivity; try discriminate.

Ltac served := exists 200; split; reflexivity.

Ltac lines_checked :=
  repeat (apply Forall2_cons || apply Forall2_nil || apply Forall_cons || apply Forall_nil);
  by_evaluation.

(** Opens [outgoing c call w = Some req] for a unary call. *)
Ltac open_outgoing Ho :=
  unfold outgoing in Ho; cbn [invalid payloadOf methodOf pathOf] in Ho;
  repeat match type of Ho with
         | (if ?b || _ then _ else _) = _ =>
             let E := fresh "Hvalid" in
             destruct b eqn:E; [discriminate Ho|]; cbn [orb] in Ho
         | (if ?b then _ else _) = _ =>
             let E := fresh "Hvalid" in
             destruct b eqn:E; [discriminate Ho|]
         end;
  match type of Ho with
  | match urlJoinPath ?b ?p with _ => _ end = _ =>
      let E := fresh "Hurl" in
      destruct (urlJoinPath b p) as [?|?u] eqn:E; [discriminate Ho|]
  end.

(* ===================================================================== *)
(** * Lemmas on the scanner *)
(* ===================================================================== *)

Section ScannerFacts.
Import Bytes Strings Bufio.

Lemma isEmpty_false_iff (s : string) : isEmpty s = false <-> s <> EmptyString.
Proof. destruct s; simpl; split; congruence. Qed.

Lemma rev_onto_nonempty (s acc : string) :
  isEmpty acc = false -> isEmpty (rev_onto s acc) = false.
Proof.
  revert acc. induction s as [|a s IH]; intros acc H; simpl; auto.
Qed.

Lemma rev_nonempty (s : string) : isEmpty s = false -> isEmpty (rev s) = false.
Proof.
  destruct s as [|a s]; simpl; [congruence|]. intros _.
  unfold rev. simpl. now apply rev_onto_nonempty.
Qed.

Lemma LF_neq (a : ascii) : Ascii.eqb LF a = false -> Ascii.eqb a LF = false.
Proof. rewrite (Ascii.eqb_sym a LF). auto. Qed.

(** A line that fits, followed by a newline, is one token; scanning goes
    on behind the newline with an empty buffer. *)
Lemma scan_line (l rest cur : string) (n : N) :
  contains LF l = false ->
  (n + lengthN l < MaxScanTokenSize)%N ->
  scan (l ++ String LF rest) cur n =
    ({| text := dropCR_rev (rev_onto l cur); atEnd := false |}
       :: fst (scan rest EmptyString 0%N),
     snd (scan rest EmptyString 0%N)).
Proof.
  revert cur n. induction l as [|a l IH]; intros cur n Hc Hn.
  - simpl. replace (Ascii.eqb LF LF) with true by (symmetry; apply Ascii.eqb_refl).
    destruct (scan rest EmptyString 0%N); reflexivity.
  - simpl in Hc. apply orb_false_iff in Hc as [Ha Hl].
    cbn [append scan]. rewrite (LF_neq _ Ha).
    cbn [lengthN] in Hn.
    assert (Hlt : (N.succ n <? MaxScanTokenSize)%N = true) by (apply N.ltb_lt; lia).
    rewrite Hlt. rewrite IH; [reflexivity | assumption | lia].
Qed.

(** A last line without its newline is the final token. *)
Lemma scan_last (l cur : string) (n : N) :
  contains LF l = false ->
  (n + lengthN l < MaxScanTokenSize)%N ->
  isEmpty (rev_onto l cur) = false ->
  scan l cur n = ([ {| text := dropCR_rev (rev_onto l cur); atEnd := true |} ], Drained).
Proof.
  revert cur n. induction l as [|a l IH]; intros cur n Hc Hn He.
  - simpl in *. rewrite He. reflexivity.
  - simpl in Hc. apply orb_false_iff in Hc as [Ha Hl].
    cbn [scan]. rewrite (LF_neq _ Ha).
    cbn [lengthN] in Hn.
    assert (Hlt : (N.succ n <? MaxScanTokenSize)%N = true) by (apply N.ltb_lt; lia).
    rewrite Hlt. apply IH; [assumption | lia | exact He].
Qed.

Lemma ScanLines_line (l rest : string) :
  fits l ->
  ScanLines (l ++ String LF rest) =
    ({| text := dropCR l; atEnd := false |} :: fst (ScanLines rest),
     snd (ScanLines rest)).
Proof.
  intros [Hc Hn]. unfold ScanLines. rewrite scan_line; auto.
Qed.

Lemma ScanLines_nil : ScanLines EmptyString = ([], Drained).
Proof. reflexivity. Qed.

(** The scanner on a body made of lines that fit. *)
Lemma ScanLines_framed (terminated : bool) (lines : list string) :
  Forall fits lines ->
  Forall (fun l => isEmpty l = false) lines ->
  ScanLines (framed terminated lines) = (lineTokens terminated lines, Drained).
Proof.
  induction lines as [|l rest IH]; intros Hf He.
  - reflexivity.
  - inversion Hf as [|? ? Hl Hrest]; subst. inversion He as [|? ? Hne Herest]; subst.
    destruct rest as [|l2 rest'].
    + cbn [framed lineTokens]. destruct terminated.
      * rewrite ScanLines_line by assumption. reflexivity.
      * destruct Hl as [Hc Hn]. unfold ScanLines.
        rewrite scan_last; auto. now apply rev_nonempty.
    + change (framed terminated (l :: l2 :: rest'))
        with (l ++ String LF (framed terminated (l2 :: rest'))).
      rewrite ScanLines_line by assumption.
      rewrite IH by assumption. reflexivity.
Qed.

Lemma append_assoc (a b c : string) : (a ++ b) ++ c = a ++ (b ++ c).
Proof. induction a as [|x a IH]; simpl; [reflexivity | now rewrite IH]. Qed.

(** Lines that all end in a newline, followed by anything at all. *)
Lemma ScanLines_framed_app (lines : list string) (rest : string) :
  Forall fits lines ->
  ScanLines (framed true lines ++ rest) =
    ((lineTokens true lines ++ fst (ScanLines rest))%list, snd (ScanLines rest)).
Proof.
  induction lines as [|l more IH]; intros Hf.
  - cbn [framed append lineTokens app]. destruct (ScanLines rest); reflexivity.
  - inversion Hf as [|? ? Hl Hmore]; subst.
    assert (Hshape : framed true (l :: more) ++ rest
                     = l ++ String LF (framed true more ++ rest)).
    { destruct more as [|l2 more'].
      - cbn [framed]. rewrite append_assoc. reflexivity.
      - change (framed true (l :: l2 :: more'))
          with (l ++ String LF (framed true (l2 :: more'))).
        rewrite append_assoc. reflexivity. }
    rewrite Hshape, ScanLines_line by assumption.
    rewrite IH by assumption. cbn [fst snd lineTokens].
    destruct more; reflexivity.
Qed.

(** A line with something left after trimming is not empty itself. *)
Lemma trimmed_nonempty (l : string) : isEmpty (trimmed l) = false -> isEmpty l = false.
Proof.
  destruct l; [| reflexivity]. intros H. exact H.
Qed.

End ScannerFacts.

(* ===================================================================== *)
(** * Lemmas on white space around JSON *)
(* ===================================================================== *)

Section TrimFacts.
Import Bytes Strings Bufio Json Decode.

Lemma isByte_eq (n : N) (a : ascii) : isByte n a = true -> code a = n.
Proof. unfold isByte. apply N.eqb_eq. Qed.

Lemma spaceByte_cases (a : ascii) :
  spaceByte a = true ->
  (code a = 9 \/ code a = 10 \/ code a = 11 \/ code a = 12 \/ code a = 13
   \/ code a = 32 \/ 128 <= code a)%N.
Proof.
  unfold spaceByte, asciiSpace, isByte. intros H.
  repeat (apply orb_true_iff in H; destruct H as [H|H]);
    try (apply N.eqb_eq in H; lia).
  apply N.leb_le in H. lia.
Qed.

Lemma spaceByte_not (k : N) (a : ascii) :
  spaceByte a = true ->
  (k < 128)%N -> k <> 9%N -> k <> 10%N -> k <> 11%N -> k <> 12%N -> k <> 13%N ->
  k <> 32%N ->
  isByte k a = false.
Proof.
  intros H%spaceByte_cases Hk. intros. unfold isByte. apply N.eqb_neq. lia.
Qed.

Lemma spaceByte_not_between (lo hi : N) (a : ascii) :
  spaceByte a = true ->
  (32 < lo)%N -> (hi < 128)%N ->
  between lo hi a = false.
Proof.
  intros H%spaceByte_cases Hlo Hhi. unfold between.
  apply andb_false_iff.
  destruct (N.leb_spec lo (code a)); [right | left; reflexivity].
  apply N.leb_gt. lia.
Qed.

(** Between tokens, white space of [TrimSpace] is either JSON white space
    or an error. *)
Lemma lexStart_space (a : ascii) :
  spaceByte a = true ->
  lexStart a = Some (Idle, []) \/ lexStart a = None.
Proof.
  intros H. unfold lexStart. destruct (isWhite a); [now left | right].
  unfold isDigit19.
  rewrite !(spaceByte_not a H) by lia.
  rewrite (spaceByte_not_between a H) by lia. reflexivity.
Qed.

Lemma lex_skip_space (pre x : string) (ts : list token) :
  spacey pre = true ->
  lex Idle (pre ++ x) = Some ts -> lex Idle x = Some ts.
Proof.
  induction pre as [|a pre IH]; intros Hs Hl; [exact Hl|].
  cbn [spacey] in Hs. apply andb_true_iff in Hs as [Ha Hs].
  cbn [append lex lexStep] in Hl.
  destruct (lexStart_space a Ha) as [E|E]; rewrite E in Hl; [|discriminate].
  destruct (lex Idle (pre ++ x)) as [more|] eqn:Hm; [|discriminate].
  inversion Hl; subst. cbn [app]. now apply IH.
Qed.

Lemma numStep_space (ns : NumState) (a : ascii) :
  spaceByte a = true -> numStep ns a = None.
Proof.
  intros H. unfold numStep, isDigit, isDigit19, isE.
  destruct ns;
    rewrite ?(spaceByte_not a H), ?(spaceByte_not_between a H) by lia; reflexivity.
Qed.

Lemma spaceFree_head (a e : ascii) (rest : string) :
  spaceByte a = true -> spaceFree (String e rest) = true -> Ascii.eqb a e = false.
Proof.
  intros Ha Hf. cbn [spaceFree] in Hf. apply andb_true_iff in Hf as [He _].
  destruct (Ascii.eqb_spec a e) as [->|]; [|reflexivity].
  rewrite Ha in He. discriminate.
Qed.

Lemma lexStep_reachable (st st' : LexState) (a : ascii) (out : list token) :
  lexReachable st -> lexStep st a = Some (st', out) -> lexReachable st'.
Proof.
  assert (Hstart : forall b s o, lexStart b = Some (s, o) -> lexReachable s).
  { intros b s o. unfold lexStart.
    repeat match goal with
           | |- context [if ?c then _ else _] => destruct c
           end; intros E; inversion E; subst; cbn; auto. }
  intros Hr. destruct st as [|r|r|r k|ns l|tok expect]; cbn [lexStep].
  - apply Hstart.
  - repeat match goal with
           | |- context [if ?c then _ else _] => destruct c
           end; intros E; inversion E; subst; cbn; auto.
  - repeat match goal with
           | |- context [if ?c then _ else _] => destruct c
           end; intros E; inversion E; subst; cbn; auto.
  - destruct (isHex a); [|discriminate].
    destruct k as [|[|k]]; intros E; inversion E; subst; cbn; auto.
  - destruct (numStep ns a).
    + intros E; inversion E; subst; cbn; auto.
    + destruct (numAccepting ns); [|discriminate].
      destruct (lexStart a) as [[s o]|] eqn:Es; [|discriminate].
      intros E; inversion E; subst. eapply Hstart; eauto.
  - destruct expect as [|e rest]; [discriminate|].
    destruct (Ascii.eqb a e); [|discriminate].
    cbn in Hr. apply andb_true_iff in Hr as [_ Hr].
    destruct (isEmpty rest); intros E; inversion E; subst; cbn; auto.
Qed.

(** White space after the last token adds nothing. *)
Lemma lex_space_tail (post : string) (st : LexState) (ts : list token) :
  lexReachable st ->
  spacey post = true ->
  lex st post = Some ts -> lexEnd st = Some ts.
Proof.
  revert st ts. induction post as [|a post IH]; intros st ts Hr Hs Hl; [exact Hl|].
  cbn [spacey] in Hs. apply andb_true_iff in Hs as [Ha Hs].
  cbn [lex] in Hl.
  destruct (lexStep st a) as [[st' out]|] eqn:Hstep; [|discriminate].
  destruct (lex st' post) as [more|] eqn:Hm; [|discriminate].
  inversion Hl; subst; clear Hl.
  assert (Hr' : lexReachable st') by (eapply lexStep_reachable; eauto).
  pose proof (IH _ _ Hr' Hs Hm) as Hend.
  destruct st as [|r|r|r k|ns l|tok expect]; cbn [lexStep] in Hstep.
  - destruct (lexStart_space a Ha) as [E|E]; rewrite E in Hstep; inversion Hstep; subst.
    exact Hend.
  - rewrite !(spaceByte_not a Ha) in Hstep by lia.
    destruct (code a <? 32)%N; inversion Hstep; subst. cbn in Hend. discriminate.
  - unfold isSimpleEscape in Hstep.
    rewrite !(spaceByte_not a Ha) in Hstep by lia. discriminate.
  - unfold isHex in Hstep.
    rewrite !(spaceByte_not_between a Ha) in Hstep by lia. discriminate.
  - rewrite (numStep_space ns a Ha) in Hstep.
    destruct (numAccepting ns) eqn:Hacc; [|discriminate].
    destruct (lexStart_space a Ha) as [E|E]; rewrite E in Hstep; inversion Hstep; subst.
    cbn in Hend. inversion Hend; subst. cbn. rewrite Hacc. reflexivity.
  - destruct expect as [|e rest]; [discriminate|].
    erewrite spaceFree_head in Hstep by eauto. discriminate.
Qed.

Lemma lex_drop_space (core post : string) (st : LexState) (ts : list token) :
  lexReachable st ->
  spacey post = true ->
  lex st (core ++ post) = Some ts -> lex st core = Some ts.
Proof.
  revert st ts. induction core as [|a core IH]; intros st ts Hr Hs Hl.
  - cbn [append] in Hl. cbn [lex]. eapply lex_space_tail; eauto.
  - cbn [append lex] in *.
    destruct (lexStep st a) as [[st' out]|] eqn:Hstep; [|discriminate].
    destruct (lex st' (core ++ post)) as [more|] eqn:Hm; [|discriminate].
    erewrite IH; eauto. eapply lexStep_reachable; eauto.
Qed.

(** ** What trimming removes *)

Lemma rev_onto_app (s acc : string) : rev_onto s acc = rev s ++ acc.
Proof.
  revert acc. induction s as [|a s IH]; intros acc; [reflexivity|].
  unfold rev. cbn [rev_onto]. rewrite IH, (IH (String a EmptyString)).
  rewrite append_assoc. reflexivity.
Qed.

Lemma append_nil_r (s : string) : s ++ EmptyString = s.
Proof. induction s as [|a s IH]; simpl; [reflexivity | now rewrite IH]. Qed.

Lemma rev_cons (a : ascii) (s : string) : rev (String a s) = rev s ++ String a EmptyString.
Proof. unfold rev at 1. cbn [rev_onto]. apply rev_onto_app. Qed.

Lemma rev_app (a b : string) : rev (a ++ b) = rev b ++ rev a.
Proof.
  induction a as [|x a IH]; cbn [append].
  - change (rev EmptyString) with EmptyString. now rewrite append_nil_r.
  - rewrite !rev_cons, IH, append_assoc. reflexivity.
Qed.

Lemma rev_involutive (s : string) : rev (rev s) = s.
Proof.
  induction s as [|a s IH]; [reflexivity|].
  rewrite rev_cons, rev_app, IH. reflexivity.
Qed.

Lemma spacey_app (a b : string) : spacey (a ++ b) = spacey a && spacey b.
Proof.
  induction a as [|x a IH]; cbn [append spacey]; [reflexivity|].
  rewrite IH. apply andb_assoc.
Qed.

Lemma spacey_rev (s : string) : spacey (rev s) = spacey s.
Proof.
  induction s as [|a s IH]; [reflexivity|].
  rewrite rev_cons, spacey_app, IH. cbn [spacey].
  rewrite andb_true_r. apply andb_comm.
Qed.

Lemma high_spaceByte (n : N) (a : ascii) :
  isByte n a = true -> (128 <= n)%N -> spaceByte a = true.
Proof.
  intros H%isByte_eq Hn. unfold spaceByte. apply orb_true_iff. right.
  apply N.leb_le. lia.
Qed.

Lemma space2_bytes (a b : ascii) :
  space2 a b = true -> spaceByte a = true /\ spaceByte b = true.
Proof.
  unfold space2. intros H.
  apply andb_true_iff in H as [Ha Hb]. split.
  - eapply high_spaceByte; [exact Ha | lia].
  - apply orb_true_iff in Hb as [Hb|Hb]; eapply high_spaceByte; try exact Hb; lia.
Qed.

Lemma between_spaceByte (lo hi : N) (a : ascii) :
  between lo hi a = true -> (128 <= lo)%N -> spaceByte a = true.
Proof.
  unfold between. intros H Hlo. apply andb_true_iff in H as [H _].
  apply N.leb_le in H. unfold spaceByte. apply orb_true_iff. right.
  apply N.leb_le. lia.
Qed.

Lemma space3_bytes (a b c : ascii) :
  space3 a b c = true ->
  spaceByte a = true /\ spaceByte b = true /\ spaceByte c = true.
Proof.
  unfold space3. intros H.
  repeat (apply orb_true_iff in H; destruct H as [H|H]);
    repeat (apply andb_true_iff in H; destruct H as [H ?]);
    repeat match goal with
           | X : (_ || _) = true |- _ => apply orb_true_iff in X; destruct X
           end;
    repeat split;
    first [ eapply high_spaceByte; [eassumption | lia]
          | eapply between_spaceByte; [eassumption | lia] ].
Qed.

(** [trimLeading] removes a prefix made of white-space bytes. *)
Lemma trimLeading_split (fwd : bool) (s : string) :
  exists pre, s = pre ++ trimLeading fwd s /\ spacey pre = true.
Proof.
  remember (String.length s) as n eqn:Hn.
  revert s Hn. induction n as [n IH] using (well_founded_induction Wf_nat.lt_wf).
  intros s Hn. destruct s as [|a r1]; [exists EmptyString; auto|].
  cbn [trimLeading].
  destruct (asciiSpace a) eqn:Ha.
  { destruct (IH (String.length r1)) with (s := r1) as (pre & E & Hp);
      [subst; cbn; lia | reflexivity |].
    exists (String a pre). cbn [append spacey]. rewrite <- E. split; [reflexivity|].
    unfold spaceByte. rewrite Ha, Hp. reflexivity. }
  destruct r1 as [|b r2]; [exists EmptyString; auto|].
  destruct (if fwd then space2 a b else space2 b a) eqn:H2.
  { assert (Hab : spaceByte a = true /\ spaceByte b = true).
    { destruct fwd; apply space2_bytes in H2; tauto. }
    destruct (IH (String.length r2)) with (s := r2) as (pre & E & Hp);
      [subst; cbn; lia | reflexivity |].
    exists (String a (String b pre)). cbn [append spacey]. rewrite <- E.
    destruct Hab as [-> ->]. rewrite Hp. auto. }
  destruct r2 as [|c r3]; [exists EmptyString; auto|].
  destruct (if fwd then space3 a b c else space3 c b a) eqn:H3.
  { assert (Habc : spaceByte a = true /\ spaceByte b = true /\ spaceByte c = true).
    { destruct fwd; apply space3_bytes in H3; tauto. }
    destruct (IH (String.length r3)) with (s := r3) as (pre & E & Hp);
      [subst; cbn; lia | reflexivity |].
    exists (String a (String b (String c pre))). cbn [append spacey]. rewrite <- E.
    destruct Habc as (-> & -> & ->). rewrite Hp. auto. }
  exists EmptyString; auto.
Qed.

Lemma TrimRight_split (s : string) :
  exists post, s = TrimRight s ++ post /\ spacey post = true.
Proof.
  destruct (trimLeading_split false (rev s)) as (pre & E & Hp).
  exists (rev pre). split.
  - unfold TrimRight. rewrite <- rev_app, <- E. symmetry. apply rev_involutive.
  - now rewrite spacey_rev.
Qed.

Lemma dropCR_split (l : string) :
  exists post, l = dropCR l ++ post /\ spacey post = true.
Proof.
  unfold dropCR, dropCR_rev.
  destruct (rev l) as [|a r] eqn:E.
  - exists EmptyString. split; [|reflexivity].
    rewrite <- (rev_involutive l), E. reflexivity.
  - destruct (Ascii.eqb_spec a CR) as [->|_].
    + exists (String CR EmptyString). split; [|reflexivity].
      rewrite <- (rev_involutive l), E. apply rev_cons.
    + exists EmptyString. split; [|reflexivity].
      rewrite <- E, rev_involutive, append_nil_r. reflexivity.
Qed.

(** A line is its trimmed text between two runs of white-space bytes. *)
Lemma trimmed_split (l : string) :
  exists pre post,
    l = pre ++ trimmed l ++ post /\ spacey pre = true /\ spacey post = true.
Proof.
  destruct (dropCR_split l) as (p2 & E2 & H2).
  destruct (trimLeading_split true (dropCR l)) as (p0 & E0 & H0).
  destruct (TrimRight_split (TrimLeft (dropCR l))) as (p1 & E1 & H1).
  exists p0, (p1 ++ p2). repeat split.
  - unfold trimmed, TrimSpace.
    rewrite <- (append_assoc (TrimRight (TrimLeft (dropCR l))) p1 p2), <- E1.
    unfold TrimLeft. rewrite <- append_assoc, <- E0. exact E2.
  - exact H0.
  - rewrite spacey_app, H1, H2. reflexivity.
Qed.

(** Valid JSON stays the same value when the white space around it is
    trimmed. *)
Lemma parse_trimmed (l : string) (v : json) :
  parse l = Some v -> parse (trimmed l) = Some v.
Proof.
  destruct (trimmed_split l) as (pre & post & E & Hpre & Hpost).
  unfold parse. destruct (lex Idle l) as [ts|] eqn:Hl; [|discriminate].
  intros Hp. rewrite E in Hl.
  apply lex_skip_space in Hl; [|exact Hpre].
  apply lex_drop_space in Hl; [|exact I | exact Hpost].
  rewrite Hl. exact Hp.
Qed.

Lemma Unmarshal_trimmed (T : Type) (fields : list (string * json) -> T -> option T)
    (zero : T) (l : string) (r : T) :
  Unmarshal fields zero l = Some r ->
  isEmpty (trimmed l) = false /\ Unmarshal fields zero (trimmed l) = Some r.
Proof.
  unfold Unmarshal. destruct (parse l) as [v|] eqn:Hp; [|discriminate].
  intros H. apply parse_trimmed in Hp. rewrite Hp. split; [|exact H].
  destruct (trimmed l); [discriminate Hp | reflexivity].
Qed.

(** A valid line carries its record. *)
Lemma valid_carries (T : Type) (fields : list (string * json) -> T -> option T)
    (zero : T) (l : string) (r : T) :
  validLine (Unmarshal fields zero) l r -> carries (Unmarshal fields zero) l r.
Proof.
  intros [Hf Hu]. apply Unmarshal_trimmed in Hu as [He Hu].
  repeat split; auto; apply Hf.
Qed.

Lemma valid_all_carry (T : Type) (fields : list (string * json) -> T -> option T)
    (zero : T) (lines : list string) (rs : list T) :
  Forall2 (validLine (Unmarshal fields zero)) lines rs ->
  Forall2 (carries (Unmarshal fields zero)) lines rs.
Proof. induction 1; constructor; auto using valid_carries. Qed.
End TrimFacts.

(* ===================================================================== *)
(** * Lemmas on the read loops *)
(* ===================================================================== *)

Section LoopFacts.
Context {rt : GoRuntime}.
Variable U : Type.
Variable R : Type.
Variable unmarshal : string -> option R.
Variable fn : R -> Caller U -> Caller U.
Import Bytes Strings Bufio.


Lemma callbacks_cons (r : R) (rs : list R) (k : Caller U) :
  callbacks fn (r :: rs) k = callbacks fn rs (fn r k).
Proof. reflexivity. Qed.

Lemma decoded_cons (tok : Token) (toks : list Token) :
  decoded unmarshal (tok :: toks) =
    (match decode unmarshal tok with Some r => [r] | None => [] end
       ++ decoded unmarshal toks)%list.
Proof. reflexivity. Qed.

Lemma decoded_app (t1 t2 : list Token) :
  decoded unmarshal (t1 ++ t2) = (decoded unmarshal t1 ++ decoded unmarshal t2)%list.
Proof.
  unfold decoded, records. rewrite map_app, flat_map_app. reflexivity.
Qed.

(** One step of either loop looks at the token the way [decode] does. *)
Lemma decode_None (tok : Token) :
  decode unmarshal tok = None ->
  isEmpty (TrimSpace (text tok)) = true
  \/ (isEmpty (TrimSpace (text tok)) = false /\ unmarshal (TrimSpace (text tok)) = None).
Proof.
  unfold decode. destruct (isEmpty (TrimSpace (text tok))); auto.
Qed.

Lemma decode_Some (tok : Token) (r : R) :
  decode unmarshal tok = Some r ->
  isEmpty (TrimSpace (text tok)) = false /\ unmarshal (TrimSpace (text tok)) = Some r.
Proof.
  unfold decode. destruct (isEmpty (TrimSpace (text tok))); [discriminate | auto].
Qed.

(** The progress loop calls the callback on every record of the token
    sequence, in order, and only ends when the tokens do. *)
Lemma progressLoop_spec (toks : list Token) (k : Caller U) :
  progressLoop unmarshal fn toks k
    = (Exhausted, callbacks fn (decoded unmarshal toks) k).
Proof.
  revert k. induction toks as [|tok rest IH]; intros k.
  - reflexivity.
  - rewrite decoded_cons. cbn [progressLoop].
    destruct (decode unmarshal tok) as [r|] eqn:Hd.
    + apply decode_Some in Hd as [He Hu]. rewrite He, Hu. rewrite IH. reflexivity.
    + apply decode_None in Hd as [He | [He Hu]].
      * rewrite He. apply IH.
      * rewrite He, Hu. apply IH.
Qed.

Variable done : R -> bool.
(** A callback that gets the record by pointer. *)
Variable pf : R -> Caller U -> R * Caller U.

(** The response loop looks at the context before it looks at a token. *)
Lemma responseLoop_cancelled (tok : Token) (rest : list Token) (k : Caller U)
    (e : CtxErr) :
  ctxErr k = Some e ->
  responseLoop unmarshal done pf (tok :: rest) k = (Returned (ContextError e), k).
Proof. intros Hc. cbn [responseLoop]. rewrite Hc. reflexivity. Qed.

(** Whatever the callback preserves, the loops preserve. *)
Lemma progressLoop_invariant (P : Caller U -> Prop) (toks : list Token) (k : Caller U) :
  (forall r k, P k -> P (fn r k)) ->
  P k -> P (snd (progressLoop unmarshal fn toks k)).
Proof.
  intros Hfn. revert k. induction toks as [|tok rest IH]; intros k Hk; cbn [progressLoop].
  - exact Hk.
  - destruct (isEmpty (TrimSpace (text tok))); [now apply IH|].
    destruct (unmarshal (TrimSpace (text tok))); apply IH; auto.
Qed.

Lemma responseLoop_invariant (P : Caller U -> Prop) (toks : list Token) (k : Caller U) :
  (forall r k, P k -> P (effect pf r k)) ->
  P k -> P (snd (responseLoop unmarshal done pf toks k)).
Proof.
  intros Hfn. revert k. induction toks as [|tok rest IH]; intros k Hk; cbn [responseLoop].
  - exact Hk.
  - destruct (ctxErr k); [exact Hk|].
    destruct (isEmpty (TrimSpace (text tok))); [now apply IH|].
    destruct (unmarshal (TrimSpace (text tok))) as [r|]; [|now apply IH].
    specialize (Hfn r k Hk). unfold effect in Hfn.
    destruct (pf r k) as [r' k']. cbn in Hfn.
    destruct (done r'); [exact Hfn | now apply IH].
Qed.

(** When the response loop returns a context error, the context was
    cancelled and the callback has not run since. *)
Lemma responseLoop_returned (toks : list Token) (k k' : Caller U) (e : error) :
  responseLoop unmarshal done pf toks k = (Returned e, k') ->
  exists c, e = ContextError c /\ ctxErr k' = Some c.
Proof.
  revert k. induction toks as [|tok rest IH]; intros k; cbn [responseLoop].
  - discriminate.
  - destruct (ctxErr k) as [c|] eqn:Hc.
    + intros H. inversion H; subst. eauto.
    + destruct (isEmpty (TrimSpace (text tok))); [apply IH|].
      destruct (unmarshal (TrimSpace (text tok))) as [r|]; [|apply IH].
      destruct (pf r k) as [r' k1].
      destruct (done r'); [discriminate | apply IH].
Qed.

(** Lines and their outcomes, seen as tokens. *)
Lemma decoded_lineTokens (terminated : bool) (lines : list string)
    (outcomes : list (option R)) :
  Forall2 (yields unmarshal) lines outcomes ->
  decoded unmarshal (lineTokens terminated lines) = records outcomes.
Proof.
  induction 1 as [|l o lines outcomes Hy _ IH].
  - reflexivity.
  - cbn [lineTokens]. rewrite decoded_cons, IH.
    destruct Hy as (_ & He & Hu).
    unfold decode. cbn [text]. fold (trimmed l). rewrite He, Hu.
    reflexivity.
Qed.

Lemma yields_fits (lines : list string) (outcomes : list (option R)) :
  Forall2 (yields unmarshal) lines outcomes ->
  Forall fits lines /\ Forall (fun l => isEmpty l = false) lines.
Proof.
  induction 1 as [|l o lines outcomes Hy _ [IH1 IH2]]; split; constructor; auto.
  - apply Hy.
  - apply trimmed_nonempty. apply Hy.
Qed.

Lemma carries_yields (lines : list string) (rs : list R) :
  Forall2 (carries unmarshal) lines rs ->
  Forall2 (yields unmarshal) lines (map Some rs).
Proof. induction 1; simpl; constructor; auto. Qed.

Lemma records_Some (rs : list R) : records (map Some rs) = rs.
Proof. induction rs as [|r rs IH]; simpl; [reflexivity | now rewrite IH]. Qed.

End LoopFacts.

(* ===================================================================== *)
(** * Lemmas on bodies in lines and on calm runs of the response loop *)
(* ===================================================================== *)

Section CalmRuns.
Context {rt : GoRuntime}.
Variable U : Type.
Import Bytes Strings Bufio.

(** The records of a sequence of lines are those of their tokens. *)
Lemma decoded_lines (R : Type) (unmarshal : string -> option R)
    (terminated : bool) (lines : list string) :
  decoded unmarshal (lineTokens terminated lines) = lineRecords unmarshal lines.
Proof.
  induction lines as [|l rest IH]; [reflexivity|].
  cbn [lineTokens]. rewrite decoded_cons, IH. reflexivity.
Qed.

Lemma ScanLines_last (last : string) :
  fits last ->
  ScanLines last
  = (if isEmpty last then [] else [ {| text := dropCR last; atEnd := true |} ], Drained).
Proof.
  intros [Hc Hn]. destruct last as [|a r] eqn:E; [reflexivity|].
  rewrite <- E in *. replace (isEmpty last) with false by (subst; reflexivity).
  unfold ScanLines. rewrite scan_last; auto.
  apply rev_nonempty. subst. reflexivity.
Qed.

(** The scanner on a body in lines: a token for every line that ends in a
    newline, and one for what is behind the last newline if there are
    bytes. *)
Lemma ScanLines_lines (lines : list string) (last : string) :
  Forall fits lines -> fits last ->
  ScanLines (framed true lines ++ last)
  = ((lineTokens true lines
        ++ if isEmpty last then [] else [ {| text := dropCR last; atEnd := true |} ])%list,
     Drained).
Proof.
  intros Hl Hlast. rewrite ScanLines_framed_app by assumption.
  rewrite ScanLines_last by assumption. reflexivity.
Qed.

Lemma lineRecords_app (R : Type) (unmarshal : string -> option R) (l1 l2 : list string) :
  lineRecords unmarshal (l1 ++ l2)
  = (lineRecords unmarshal l1 ++ lineRecords unmarshal l2)%list.
Proof. unfold lineRecords, records. now rewrite map_app, flat_map_app. Qed.

Lemma decoded_body (R : Type) (unmarshal : string -> option R)
    (lines : list string) (last : string) :
  decoded unmarshal
    (lineTokens true lines
       ++ if isEmpty last then [] else [ {| text := dropCR last; atEnd := true |} ])
  = lineRecords unmarshal (lines ++ [last]).
Proof.
  rewrite decoded_app, decoded_lines, lineRecords_app. f_equal.
  destruct last as [|a r]; reflexivity.
Qed.

(** A calm run of the response loop goes through all tokens. *)
Lemma responseLoop_calm (R : Type) (unmarshal : string -> option R) (done : R -> bool)
    (pf : R -> Caller U -> R * Caller U) (toks : list Token) (k : Caller U) :
  ctxErr k = None ->
  calm done pf (decoded unmarshal toks) k ->
  responseLoop unmarshal done pf toks k
  = (Exhausted, callbacks (effect pf) (decoded unmarshal toks) k).
Proof.
  revert k. induction toks as [|tok rest IH]; intros k Hc Hcalm; [reflexivity|].
  rewrite decoded_cons in *. cbn [responseLoop]. rewrite Hc.
  destruct (decode unmarshal tok) as [r|] eqn:Hd.
  - apply decode_Some in Hd as [He Hu]. rewrite He, Hu.
    cbn [app calm] in Hcalm. destruct Hcalm as (Hf & Hlive & Hrest).
    rewrite (surjective_pairing (pf r k)), Hf.
    cbn [app callbacks fold_left]. now apply IH.
  - apply decode_None in Hd as [He | [He Hu]].
    + rewrite He. now apply IH.
    + rewrite He, Hu. now apply IH.
Qed.




End CalmRuns.

(* ===================================================================== *)
(** * Lemmas on the streaming operations *)
(* ===================================================================== *)

Section StreamFacts.
Context {rt : GoRuntime}.
Variable U : Type.
Import Bytes Strings Bufio.

Section OneRecordType.
Variable R : Type.
Variable unmarshal : string -> option R.
Variable fn : R -> Caller U -> Caller U.

Lemma stream_progress (prefix : string) (body : ResponseBody.t) (w : World U)
    (toks : list Token) :
  ScanLines (ResponseBody.data body) = (toks, Drained) ->
  ResponseBody.readErr body = None ->
  stream prefix body (progressLoop unmarshal fn) w
    = (inr tt, {| sent := sent w;
                  caller := callbacks fn (decoded unmarshal toks) (caller w) |}).
Proof.
  intros Hs Hr. unfold stream, NewScanner. rewrite Hs. open_monad.
  cbn [tokens]. rewrite progressLoop_spec. cbn [ScannerErr ending reader].
  rewrite Hr. reflexivity.
Qed.

Variable done : R -> bool.
Variable pf : R -> Caller U -> R * Caller U.

Lemma stream_response_calm (prefix : string) (body : ResponseBody.t) (w : World U)
    (toks : list Token) :
  ScanLines (ResponseBody.data body) = (toks, Drained) ->
  ResponseBody.readErr body = None ->
  ctxErr (caller w) = None ->
  calm done pf (decoded unmarshal toks) (caller w) ->
  stream prefix body (responseLoop unmarshal done pf) w
    = (inr tt, {| sent := sent w;
                  caller := callbacks (effect pf) (decoded unmarshal toks) (caller w) |}).
Proof.
  intros Hs Hr Hc Hq. unfold stream, NewScanner. rewrite Hs. open_monad.
  cbn [tokens]. rewrite responseLoop_calm by assumption.
  cbn [ScannerErr ending reader]. rewrite Hr. reflexivity.
Qed.


(** What a stream leaves of the caller's state comes from the callback
    alone, and the log of requests stays as it is. *)
Lemma stream_progress_frame (P : Caller U -> Prop) (prefix : string)
    (body : ResponseBody.t) (w : World U) :
  (forall r k, P k -> P (fn r k)) ->
  P (caller w) ->
  P (caller (snd (stream prefix body (progressLoop unmarshal fn) w)))
  /\ sent (snd (stream prefix body (progressLoop unmarshal fn) w)) = sent w.
Proof.
  intros Hfn Hw. unfold stream. open_monad.
  pose proof (progressLoop_invariant unmarshal fn P
                (tokens (NewScanner body)) (caller w) Hfn Hw) as Hi.
  destruct (progressLoop unmarshal fn (tokens (NewScanner body)) (caller w))
    as [exit k']. cbn [snd] in Hi.
  destruct exit; [| |cbn; auto];
    destruct (ScannerErr _ _); cbn; auto.
Qed.

Lemma stream_response_frame (P : Caller U -> Prop) (prefix : string)
    (body : ResponseBody.t) (w : World U) :
  (forall r k, P k -> P (effect pf r k)) ->
  P (caller w) ->
  P (caller (snd (stream prefix body (responseLoop unmarshal done pf) w)))
  /\ sent (snd (stream prefix body (responseLoop unmarshal done pf) w)) = sent w.
Proof.
  intros Hfn Hw. unfold stream. open_monad.
  pose proof (responseLoop_invariant unmarshal done pf P
                (tokens (NewScanner body)) (caller w) Hfn Hw) as Hi.
  destruct (responseLoop unmarshal done pf (tokens (NewScanner body)) (caller w))
    as [exit k']. cbn [snd] in Hi.
  destruct exit; [| |cbn; auto];
    destruct (ScannerErr _ _); cbn; auto.
Qed.

End OneRecordType.

(** ** Bodies made of lines *)

Section Delivery.
Variable R : Type.
Variable unmarshal : string -> option R.
Variable fn : R -> Caller U -> Caller U.

(** The progress operations deliver the records of all lines. *)
Lemma progress_delivery (prefix : string) (w : World U) (req : HttpRequest.t)
    (terminated : bool) (lines : list string) (outcomes : list (option R)) :
  Forall2 (yields unmarshal) lines outcomes ->
  stream prefix
    {| ResponseBody.data := framed terminated lines; ResponseBody.readErr := None |}
    (progressLoop unmarshal fn)
    {| sent := sent w ++ [req]; caller := caller w |}
  = (inr tt, after w req fn (records outcomes)).
Proof.
  intros Hy. destruct (yields_fits Hy) as [Hf He].
  rewrite stream_progress with (toks := lineTokens terminated lines).
  - rewrite (decoded_lineTokens terminated Hy). reflexivity.
  - cbn. now apply ScanLines_framed.
  - reflexivity.
Qed.


Variable done : R -> bool.
Variable pf : R -> Caller U -> R * Caller U.

(** So do the response operations on a calm run of the callback. *)
Lemma response_delivery (prefix : string) (w : World U) (req : HttpRequest.t)
    (terminated : bool) (lines : list string) (outcomes : list (option R)) :
  Forall2 (yields unmarshal) lines outcomes ->
  ctxErr (caller w) = None ->
  calm done pf (records outcomes) (caller w) ->
  stream prefix
    {| ResponseBody.data := framed terminated lines; ResponseBody.readErr := None |}
    (responseLoop unmarshal done pf)
    {| sent := sent w ++ [req]; caller := caller w |}
  = (inr tt, after w req (effect pf) (records outcomes)).
Proof.
  intros Hy Hc Hq. destruct (yields_fits Hy) as [Hf He].
  rewrite stream_response_calm with (toks := lineTokens terminated lines).
  - rewrite (decoded_lineTokens terminated Hy). reflexivity.
  - cbn. now apply ScanLines_framed.
  - reflexivity.
  - assumption.
  - rewrite (decoded_lineTokens terminated Hy). assumption.
Qed.


End Delivery.

(** ** Each operation, once the server has answered with success *)

Lemma Pull_streams (c : Client) (m : string) (fn : PullProgress.t -> Caller U -> Caller U)
    (w : World U) (req : HttpRequest.t) (body : ResponseBody.t) :
  isEmpty m = false ->
  streams c w "/api/pull" (PPull {| PullRequest.Model := m |}) req body ->
  Pull c m (Some fn) w
    = stream "error reading pull response stream: " body
        (progressLoop PullProgress.unmarshal fn)
        {| sent := sent w ++ [req]; caller := caller w |}.
Proof.
  intros Hm H. open_exchange H. unfold Pull. rewrite Hm. open_monad.
  cbn [jsonMarshal]. rewrite Hurl, Hnew, Hdo. cbn. rewrite Hst. reflexivity.
Qed.

Lemma Create_streams (c : Client) (m f : string)
    (fn : CreateProgress.t -> Caller U -> Caller U)
    (w : World U) (req : HttpRequest.t) (body : ResponseBody.t) :
  isEmpty m = false ->
  isEmpty f = false ->
  streams c w "/api/create"
    (PCreate {| CreateRequest.Model := m; CreateRequest.Modelfile := f |}) req body ->
  Create c m f (Some fn) w
    = stream "error reading create response stream: " body
        (progressLoop CreateProgress.unmarshal fn)
        {| sent := sent w ++ [req]; caller := caller w |}.
Proof.
  intros Hm Hf H. open_exchange H. unfold Create. rewrite Hm, Hf. open_monad.
  cbn [jsonMarshal]. rewrite Hurl, Hnew, Hdo. cbn. rewrite Hst. reflexivity.
Qed.

Lemma Push_streams (c : Client) (m : string) (fn : PushProgress.t -> Caller U -> Caller U)
    (w : World U) (req : HttpRequest.t) (body : ResponseBody.t) :
  isEmpty m = false ->
  streams c w "/api/push" (PPush {| PushRequest.Model := m |}) req body ->
  Push c m (Some fn) w
    = stream "error reading push response stream: " body
        (progressLoop PushProgress.unmarshal fn)
        {| sent := sent w ++ [req]; caller := caller w |}.
Proof.
  intros Hm H. open_exchange H. unfold Push. rewrite Hm. open_monad.
  cbn [jsonMarshal]. rewrite Hurl, Hnew, Hdo. cbn. rewrite Hst. reflexivity.
Qed.

Lemma GenerateStream_streams (c : Client) (p : nat)
    (fn : GenerateResponse.t -> Caller U -> GenerateResponse.t * Caller U)
    (w : World U) (req : HttpRequest.t) (body : ResponseBody.t) :
  isEmpty (GenerateRequest.Model (generateRequests (caller w) p)) = false ->
  streams c w "/api/generate"
    (PGenerate (GenerateRequest.withStream true (generateRequests (caller w) p)))
    req body ->
  GenerateStream c (Some p) (Some fn) w
    = stream "error reading generate response stream: " body
        (responseLoop GenerateResponse.unmarshal GenerateResponse.Done fn)
        {| sent := sent w ++ [req]; caller := caller w |}.
Proof.
  intros Hm H. open_exchange H. unfold GenerateStream. open_monad.
  rewrite Hm. cbn [jsonMarshal]. rewrite Hmarshal, Hurl, Hnew, Hdo. cbn.
  rewrite Hst. reflexivity.
Qed.

Lemma ChatStream_streams (c : Client) (p : nat)
    (fn : ChatResponse.t -> Caller U -> ChatResponse.t * Caller U)
    (w : World U) (req : HttpRequest.t) (body : ResponseBody.t) :
  isEmpty (ChatRequest.Model (chatRequests (caller w) p)) = false ->
  ChatRequest.Messages (chatRequests (caller w) p) <> [] ->
  streams c w "/api/chat"
    (PChat (ChatRequest.withStream true (chatRequests (caller w) p)))
    req body ->
  ChatStream c (Some p) (Some fn) w
    = stream "error reading chat response stream: " body
        (responseLoop ChatResponse.unmarshal ChatResponse.Done fn)
        {| sent := sent w ++ [req]; caller := caller w |}.
Proof.
  intros Hm Hmsgs H. open_exchange H. unfold ChatStream. open_monad.
  rewrite Hm. destruct (ChatRequest.Messages (chatRequests (caller w) p));
    [congruence|].
  cbn [jsonMarshal]. rewrite Hmarshal, Hurl, Hnew, Hdo. cbn.
  rewrite Hst. reflexivity.
Qed.

End StreamFacts.

(* ===================================================================== *)
(** * Lemmas on the course of a call *)
(* ===================================================================== *)

Section CourseFacts.
Context {rt : GoRuntime}.
Variable U : Type.
Import Bytes Strings Bufio.

Lemma fst_errorOf (A : Type) (r : (error + A) * World U) :
  fst (errorOf r) = match fst r with inl e => Some e | inr _ => None end.
Proof. reflexivity. Qed.

Lemma snd_errorOf (A : Type) (r : (error + A) * World U) : snd (errorOf r) = snd r.
Proof. reflexivity. Qed.

(** What [do] does, step by step. *)
Lemma do_result (A : Type) (c : Client) (method path : string)
    (reqBody : option Payload) (resBody : option (string -> option A))
    (target : A) (w : World U) :
  (exists stage cause,
      do c method path reqBody resBody target w = (inl (Wrapf stage cause), w)
      /\ In stage [ "failed to construct URL: "; "failed to marshal request body: ";
                    "failed to create request: " ])
  \/ (exists hreq,
        HttpRequest.Body hreq = bodyFor reqBody
        /\ (forall p, reqBody = Some p -> exists d, jsonMarshal p = inr d)
        /\ snd (do c method path reqBody resBody target w)
           = {| sent := sent w ++ [hreq]; caller := caller w |}
        /\ match Do (httpClient c) (ctxErr (caller w)) hreq with
           | inl x =>
               fst (do c method path reqBody resBody target w)
               = inl (Wrapf "failed to execute request: " x)
           | inr resp =>
               match ResponseBody.ReadAll (HttpResponse.Body resp) with
               | inl x =>
                   fst (do c method path reqBody resBody target w)
                   = inl (Wrapf "failed to read response body: " x)
               | inr body =>
                   if non2xx (HttpResponse.StatusCode resp) then
                     fst (do c method path reqBody resBody target w)
                     = inl (parseErrorResponse (HttpResponse.StatusCode resp) body)
                   else
                     (exists v, fst (do c method path reqBody resBody target w) = inr v)
                     \/ fst (do c method path reqBody resBody target w)
                        = inl (Wrapf "failed to unmarshal response body: " JSONError)
               end
           end).
Proof.
  unfold do, bodyFor. open_monad.
  destruct (urlJoinPath (baseURL c) path) as [e|u];
    [left; do 2 eexists; split; [reflexivity | cbn; auto] |].
  destruct reqBody as [p|]; [destruct (jsonMarshal p) as [e|d] eqn:Hm |];
    [left; do 2 eexists; split; [reflexivity | cbn; auto] | |];
    (unfold NewRequestWithContext;
     destruct (httpNewRequestCheck method u) as [e|];
       [left; do 2 eexists; split; [reflexivity | cbn; auto] |];
     right; eexists; refine (conj _ (conj _ (conj _ _))); cycle 2;
       [ cbn; destruct (Do _ _ _) as [x|resp]; [reflexivity|];
         cbn; destruct (ResponseBody.ReadAll _); [reflexivity|]; cbn;
         destruct (non2xx _); [reflexivity|];
         destruct resBody as [um|]; [|reflexivity];
         destruct (isEmpty _); [reflexivity|]; destruct (um _); reflexivity
       | cbn; destruct (Do _ _ _) as [x|resp]; [reflexivity|];
         cbn; destruct (ResponseBody.ReadAll _); [reflexivity|]; cbn;
         destruct (non2xx _); [reflexivity|];
         destruct resBody as [um|]; [|left; eexists; reflexivity];
         destruct (isEmpty _); [left; eexists; reflexivity|];
         destruct (um _); [left; eexists; reflexivity | right; reflexivity]
       | reflexivity
       | intros ? [=]; subst; eauto ]).
Qed.

(** What a streaming operation does, step by step. *)
Lemma streamingCall_result (c : Client) (word path : string) (payload : Payload)
    (loop : list Token -> Caller U -> LoopExit * Caller U) (w : World U) :
  (exists stage cause,
      streamingCall c word path payload loop w = (inl (Wrapf stage cause), w)
      /\ In stage [ "failed to marshal " ++ word ++ " request: ";
                    "failed to construct URL: "; "failed to create request: " ])
  \/ (exists hreq d,
        jsonMarshal payload = inr d
        /\ HttpRequest.Body hreq = Some d
        /\ match Do (httpClient c) (ctxErr (caller w)) hreq with
           | inl x =>
               streamingCall c word path payload loop w
               = (inl (Wrapf ("failed to execute " ++ word ++ " request: ") x),
                  {| sent := sent w ++ [hreq]; caller := caller w |})
           | inr resp =>
               if non2xx (HttpResponse.StatusCode resp) then
                 match ResponseBody.ReadAll (HttpResponse.Body resp) with
                 | inl x =>
                     streamingCall c word path payload loop w
                     = (inl (Wrapf (word ++ " request failed with status "
                                      ++ itoa (HttpResponse.StatusCode resp)
                                      ++ " and could not read response body: ") x),
                        {| sent := sent w ++ [hreq]; caller := caller w |})
                 | inr body =>
                     streamingCall c word path payload loop w
                     = (inl (parseErrorResponse (HttpResponse.StatusCode resp) body),
                        {| sent := sent w ++ [hreq]; caller := caller w |})
                 end
               else
                 streamingCall c word path payload loop w
                 = stream ("error reading " ++ word ++ " response stream: ")
                     (HttpResponse.Body resp) loop
                     {| sent := sent w ++ [hreq]; caller := caller w |}
           end).
Proof.
  unfold streamingCall. open_monad.
  destruct (jsonMarshal payload) as [e|d];
    [left; do 2 eexists; split; [reflexivity | cbn; auto] |].
  destruct (urlJoinPath (baseURL c) path) as [e|u];
    [left; do 2 eexists; split; [reflexivity | cbn; auto] |].
  unfold NewRequestWithContext.
  destruct (httpNewRequestCheck MethodPost u) as [e|];
    [left; do 2 eexists; split; [reflexivity | cbn; auto] |].
  right.
  exists (setHeaders {| HttpRequest.Method := MethodPost; HttpRequest.URL := u;
                        HttpRequest.Header := []; HttpRequest.Body := Some d |}), d.
  split; [reflexivity|]. split; [reflexivity|].
  cbn. destruct (Do _ _ _) as [x|resp]; [reflexivity|]. cbn.
  destruct (non2xx _); [|reflexivity].
  destruct (ResponseBody.ReadAll _); reflexivity.
Qed.

(** What the part behind the status check does. *)
Lemma stream_result (prefix : string) (body : ResponseBody.t)
    (loop : list Token -> Caller U -> LoopExit * Caller U) (w : World U) :
  sent (snd (stream prefix body loop w)) = sent w
  /\ caller (snd (stream prefix body loop w))
     = snd (loop (tokens (NewScanner body)) (caller w))
  /\ (fst (stream prefix body loop w) = inr tt
      \/ (exists cause, fst (stream prefix body loop w) = inl (Wrapf prefix cause))
      \/ (exists e, fst (loop (tokens (NewScanner body)) (caller w)) = Returned e
                    /\ fst (stream prefix body loop w) = inl e)).
Proof.
  unfold stream. open_monad.
  destruct (loop (tokens (NewScanner body)) (caller w)) as [exit k].
  destruct exit as [|atEnd|e]; cbn [fst snd].
  - destruct (ScannerErr _ _); cbn; repeat split; eauto.
  - destruct (ScannerErr _ _); cbn; repeat split; eauto.
  - cbn. repeat split. right; right. eauto.
Qed.

(** ** Each operation as validation followed by its course *)

Lemma Pull_course (c : Client) (m : string)
    (fn : option (PullProgress.t -> Caller U -> Caller U)) (w : World U) :
  Pull c m fn w =
    if isEmpty m then (inl (Errorf "model name cannot be empty"), w)
    else match fn with
         | None => (inl (Errorf "progress callback function cannot be nil"), w)
         | Some fn =>
             streamingCall c "pull" "/api/pull" (PPull {| PullRequest.Model := m |})
               (progressLoop PullProgress.unmarshal fn) w
         end.
Proof. unfold Pull. destruct (isEmpty m), fn; reflexivity. Qed.

Lemma Create_course (c : Client) (m f : string)
    (fn : option (CreateProgress.t -> Caller U -> Caller U)) (w : World U) :
  Create c m f fn w =
    if isEmpty m then (inl (Errorf "model name cannot be empty"), w)
    else if isEmpty f then (inl (Errorf "modelfile content cannot be empty"), w)
    else match fn with
         | None => (inl (Errorf "progress callback function cannot be nil"), w)
         | Some fn =>
             streamingCall c "create" "/api/create"
               (PCreate {| CreateRequest.Model := m; CreateRequest.Modelfile := f |})
               (progressLoop CreateProgress.unmarshal fn) w
         end.
Proof. unfold Create. destruct (isEmpty m), (isEmpty f), fn; reflexivity. Qed.

Lemma Push_course (c : Client) (m : string)
    (fn : option (PushProgress.t -> Caller U -> Caller U)) (w : World U) :
  Push c m fn w =
    if isEmpty m then (inl (Errorf "model name cannot be empty"), w)
    else match fn with
         | None => (inl (Errorf "progress callback function cannot be nil"), w)
         | Some fn =>
             streamingCall c "push" "/api/push" (PPush {| PushRequest.Model := m |})
               (progressLoop PushProgress.unmarshal fn) w
         end.
Proof. unfold Push. destruct (isEmpty m), fn; reflexivity. Qed.

Lemma GenerateStream_course (c : Client) (p : nat)
    (fn : option (GenerateResponse.t -> Caller U -> GenerateResponse.t * Caller U)) (w : World U) :
  GenerateStream c (Some p) fn w =
    if isEmpty (GenerateRequest.Model (generateRequests (caller w) p))
    then (inl (Errorf "model name cannot be empty"), w)
    else match fn with
         | None => (inl (Errorf "callback function cannot be nil"), w)
         | Some fn =>
             streamingCall c "generate" "/api/generate"
               (PGenerate (GenerateRequest.withStream true (generateRequests (caller w) p)))
               (responseLoop GenerateResponse.unmarshal GenerateResponse.Done fn) w
         end.
Proof.
  unfold GenerateStream. open_monad.
  destruct (isEmpty _), fn; reflexivity.
Qed.

Lemma ChatStream_course (c : Client) (p : nat)
    (fn : option (ChatResponse.t -> Caller U -> ChatResponse.t * Caller U)) (w : World U) :
  ChatStream c (Some p) fn w =
    if isEmpty (ChatRequest.Model (chatRequests (caller w) p))
    then (inl (Errorf "model name cannot be empty"), w)
    else match ChatRequest.Messages (chatRequests (caller w) p) with
         | [] => (inl (Errorf "at least one message is required"), w)
         | _ :: _ =>
             match fn with
             | None => (inl (Errorf "callback function cannot be nil"), w)
             | Some fn =>
                 streamingCall c "chat" "/api/chat"
                   (PChat (ChatRequest.withStream true (chatRequests (caller w) p)))
                   (responseLoop ChatResponse.unmarshal ChatResponse.Done fn) w
             end
         end.
Proof.
  unfold ChatStream. open_monad.
  destruct (isEmpty (ChatRequest.Model (chatRequests (caller w) p))),
    (ChatRequest.Messages (chatRequests (caller w) p)), fn; reflexivity.
Qed.

(** Every call is refused by validation, or is a unary call that runs [do]
    and wraps its error, or is a streaming call that takes the common
    course. *)
Lemma invoke_course (c : Client) (call : Call U) (w : World U) :
  (invalid call w = true
   /\ exists e, invoke c call w = (Some e, w) /\ isValidationError e)
  \/ (invalid call w = false /\ isUnary call = true
      /\ exists (A : Type) (method path : string)
                (resBody : option (string -> option A)) (target : A),
           invoke c call w
           = errorOf (tryM (operationPrefix call)
                        (do c method path (payloadOf call w) resBody target) w))
  \/ (invalid call w = false /\ isUnary call = false
      /\ exists (path : string) (payload : Payload)
                (loop : list Token -> Caller U -> LoopExit * Caller U),
           payloadOf call w = Some payload
           /\ loopOf call loop
           /\ invoke c call w
              = errorOf (streamingCall c (operationWord call) path payload loop w)).
Proof.
  destruct call as [|m|s d|m|m fn|m f fn|m fn|req|req fn|req|req fn|req|];
    cbn [invoke invalid isUnary operationPrefix operationWord payloadOf].
  - right; left. repeat split. do 5 eexists. reflexivity.
  - unfold Show. destruct (isEmpty m).
    + left. split; [reflexivity|]. validation_error.
    + right; left. repeat split. do 5 eexists. reflexivity.
  - unfold Copy. destruct (isEmpty s); [|destruct (isEmpty d)].
    + left. split; [reflexivity|]. validation_error.
    + left. split; [reflexivity|]. validation_error.
    + right; left. repeat split. do 5 eexists. reflexivity.
  - unfold Delete. destruct (isEmpty m).
    + left. split; [reflexivity|]. validation_error.
    + right; left. repeat split. do 5 eexists. reflexivity.
  - rewrite Pull_course. destruct (isEmpty m); [|destruct fn as [fn|]].
    + left. split; [reflexivity|]. validation_error.
    + right; right. repeat split. do 3 eexists. repeat split; reflexivity.
    + left. split; [reflexivity|]. validation_error.
  - rewrite Create_course.
    destruct (isEmpty m); [|destruct (isEmpty f); [|destruct fn as [fn|]]].
    + left. split; [reflexivity|]. validation_error.
    + left. split; [reflexivity|]. validation_error.
    + right; right. repeat split. do 3 eexists. repeat split; reflexivity.
    + left. split; [reflexivity|]. validation_error.
  - rewrite Push_course. destruct (isEmpty m); [|destruct fn as [fn|]].
    + left. split; [reflexivity|]. validation_error.
    + right; right. repeat split. do 3 eexists. repeat split; reflexivity.
    + left. split; [reflexivity|]. validation_error.
  - destruct req as [p|]; [|left; split; [reflexivity|]; validation_error].
    unfold Generate. open_monad.
    destruct (isEmpty _).
    + left. split; [reflexivity|]. validation_error.
    + right; left. repeat split. do 5 eexists. reflexivity.
  - destruct req as [p|]; [|left; split; [reflexivity|]; validation_error].
    rewrite GenerateStream_course.
    destruct (isEmpty _); [|destruct fn as [fn|]].
    + left. split; [reflexivity|]. validation_error.
    + right; right. repeat split. do 3 eexists. repeat split; reflexivity.
    + left. split; [reflexivity|]. validation_error.
  - destruct req as [p|]; [|left; split; [reflexivity|]; validation_error].
    unfold Chat. open_monad.
    destruct (isEmpty (ChatRequest.Model (chatRequests (caller w) p)));
      [|destruct (ChatRequest.Messages (chatRequests (caller w) p))].
    + left. split; [reflexivity|]. validation_error.
    + left. split; [reflexivity|]. validation_error.
    + right; left. repeat split. do 5 eexists. reflexivity.
  - destruct req as [p|]; [|left; split; [reflexivity|]; validation_error].
    rewrite ChatStream_course.
    destruct (isEmpty (ChatRequest.Model (chatRequests (caller w) p)));
      [|destruct (ChatRequest.Messages (chatRequests (caller w) p));
        [|destruct fn as [fn|]]].
    + left. split; [reflexivity|]. validation_error.
    + left. split; [reflexivity|]. validation_error.
    + right; right. repeat split. do 3 eexists. repeat split; reflexivity.
    + left. split; [reflexivity|]. validation_error.
  - destruct req as [p|]; [|left; split; [reflexivity|]; validation_error].
    unfold Embeddings. open_monad.
    destruct (isEmpty (EmbeddingRequest.Model (embeddingRequests (caller w) p)));
      [|destruct (isEmpty (EmbeddingRequest.Prompt (embeddingRequests (caller w) p)))].
    + left. split; [reflexivity|]. validation_error.
    + left. split; [reflexivity|]. validation_error.
    + right; left. repeat split. do 5 eexists. reflexivity.
  - right; left. repeat split. do 5 eexists. reflexivity.
Qed.
End CourseFacts.

(* ===================================================================== *)
(** * The streaming properties *)
(* ===================================================================== *)

Section StreamingProperties.
Context {rt : GoRuntime}.
Variable U : Type.
Import Bytes Strings Bufio.

(** C1 (stream ordering), as amended.  When the server answers a streaming
    call with a body of N valid JSON lines, each of them shorter than the
    64 KiB a token of [bufio.Scanner] may have, the call returns nil and
    the callback has run exactly N times, on the records of the lines in
    the order of the lines: the caller's state is the one the N invocations
    leave, one request has been sent, and nothing of the call is left that
    could invoke the callback later.  For [GenerateStream] and [ChatStream]
    this is so when the context is live at the start and the run of the
    callback is calm: each time the callback returns, the [Done] flag of
    the record it was given by pointer is unset and the context is still
    live. *)
Theorem C1_stream_ordering_amended :
  (forall (c : Client) (m : string) (fn : PullProgress.t -> Caller U -> Caller U)
          (w : World U) (req : HttpRequest.t) (terminated : bool)
          (lines : list string) (rs : list PullProgress.t),
      isEmpty m = false ->
      streams c w "/api/pull" (PPull {| PullRequest.Model := m |}) req
        {| ResponseBody.data := framed terminated lines; ResponseBody.readErr := None |} ->
      Forall2 (validLine PullProgress.unmarshal) lines rs ->
      Pull c m (Some fn) w = (inr tt, after w req fn rs))
  /\ (forall (c : Client) (m f : string) (fn : CreateProgress.t -> Caller U -> Caller U)
             (w : World U) (req : HttpRequest.t) (terminated : bool)
             (lines : list string) (rs : list CreateProgress.t),
         isEmpty m = false ->
         isEmpty f = false ->
         streams c w "/api/create"
           (PCreate {| CreateRequest.Model := m; CreateRequest.Modelfile := f |}) req
           {| ResponseBody.data := framed terminated lines; ResponseBody.readErr := None |} ->
         Forall2 (validLine CreateProgress.unmarshal) lines rs ->
         Create c m f (Some fn) w = (inr tt, after w req fn rs))
  /\ (forall (c : Client) (m : string) (fn : PushProgress.t -> Caller U -> Caller U)
             (w : World U) (req : HttpRequest.t) (terminated : bool)
             (lines : list string) (rs : list PushProgress.t),
         isEmpty m = false ->
         streams c w "/api/push" (PPush {| PushRequest.Model := m |}) req
           {| ResponseBody.data := framed terminated lines; ResponseBody.readErr := None |} ->
         Forall2 (validLine PushProgress.unmarshal) lines rs ->
         Push c m (Some fn) w = (inr tt, after w req fn rs))
  /\ (forall (c : Client) (p : nat)
             (fn : GenerateResponse.t -> Caller U -> GenerateResponse.t * Caller U)
             (w : World U) (req : HttpRequest.t) (terminated : bool)
             (lines : list string) (rs : list GenerateResponse.t),
         isEmpty (GenerateRequest.Model (generateRequests (caller w) p)) = false ->
         streams c w "/api/generate"
           (PGenerate (GenerateRequest.withStream true (generateRequests (caller w) p))) req
           {| ResponseBody.data := framed terminated lines; ResponseBody.readErr := None |} ->
         Forall2 (validLine GenerateResponse.unmarshal) lines rs ->
         ctxErr (caller w) = None ->
         calm GenerateResponse.Done fn rs (caller w) ->
         GenerateStream c (Some p) (Some fn) w = (inr tt, after w req (effect fn) rs))
  /\ (forall (c : Client) (p : nat)
             (fn : ChatResponse.t -> Caller U -> ChatResponse.t * Caller U)
             (w : World U) (req : HttpRequest.t) (terminated : bool)
             (lines : list string) (rs : list ChatResponse.t),
         isEmpty (ChatRequest.Model (chatRequests (caller w) p)) = false ->
         ChatRequest.Messages (chatRequests (caller w) p) <> [] ->
         streams c w "/api/chat"
           (PChat (ChatRequest.withStream true (chatRequests (caller w) p))) req
           {| ResponseBody.data := framed terminated lines; ResponseBody.readErr := None |} ->
         Forall2 (validLine ChatResponse.unmarshal) lines rs ->
         ctxErr (caller w) = None ->
         calm ChatResponse.Done fn rs (caller w) ->
         ChatStream c (Some p) (Some fn) w = (inr tt, after w req (effect fn) rs)).
Proof.
  split; [|split; [|split; [|split]]]; intros.
  - erewrite Pull_streams by eassumption.
    rewrite progress_delivery with (outcomes := map Some rs).
    + now rewrite records_Some.
    + apply carries_yields. now apply valid_all_carry.
  - erewrite Create_streams by eassumption.
    rewrite progress_delivery with (outcomes := map Some rs).
    + now rewrite records_Some.
    + apply carries_yields. now apply valid_all_carry.
  - erewrite Push_streams by eassumption.
    rewrite progress_delivery with (outcomes := map Some rs).
    + now rewrite records_Some.
    + apply carries_yields. now apply valid_all_carry.
  - erewrite GenerateStream_streams by eassumption.
    rewrite response_delivery with (outcomes := map Some rs).
    + now rewrite records_Some.
    + apply carries_yields. now apply valid_all_carry.
    + assumption.
    + now rewrite records_Some.
  - erewrite ChatStream_streams by eassumption.
    rewrite response_delivery with (outcomes := map Some rs).
    + now rewrite records_Some.
    + apply carries_yields. now apply valid_all_carry.
    + assumption.
    + now rewrite records_Some.
Qed.

(** C2 (malformed-line skip), as amended.  A line that is not blank, does
    not decode and is shorter than the 64 KiB a token of [bufio.Scanner]
    may have is passed over: whatever mixture of valid and malformed lines
    of that length the body is made of, the call returns nil and the
    callback has run on the records of the valid lines, in order, and on
    nothing else.  With one valid line, one malformed line and one valid
    line these are two invocations.  ([GenerateStream] and [ChatStream]:
    when the context is live at the start and the run of the callback is
    calm, so that nothing else ends the call.) *)
Theorem C2_malformed_line_skipped_amended :
  (forall (c : Client) (m : string) (fn : PullProgress.t -> Caller U -> Caller U)
          (w : World U) (req : HttpRequest.t) (terminated : bool)
          (lines : list string) (outcomes : list (option PullProgress.t)),
      isEmpty m = false ->
      streams c w "/api/pull" (PPull {| PullRequest.Model := m |}) req
        {| ResponseBody.data := framed terminated lines; ResponseBody.readErr := None |} ->
      Forall2 (yields PullProgress.unmarshal) lines outcomes ->
      Pull c m (Some fn) w = (inr tt, after w req fn (records outcomes)))
  /\ (forall (c : Client) (m f : string) (fn : CreateProgress.t -> Caller U -> Caller U)
             (w : World U) (req : HttpRequest.t) (terminated : bool)
             (lines : list string) (outcomes : list (option CreateProgress.t)),
         isEmpty m = false ->
         isEmpty f = false ->
         streams c w "/api/create"
           (PCreate {| CreateRequest.Model := m; CreateRequest.Modelfile := f |}) req
           {| ResponseBody.data := framed terminated lines; ResponseBody.readErr := None |} ->
         Forall2 (yields CreateProgress.unmarshal) lines outcomes ->
         Create c m f (Some fn) w = (inr tt, after w req fn (records outcomes)))
  /\ (forall (c : Client) (m : string) (fn : PushProgress.t -> Caller U -> Caller U)
             (w : World U) (req : HttpRequest.t) (terminated : bool)
             (lines : list string) (outcomes : list (option PushProgress.t)),
         isEmpty m = false ->
         streams c w "/api/push" (PPush {| PushRequest.Model := m |}) req
           {| ResponseBody.data := framed terminated lines; ResponseBody.readErr := None |} ->
         Forall2 (yields PushProgress.unmarshal) lines outcomes ->
         Push c m (Some fn) w = (inr tt, after w req fn (records outcomes)))
  /\ (forall (c : Client) (p : nat)
             (fn : GenerateResponse.t -> Caller U -> GenerateResponse.t * Caller U)
             (w : World U) (req : HttpRequest.t) (terminated : bool)
             (lines : list string) (outcomes : list (option GenerateResponse.t)),
         isEmpty (GenerateRequest.Model (generateRequests (caller w) p)) = false ->
         streams c w "/api/generate"
           (PGenerate (GenerateRequest.withStream true (generateRequests (caller w) p))) req
           {| ResponseBody.data := framed terminated lines; ResponseBody.readErr := None |} ->
         Forall2 (yields GenerateResponse.unmarshal) lines outcomes ->
         ctxErr (caller w) = None ->
         calm GenerateResponse.Done fn (records outcomes) (caller w) ->
         GenerateStream c (Some p) (Some fn) w = (inr tt, after w req (effect fn) (records outcomes)))
  /\ (forall (c : Client) (p : nat)
             (fn : ChatResponse.t -> Caller U -> ChatResponse.t * Caller U)
             (w : World U) (req : HttpRequest.t) (terminated : bool)
             (lines : list string) (outcomes : list (option ChatResponse.t)),
         isEmpty (ChatRequest.Model (chatRequests (caller w) p)) = false ->
         ChatRequest.Messages (chatRequests (caller w) p) <> [] ->
         streams c w "/api/chat"
           (PChat (ChatRequest.withStream true (chatRequests (caller w) p))) req
           {| ResponseBody.data := framed terminated lines; ResponseBody.readErr := None |} ->
         Forall2 (yields ChatResponse.unmarshal) lines outcomes ->
         ctxErr (caller w) = None ->
         calm ChatResponse.Done fn (records outcomes) (caller w) ->
         ChatStream c (Some p) (Some fn) w = (inr tt, after w req (effect fn) (records outcomes))).
Proof.
  split; [|split; [|split; [|split]]]; intros.
  - erewrite Pull_streams by eassumption. now apply progress_delivery.
  - erewrite Create_streams by eassumption. now apply progress_delivery.
  - erewrite Push_streams by eassumption. now apply progress_delivery.
  - erewrite GenerateStream_streams by eassumption. now apply response_delivery.
  - erewrite ChatStream_streams by eassumption. now apply response_delivery.
Qed.


End StreamingProperties.

(* ===================================================================== *)
(** * The properties of the public surface *)
(* ===================================================================== *)

Section EnvelopeFacts.
Import Bytes Json Decode.

Lemma field_failed (A : Type) (into : Into A) (name : string)
    (ms : list (string * json)) :
  fold_left
    (fun acc kv =>
       match acc with
       | None => None
       | Some x => if selects name (fst kv) then into (snd kv) x else Some x
       end) ms None = None.
Proof. induction ms as [|kv ms IH]; [reflexivity | exact IH]. Qed.

(** A member the field takes and cannot decode fails the whole object. *)
Lemma field_None (A : Type) (into : Into A) (name : string)
    (ms : list (string * json)) (k : string) (v : json) (start : A) :
  In (k, v) ms ->
  selects name k = true ->
  (forall old, into v old = None) ->
  field into name ms start = None.
Proof.
  unfold field. revert start. induction ms as [|[k' v'] ms IH]; intros start Hin Hs Hv.
  - contradiction.
  - cbn [fold_left fst snd]. destruct Hin as [E|Hin].
    + inversion E; subst. rewrite Hs, Hv. apply field_failed.
    + destruct (selects name k'); [|now apply IH].
      destruct (into v' start) as [x|]; [now apply IH | apply field_failed].
Qed.

(** Members that are [null] wherever the field takes them leave it alone. *)
Lemma field_untouched (name : string) (ms : list (string * json)) (start : string) :
  (forall k v, In (k, v) ms -> selects name k = true -> v = JNull) ->
  field intoString name ms start = Some start.
Proof.
  unfold field. induction ms as [|[k v] ms IH]; intros H; [reflexivity|].
  cbn [fold_left fst snd]. destruct (selects name k) eqn:Hs.
  - rewrite (H k v (or_introl eq_refl) Hs). cbn [intoString].
    apply IH. intros k' v' Hin. apply H. now right.
  - apply IH. intros k' v' Hin. apply H. now right.
Qed.

Lemma parseErrorResponse_invalid (status : Z) (body : string) :
  parse body = None ->
  parseErrorResponse status body
  = ApiError {| OllamaError.StatusCode := status; OllamaError.Message := body |}.
Proof.
  intros H. unfold parseErrorResponse, ErrorResponse.unmarshal, Unmarshal.
  rewrite H. reflexivity.
Qed.

Lemma parseErrorResponse_envelope (status : Z) (body k raw : string) :
  parse body = Some (JObject [(k, JString raw)]) ->
  unquote k = "error" ->
  parseErrorResponse status body
  = ApiError {| OllamaError.StatusCode := status; OllamaError.Message := unquote raw |}.
Proof.
  intros H Hk. unfold parseErrorResponse, ErrorResponse.unmarshal, Unmarshal.
  rewrite H. unfold intoStruct, ErrorResponse.fields, field.
  cbn [fold_left fst snd]. unfold selects. rewrite Hk.
  replace (String.eqb (foldName "error") (foldName "error")) with true by reflexivity.
  reflexivity.
Qed.

Lemma parseErrorResponse_no_error_member (status : Z) (body : string)
    (ms : list (string * json)) :
  parse body = Some (JObject ms) ->
  errorMembersNull ms ->
  parseErrorResponse status body
  = ApiError {| OllamaError.StatusCode := status; OllamaError.Message := EmptyString |}.
Proof.
  intros H Hn. unfold parseErrorResponse, ErrorResponse.unmarshal, Unmarshal.
  rewrite H. unfold intoStruct, ErrorResponse.fields.
  rewrite field_untouched by exact Hn. reflexivity.
Qed.

Lemma parseErrorResponse_null (status : Z) (body : string) :
  parse body = Some JNull ->
  parseErrorResponse status body
  = ApiError {| OllamaError.StatusCode := status; OllamaError.Message := EmptyString |}.
Proof.
  intros H. unfold parseErrorResponse, ErrorResponse.unmarshal, Unmarshal.
  rewrite H. reflexivity.
Qed.

Lemma parseErrorResponse_not_object (status : Z) (body : string) (v : json) :
  parse body = Some v ->
  match v with JNull | JObject _ => False | _ => True end ->
  parseErrorResponse status body
  = ApiError {| OllamaError.StatusCode := status; OllamaError.Message := body |}.
Proof.
  intros H Hv. unfold parseErrorResponse, ErrorResponse.unmarshal, Unmarshal.
  rewrite H. destruct v; try contradiction; reflexivity.
Qed.

Lemma parseErrorResponse_wrong_type (status : Z) (body : string)
    (ms : list (string * json)) (k : string) (v : json) :
  parse body = Some (JObject ms) ->
  In (k, v) ms ->
  selects "error" k = true ->
  match v with JNull | JString _ => False | _ => True end ->
  parseErrorResponse status body
  = ApiError {| OllamaError.StatusCode := status; OllamaError.Message := body |}.
Proof.
  intros H Hin Hs Hv. unfold parseErrorResponse, ErrorResponse.unmarshal, Unmarshal.
  rewrite H. unfold intoStruct, ErrorResponse.fields.
  rewrite (field_None intoString "error" ms k v) ; auto.
  intros old. destruct v; try contradiction; reflexivity.
Qed.

Lemma parseErrorResponse_status (status : Z) (body : string) :
  exists msg,
    parseErrorResponse status body
    = ApiError {| OllamaError.StatusCode := status; OllamaError.Message := msg |}.
Proof.
  unfold parseErrorResponse. destruct (ErrorResponse.unmarshal body); eauto.
Qed.

End EnvelopeFacts.

Section SurfaceFacts.
Context {rt : GoRuntime}.
Variable U : Type.
Import Bytes Strings Bufio.

Lemma chain_self (e : error) : In e (chain e).
Proof. destruct e; cbn; auto. Qed.

Lemma fst_tryM (A : Type) (prefix : string) (m : M U A) (w : World U) :
  fst (errorOf (tryM prefix m w))
  = match fst (m w) with inl e => Some (Wrapf prefix e) | inr _ => None end.
Proof. unfold tryM, errorOf. destruct (m w) as [[e|a] w']; reflexivity. Qed.

Lemma snd_tryM (A : Type) (prefix : string) (m : M U A) (w : World U) :
  snd (errorOf (tryM prefix m w)) = snd (m w).
Proof. unfold tryM, errorOf. destruct (m w) as [[e|a] w']; reflexivity. Qed.

Lemma not_extended (A : Type) (l : list A) (x : A) : l <> (l ++ [x])%list.
Proof.
  intros E. apply (f_equal (@List.length A)) in E.
  rewrite length_app in E. cbn in E. lia.
Qed.

Lemma last_sent (A : Type) (l : list A) (x y : A) : (l ++ [x] = l ++ [y])%list -> x = y.
Proof. intros E. apply app_inv_head in E. now inversion E. Qed.

(** ** What a call changes *)

Lemma progress_never_returns (R : Type) (unmarshal : string -> option R)
    (fn : R -> Caller U -> Caller U) (toks : list Token) (k : Caller U) (e : error) :
  fst (progressLoop unmarshal fn toks k) <> Returned e.
Proof. rewrite progressLoop_spec. discriminate. Qed.

(** The loop of a call preserves what the call's callback preserves, and
    returns from inside only with the error of the context. *)
Lemma loopOf_facts (call : Call U)
    (loop : list Token -> Caller U -> LoopExit * Caller U) :
  loopOf call loop ->
  (forall (P : Caller U -> Prop) toks k,
      callbackPreserves call P -> P k -> P (snd (loop toks k)))
  /\ (forall toks k e, fst (loop toks k) = Returned e -> exists x, e = ContextError x).
Proof.
  destruct call as [|m|s d|m|m fn|m f fn|m fn|req|req fn|req|req fn|req|];
    cbn [loopOf]; try contradiction;
    destruct fn as [fn|]; try contradiction; intros ->; split.
  - intros P toks k Hp Hk. now apply progressLoop_invariant.
  - intros toks k e H. now apply progress_never_returns in H.
  - intros P toks k Hp Hk. now apply progressLoop_invariant.
  - intros toks k e H. now apply progress_never_returns in H.
  - intros P toks k Hp Hk. now apply progressLoop_invariant.
  - intros toks k e H. now apply progress_never_returns in H.
  - intros P toks k Hp Hk. now apply responseLoop_invariant.
  - intros toks k e H.
    destruct (responseLoop _ _ fn toks k) as [exit k'] eqn:E. cbn in H. subst.
    apply responseLoop_returned in E as (x & -> & _). eauto.
  - intros P toks k Hp Hk. now apply responseLoop_invariant.
  - intros toks k e H.
    destruct (responseLoop _ _ fn toks k) as [exit k'] eqn:E. cbn in H. subst.
    apply responseLoop_returned in E as (x & -> & _). eauto.
Qed.

(** A call changes the caller's state through its callback only: what the
    callback preserves, the call preserves. *)
Lemma invoke_frame (c : Client) (call : Call U) (w : World U) (P : Caller U -> Prop) :
  callbackPreserves call P ->
  P (caller w) ->
  P (caller (snd (invoke c call w))).
Proof.
  intros Hp Hw.
  destruct (invoke_course c call w)
    as [(_ & e & -> & _)
       | [(_ & _ & A & method & path & resBody & target & ->)
         | (_ & _ & path & payload & loop & _ & Hloop & ->)]].
  - exact Hw.
  - rewrite snd_tryM.
    destruct (do_result c method path (payloadOf call w) resBody target w)
      as [(stage & cause & -> & _) | (hreq & _ & _ & -> & _)]; exact Hw.
  - rewrite snd_errorOf.
    destruct (streamingCall_result c (operationWord call) path payload loop w)
      as [(stage & cause & -> & _) | (hreq & d & _ & _ & H)]; [exact Hw|].
    destruct (Do _ _ _) as [x|resp]; [rewrite H; exact Hw|].
    destruct (non2xx _).
    + destruct (ResponseBody.ReadAll _); rewrite H; exact Hw.
    + rewrite H.
      destruct (stream_result
                  ("error reading " ++ operationWord call ++ " response stream: ")
                  (HttpResponse.Body resp) loop
                  {| sent := sent w ++ [hreq]; caller := caller w |})
        as (_ & -> & _).
      apply (proj1 (loopOf_facts call loop Hloop)); assumption.
Qed.

(** ** What a call sends *)



(** ** What a call returns on a failed status *)

(** When the answer to the request of a call has a status outside
    [200,300) and a body that can be read, the call returns the error
    [parseErrorResponse] makes of status and body: as it is from a
    streaming operation, under the operation's prefix from a unary one. *)
Lemma invoke_non2xx (c : Client) (call : Call U) (w : World U)
    (req : HttpRequest.t) (resp : HttpResponse.t) :
  sent (snd (invoke c call w)) = (sent w ++ [req])%list ->
  Do (httpClient c) (ctxErr (caller w)) req = inr resp ->
  non2xx (HttpResponse.StatusCode resp) = true ->
  ResponseBody.readErr (HttpResponse.Body resp) = None ->
  exists e,
    fst (invoke c call w) = Some e
    /\ (e = parseErrorResponse (HttpResponse.StatusCode resp)
              (ResponseBody.data (HttpResponse.Body resp))
        \/ e = Wrapf (operationPrefix call)
                 (parseErrorResponse (HttpResponse.StatusCode resp)
                    (ResponseBody.data (HttpResponse.Body resp)))).
Proof.
  intros Hsent Hdo Hst Hread.
  assert (Hall : ResponseBody.ReadAll (HttpResponse.Body resp)
                 = inr (ResponseBody.data (HttpResponse.Body resp))).
  { unfold ResponseBody.ReadAll. now rewrite Hread. }
  destruct (invoke_course c call w)
    as [(_ & e & E & _)
       | [(_ & _ & A & method & path & resBody & target & E)
         | (_ & _ & path & payload & loop & _ & Hloop & E)]];
    rewrite E in *.
  - cbn in Hsent. now apply not_extended in Hsent.
  - rewrite snd_tryM in Hsent. rewrite fst_tryM.
    destruct (do_result c method path (payloadOf call w) resBody target w)
      as [(stage & cause & Ed & _) | (hreq & _ & _ & Es & H)].
    + rewrite Ed in Hsent. cbn in Hsent. now apply not_extended in Hsent.
    + rewrite Es in Hsent. cbn in Hsent. apply last_sent in Hsent. subst hreq.
      rewrite Hdo, Hall, Hst in H. rewrite H. eauto.
  - rewrite snd_errorOf in Hsent. rewrite fst_errorOf.
    destruct (streamingCall_result c (operationWord call) path payload loop w)
      as [(stage & cause & Ed & _) | (hreq & d & _ & _ & H)].
    + rewrite Ed in Hsent. cbn in Hsent. now apply not_extended in Hsent.
    + assert (hreq = req).
      { destruct (Do (httpClient c) (ctxErr (caller w)) hreq) as [x|resp'].
        - rewrite H in Hsent. cbn in Hsent. now apply last_sent in Hsent.
        - destruct (non2xx (HttpResponse.StatusCode resp')).
          + destruct (ResponseBody.ReadAll (HttpResponse.Body resp'));
              rewrite H in Hsent; cbn in Hsent; now apply last_sent in Hsent.
          + rewrite H in Hsent.
            destruct (stream_result
                        ("error reading " ++ operationWord call ++ " response stream: ")
                        (HttpResponse.Body resp') loop
                        {| sent := sent w ++ [hreq]; caller := caller w |})
              as (Es & _).
            rewrite Es in Hsent. cbn in Hsent. now apply last_sent in Hsent. }
      subst hreq. rewrite Hdo, Hst, Hall in H. rewrite H. cbn. eauto.
Qed.

End SurfaceFacts.

Section SurfaceProperties.
Context {rt : GoRuntime}.
Variable U : Type.
Import Bytes Strings Bufio Json Decode.

(** The response loop calls the callback only while the context is live:
    it runs the same with a callback that does nothing under a cancelled
    context. *)
Lemma responseLoop_guarded (R : Type) (unmarshal : string -> option R)
    (done : R -> bool) (fn : R -> Caller U -> R * Caller U)
    (toks : list Token) (k : Caller U) :
  responseLoop unmarshal done (guarded fn) toks k
  = responseLoop unmarshal done fn toks k.
Proof.
  revert k. induction toks as [|tok rest IH]; intros k; [reflexivity|].
  cbn [responseLoop]. destruct (ctxErr k) eqn:Hc; [reflexivity|].
  destruct (isEmpty _); [apply IH|].
  destruct (unmarshal _) as [r|]; [|apply IH].
  assert (Hg : guarded fn r k = fn r k) by (unfold guarded; now rewrite Hc).
  rewrite Hg. destruct (fn r k) as [r' k']. destruct (done r'); [reflexivity | apply IH].
Qed.

(** Once the context is done, [GenerateStream] and [ChatStream] end at the
    next line with the context's error, and the callback does not run. *)
Lemma response_stream_cancelled (R : Type) (unmarshal : string -> option R)
    (done : R -> bool) (fn : R -> Caller U -> R * Caller U) (prefix : string)
    (body : ResponseBody.t) (w : World U) (x : CtxErr) (tok : Token)
    (rest : list Token) :
  ctxErr (caller w) = Some x ->
  tokens (NewScanner body) = tok :: rest ->
  stream prefix body (responseLoop unmarshal done fn) w = (inl (ContextError x), w).
Proof.
  intros Hc Ht. unfold stream. open_monad. rewrite Ht.
  rewrite responseLoop_cancelled with (e := x) by assumption.
  destruct w; reflexivity.
Qed.

(** C6 (clone, not mutation).  No operation writes to a request struct of
    the caller: the structs at every address are after the call what they
    were before it, provided the callback the caller passes does not
    write to them itself.  [Generate] and [Chat] take no callback; they
    leave the caller's state as it is. *)
Theorem C6_request_not_mutated (c : Client) (call : Call U) (w : World U) (p : nat) :
  callbackPreserves call (sameRequests w p) ->
  sameRequests w p (caller (snd (invoke c call w))).
Proof.
  intros Hp. apply invoke_frame; [exact Hp|]. repeat split.
Qed.

(** C8 (validation fail-fast).  A call with an empty required identifier,
    an empty message list, a nil callback or a nil request returns a
    validation error and leaves the world as it was: no request has been
    handed to the HTTP client, and no callback has run. *)
Theorem C8_validation_fail_fast (c : Client) (call : Call U) (w : World U) :
  invalid call w = true ->
  exists e, invoke c call w = (Some e, w) /\ isValidationError e.
Proof.
  intros Hv.
  destruct (invoke_course c call w)
    as [(_ & H) | [(Hv' & _) | (Hv' & _)]]; [exact H | congruence | congruence].
Qed.

(** C10, as amended.  When the body of a failed response is a JSON object
    in which every member named [error] (in any letter case) is [null],
    in particular an object with no such member, the structured error has
    the response's status and the empty message; so it has for the body
    [null].  A body that is JSON of another kind, or an object with an
    [error] member that is neither a string nor [null], does not decode as
    the envelope: the message is the raw body. *)
Theorem C10_envelope_without_error_amended :
  (forall (c : Client) (call : Call U) (w : World U)
          (req : HttpRequest.t) (resp : HttpResponse.t) (ms : list (string * json)),
      sent (snd (invoke c call w)) = (sent w ++ [req])%list ->
      Do (httpClient c) (ctxErr (caller w)) req = inr resp ->
      non2xx (HttpResponse.StatusCode resp) = true ->
      ResponseBody.readErr (HttpResponse.Body resp) = None ->
      parse (ResponseBody.data (HttpResponse.Body resp)) = Some (JObject ms) ->
      errorMembersNull ms ->
      exists e,
        fst (invoke c call w) = Some e
        /\ AsOllamaError e
           = Some {| OllamaError.StatusCode := HttpResponse.StatusCode resp;
                     OllamaError.Message := EmptyString |})
  /\ (forall (status : Z) (body : string),
         parse body = Some JNull ->
         parseErrorResponse status body
         = ApiError {| OllamaError.StatusCode := status;
                       OllamaError.Message := EmptyString |})
  /\ (forall (status : Z) (body : string) (v : json),
         parse body = Some v ->
         match v with JNull | JObject _ => False | _ => True end ->
         parseErrorResponse status body
         = ApiError {| OllamaError.StatusCode := status; OllamaError.Message := body |})
  /\ (forall (status : Z) (body : string) (ms : list (string * json))
             (k : string) (v : json),
         parse body = Some (JObject ms) ->
         In (k, v) ms ->
         selects "error" k = true ->
         match v with JNull | JString _ => False | _ => True end ->
         parseErrorResponse status body
         = ApiError {| OllamaError.StatusCode := status; OllamaError.Message := body |}).
Proof.
  split; [|split; [|split]].
  - intros c call w req resp ms Hsent Hdo Hst Hread Hparse Hnull.
    destruct (invoke_non2xx c call w req Hsent Hdo Hst Hread) as (e & He & Hshape).
    exists e. split; [exact He|].
    rewrite (parseErrorResponse_no_error_member _ _ Hparse Hnull) in Hshape.
    destruct Hshape as [-> | ->]; reflexivity.
  - intros. now apply parseErrorResponse_null.
  - intros. eapply parseErrorResponse_not_object; eauto.
  - intros. eapply parseErrorResponse_wrong_type; eauto.
Qed.

End SurfaceProperties.

(* ===================================================================== *)
(** * Lemmas and properties on requests and answers *)
(* ===================================================================== *)

Section RouteFacts.
Context {rt : GoRuntime}.
Variable U : Type.
Import Bytes Strings Bufio.

(** The request [do] builds, and what [do] returns for each answer of the
    transport. *)
Lemma do_steps (A : Type) (c : Client) (method path : string)
    (reqBody : option Payload) (resBody : option (string -> option A))
    (target : A) (w : World U) :
  do c method path reqBody resBody target w =
    match urlJoinPath (baseURL c) path with
    | inl e => (inl (Wrapf "failed to construct URL: " e), w)
    | inr u =>
        match match reqBody with
              | Some p => match jsonMarshal p with
                          | inl e => inl e
                          | inr d => inr (Some d)
                          end
              | None => inr None
              end with
        | inl e => (inl (Wrapf "failed to marshal request body: " e), w)
        | inr body =>
            match httpNewRequestCheck method u with
            | Some e => (inl (Wrapf "failed to create request: " e), w)
            | None =>
                let req := {| HttpRequest.Method := method; HttpRequest.URL := u;
                              HttpRequest.Header := [ ("Content-Type", "application/json");
                                                      ("Accept", "application/json") ];
                              HttpRequest.Body := body |} in
                let w' := {| sent := sent w ++ [req]; caller := caller w |} in
                match Do (httpClient c) (ctxErr (caller w)) req with
                | inl e => (inl (Wrapf "failed to execute request: " e), w')
                | inr resp =>
                    match ResponseBody.ReadAll (HttpResponse.Body resp) with
                    | inl e => (inl (Wrapf "failed to read response body: " e), w')
                    | inr data =>
                        if non2xx (HttpResponse.StatusCode resp)
                        then (inl (parseErrorResponse (HttpResponse.StatusCode resp) data), w')
                        else match resBody with
                             | None => (inr target, w')
                             | Some unmarshal =>
                                 if isEmpty data then (inr target, w')
                                 else match unmarshal data with
                                      | Some v => (inr v, w')
                                      | None =>
                                          (inl (Wrapf "failed to unmarshal response body: "
                                                  JSONError), w')
                                      end
                             end
                    end
                end
            end
        end
    end.
Proof.
  unfold do, bind, try, tryM, fail, ret, httpClientDo, NewRequestWithContext.
  destruct (urlJoinPath (baseURL c) path) as [e|u]; [reflexivity|].
  destruct reqBody as [p|]; [destruct (jsonMarshal p) as [e|d]; [reflexivity|] |];
    (destruct (httpNewRequestCheck method u); [reflexivity|];
     cbn; destruct (Do _ _ _) as [e|resp]; [reflexivity|];
     cbn; destruct (ResponseBody.ReadAll _); [reflexivity|];
     cbn; destruct (non2xx _); [reflexivity|];
     destruct resBody as [um|]; [|reflexivity];
     destruct (isEmpty _); [reflexivity|];
     destruct (um _); reflexivity).
Qed.

(** The same for the common course of the streaming operations. *)
Lemma streamingCall_steps (c : Client) (word path : string) (payload : Payload)
    (loop : list Token -> Caller U -> LoopExit * Caller U) (w : World U) :
  streamingCall c word path payload loop w =
    match jsonMarshal payload with
    | inl e => (inl (Wrapf ("failed to marshal " ++ word ++ " request: ") e), w)
    | inr d =>
        match urlJoinPath (baseURL c) path with
        | inl e => (inl (Wrapf "failed to construct URL: " e), w)
        | inr u =>
            match httpNewRequestCheck MethodPost u with
            | Some e => (inl (Wrapf "failed to create request: " e), w)
            | None =>
                let req := {| HttpRequest.Method := MethodPost; HttpRequest.URL := u;
                              HttpRequest.Header := [ ("Content-Type", "application/json");
                                                      ("Accept", "application/json") ];
                              HttpRequest.Body := Some d |} in
                let w' := {| sent := sent w ++ [req]; caller := caller w |} in
                match Do (httpClient c) (ctxErr (caller w)) req with
                | inl e => (inl (Wrapf ("failed to execute " ++ word ++ " request: ") e), w')
                | inr resp =>
                    if non2xx (HttpResponse.StatusCode resp) then
                      match ResponseBody.ReadAll (HttpResponse.Body resp) with
                      | inl e =>
                          (inl (Wrapf (word ++ " request failed with status "
                                         ++ itoa (HttpResponse.StatusCode resp)
                                         ++ " and could not read response body: ") e), w')
                      | inr data =>
                          (inl (parseErrorResponse (HttpResponse.StatusCode resp) data), w')
                      end
                    else stream ("error reading " ++ word ++ " response stream: ")
                           (HttpResponse.Body resp) loop w'
                end
            end
        end
    end.
Proof.
  unfold streamingCall, bind, try, tryM, fail, ret, httpClientDo, NewRequestWithContext,
    failedStatus.
  destruct (jsonMarshal payload) as [e|d]; [reflexivity|].
  destruct (urlJoinPath (baseURL c) path) as [e|u]; [reflexivity|].
  destruct (httpNewRequestCheck MethodPost u); [reflexivity|].
  cbn. destruct (Do _ _ _) as [e|resp]; [reflexivity|].
  cbn. destruct (non2xx _); [|reflexivity].
  destruct (ResponseBody.ReadAll _); reflexivity.
Qed.

(** A call that passes validation is [do] at the operation's endpoint, or
    the common course of the streaming operations at it. *)
Lemma invoke_route (c : Client) (call : Call U) (w : World U) :
  invalid call w = false ->
  (isUnary call = true
   /\ exists (A : Type) (resBody : option (string -> option A)) (target : A),
        invoke c call w
        = errorOf (tryM (operationPrefix call)
                     (do c (methodOf call) (pathOf call) (payloadOf call w)
                        resBody target) w))
  \/ (isUnary call = false /\ methodOf call = MethodPost
      /\ exists (payload : Payload)
                (loop : list Token -> Caller U -> LoopExit * Caller U),
           payloadOf call w = Some payload
           /\ loopOf call loop
           /\ invoke c call w
              = errorOf (streamingCall c (operationWord call) (pathOf call)
                           payload loop w)).
Proof.
  destruct call as [|m|s d|m|m fn|m f fn|m fn|req|req fn|req|req fn|req|];
    cbn [invoke invalid isUnary operationPrefix operationWord payloadOf methodOf pathOf];
    intros Hv.
  - left. split; [reflexivity|]. do 3 eexists. reflexivity.
  - left. split; [reflexivity|]. unfold Show. rewrite Hv. do 3 eexists. reflexivity.
  - left. split; [reflexivity|]. apply orb_false_iff in Hv as [Hs Hd].
    unfold Copy. rewrite Hs, Hd. do 3 eexists. reflexivity.
  - left. split; [reflexivity|]. unfold Delete. rewrite Hv. do 3 eexists. reflexivity.
  - right. apply orb_false_iff in Hv as [Hm Hf]. destruct fn as [fn|]; [|discriminate].
    rewrite Pull_course, Hm. repeat split. do 2 eexists. repeat split; reflexivity.
  - right. apply orb_false_iff in Hv as [Hv Hf]. apply orb_false_iff in Hv as [Hm Hmf].
    destruct fn as [fn|]; [|discriminate].
    rewrite Create_course, Hm, Hmf. repeat split. do 2 eexists. repeat split; reflexivity.
  - right. apply orb_false_iff in Hv as [Hm Hf]. destruct fn as [fn|]; [|discriminate].
    rewrite Push_course, Hm. repeat split. do 2 eexists. repeat split; reflexivity.
  - left. split; [reflexivity|]. destruct req as [p|]; [|discriminate].
    unfold Generate, bind, loadGenerateRequest. rewrite Hv. do 3 eexists. reflexivity.
  - right. destruct req as [p|]; [|discriminate].
    apply orb_false_iff in Hv as [Hm Hf]. destruct fn as [fn|]; [|discriminate].
    rewrite GenerateStream_course, Hm. repeat split.
    do 2 eexists. repeat split; reflexivity.
  - left. split; [reflexivity|]. destruct req as [p|]; [|discriminate].
    apply orb_false_iff in Hv as [Hm Hs].
    unfold Chat, bind, loadChatRequest. rewrite Hm.
    destruct (ChatRequest.Messages (chatRequests (caller w) p)); [discriminate|].
    do 3 eexists. reflexivity.
  - right. destruct req as [p|]; [|discriminate].
    apply orb_false_iff in Hv as [Hv Hf]. apply orb_false_iff in Hv as [Hm Hs].
    destruct fn as [fn|]; [|discriminate].
    rewrite ChatStream_course, Hm.
    destruct (ChatRequest.Messages (chatRequests (caller w) p)); [discriminate|].
    repeat split. do 2 eexists. repeat split; reflexivity.
  - left. split; [reflexivity|]. destruct req as [p|]; [|discriminate].
    apply orb_false_iff in Hv as [Hm Hp].
    unfold Embeddings, bind, loadEmbeddingRequest. rewrite Hm, Hp.
    do 3 eexists. reflexivity.
  - left. split; [reflexivity|]. do 3 eexists. reflexivity.
Qed.

End RouteFacts.

Section RouteProperties.
Context {rt : GoRuntime}.
Variable U : Type.
Import Bytes Strings Bufio.

(** What a call that got as far as the transport returns when the
    transport fails or the status is outside [200,300): no callback has
    run by then. *)
Lemma invoke_outgoing (c : Client) (call : Call U) (w : World U) (req : HttpRequest.t) :
  outgoing c call w = Some req ->
  match Do (httpClient c) (ctxErr (caller w)) req with
  | inl e =>
      invoke c call w
      = (Some (if isUnary call
               then Wrapf (operationPrefix call) (Wrapf "failed to execute request: " e)
               else Wrapf ("failed to execute " ++ operationWord call ++ " request: ") e),
         {| sent := sent w ++ [req]; caller := caller w |})
  | inr resp =>
      sent (snd (invoke c call w)) = (sent w ++ [req])%list
      /\ (isUnary call = true -> caller (snd (invoke c call w)) = caller w)
      /\ match ResponseBody.ReadAll (HttpResponse.Body resp) with
         | inl e =>
             isUnary call = true ->
             invoke c call w
             = (Some (Wrapf (operationPrefix call)
                        (Wrapf "failed to read response body: " e)),
                {| sent := sent w ++ [req]; caller := caller w |})
         | inr data =>
             non2xx (HttpResponse.StatusCode resp) = true ->
             invoke c call w
             = (Some (passedOn call
                        (parseErrorResponse (HttpResponse.StatusCode resp) data)),
                {| sent := sent w ++ [req]; caller := caller w |})
         end
      /\ (isUnary call = false ->
          non2xx (HttpResponse.StatusCode resp) = true ->
          forall e, ResponseBody.ReadAll (HttpResponse.Body resp) = inl e ->
          invoke c call w
          = (Some (Wrapf (operationWord call ++ " request failed with status "
                            ++ itoa (HttpResponse.StatusCode resp)
                            ++ " and could not read response body: ") e),
             {| sent := sent w ++ [req]; caller := caller w |}))
  end.
Proof.
  unfold outgoing, passedOn. destruct (invalid call w) eqn:Hv; [discriminate|].
  destruct (urlJoinPath (baseURL c) (pathOf call)) as [?|u] eqn:Hu; [discriminate|].
  destruct (invoke_route c call w Hv)
    as [(Hun & A & resBody & target & E) | (Hun & Hmeth & payload & loop & Hpay & Hloop & E)];
    rewrite E, Hun; clear E.
  - unfold errorOf, tryM. rewrite do_steps, Hu.
    destruct (payloadOf call w) as [p|];
      [destruct (jsonMarshal p) as [?|d]; [discriminate|] |];
      (destruct (httpNewRequestCheck (methodOf call) u); [discriminate|];
       intros [= <-]; cbv zeta;
       destruct (Do _ _ _) as [e|resp]; [reflexivity|];
       destruct (ResponseBody.ReadAll _) as [e|data];
         [repeat split; try reflexivity; intros; discriminate|];
       destruct (non2xx _);
         [repeat split; try reflexivity; intros; discriminate|];
       destruct resBody as [um|];
         [destruct (isEmpty data); [|destruct (um data)] |];
       repeat split; try reflexivity; intros; discriminate).
  - rewrite Hpay. unfold errorOf. rewrite streamingCall_steps, Hu, Hmeth.
    destruct (jsonMarshal payload) as [?|d]; [discriminate|].
    destruct (httpNewRequestCheck MethodPost u); [discriminate|].
    intros [= <-]; cbv zeta.
    destruct (Do _ _ _) as [e|resp]; [reflexivity|].
    destruct (non2xx _).
    + destruct (ResponseBody.ReadAll _) as [e|data];
        repeat split; try reflexivity; try (intros; discriminate).
      intros _ _ e' [= <-]. reflexivity.
    + destruct (stream_result
                  ("error reading " ++ operationWord call ++ " response stream: ")
                  (HttpResponse.Body resp) loop
                  {| sent := sent w ++ [{| HttpRequest.Method := MethodPost;
                                           HttpRequest.URL := u;
                                           HttpRequest.Header :=
                                             [ ("Content-Type", "application/json");
                                               ("Accept", "application/json") ];
                                           HttpRequest.Body := Some d |}];
                     caller := caller w |})
        as (Hs & _).
      split; [exact Hs|].
      split; [intros; discriminate|].
      split; [destruct (ResponseBody.ReadAll _); intros; discriminate|].
      intros; discriminate.
Qed.

(** X1.  Every operation hands at most one request to the transport: none
    when validation refuses the call, the URL cannot be joined, the payload
    cannot be marshalled or [http.NewRequestWithContext] refuses; otherwise
    exactly one, with the method and the path of the operation's endpoint,
    the headers [Content-Type] and [Accept] set to [application/json], and
    the marshalled payload as its body (no body for [List] and [PS]). *)
Theorem X1_requests_sent (c : Client) (call : Call U) (w : World U) :
  sent (snd (invoke c call w))
  = match outgoing c call w with
    | Some req => (sent w ++ [req])%list
    | None => sent w
    end.
Proof.
  destruct (outgoing c call w) as [req|] eqn:Ho.
  - pose proof (invoke_outgoing c call w Ho) as H.
    destruct (Do _ _ _) as [e|resp]; [rewrite H; reflexivity | apply H].
  - unfold outgoing in Ho.
    destruct (invoke_course c call w)
      as [(Hv & e & E & _) | [(Hv & _) | (Hv & _)]];
      [rewrite E; reflexivity | |];
      rewrite Hv in Ho;
      destruct (invoke_route c call w Hv)
        as [(Hun & A & resBody & target & E)
           | (Hun & Hmeth & payload & loop & Hpay & Hloop & E)];
      rewrite E; clear E.
    + unfold errorOf, tryM. rewrite do_steps.
      destruct (urlJoinPath _ _) as [?|u]; [reflexivity|].
      destruct (payloadOf call w) as [p|];
        [destruct (jsonMarshal p) as [?|d]; [reflexivity|] |];
        (destruct (httpNewRequestCheck _ _); [reflexivity | discriminate]).
    + rewrite Hpay in Ho. unfold errorOf. rewrite streamingCall_steps.
      destruct (jsonMarshal payload) as [?|d]; [reflexivity|].
      destruct (urlJoinPath _ _) as [?|u]; [reflexivity|].
      rewrite Hmeth in Ho.
      destruct (httpNewRequestCheck _ _); [reflexivity | discriminate].
    + unfold errorOf, tryM. rewrite do_steps.
      destruct (urlJoinPath _ _) as [?|u]; [reflexivity|].
      destruct (payloadOf call w) as [p|];
        [destruct (jsonMarshal p) as [?|d]; [reflexivity|] |];
        (destruct (httpNewRequestCheck _ _); [reflexivity | discriminate]).
    + rewrite Hpay in Ho. unfold errorOf. rewrite streamingCall_steps.
      destruct (jsonMarshal payload) as [?|d]; [reflexivity|].
      destruct (urlJoinPath _ _) as [?|u]; [reflexivity|].
      rewrite Hmeth in Ho.
      destruct (httpNewRequestCheck _ _); [reflexivity | discriminate].
Qed.

(** X3.  When the transport fails, the call returns the transport's
    error under the prefix of the stage ("failed to execute request: "
    below the operation's prefix for a unary operation, "failed to
    execute <operation> request: " for a streaming one); the request has
    been handed over once and no callback has run. *)
Theorem X3_transport_failure (c : Client) (call : Call U) (w : World U)
    (req : HttpRequest.t) (e : error) :
  outgoing c call w = Some req ->
  Do (httpClient c) (ctxErr (caller w)) req = inl e ->
  invoke c call w
  = (Some (if isUnary call
           then Wrapf (operationPrefix call) (Wrapf "failed to execute request: " e)
           else Wrapf ("failed to execute " ++ operationWord call ++ " request: ") e),
     {| sent := sent w ++ [req]; caller := caller w |}).
Proof.
  intros Ho Hd. pose proof (invoke_outgoing c call w Ho) as H.
  rewrite Hd in H. exact H.
Qed.

(** X4.  On a status outside [200,300) no callback runs and nothing of
    the body is delivered: the call returns the structured error made of
    status and body (below the operation's prefix when the operation is
    unary) and leaves the caller's state as it was.  When the body of
    such an answer cannot be read, a streaming operation returns the read
    error under "<operation> request failed with status <n> and could not
    read response body: ". *)
Theorem X4_failed_status (c : Client) (call : Call U) (w : World U)
    (req : HttpRequest.t) (resp : HttpResponse.t) :
  outgoing c call w = Some req ->
  Do (httpClient c) (ctxErr (caller w)) req = inr resp ->
  non2xx (HttpResponse.StatusCode resp) = true ->
  (forall data,
      ResponseBody.ReadAll (HttpResponse.Body resp) = inr data ->
      invoke c call w
      = (Some (passedOn call (parseErrorResponse (HttpResponse.StatusCode resp) data)),
         {| sent := sent w ++ [req]; caller := caller w |}))
  /\ (forall e,
         isUnary call = false ->
         ResponseBody.ReadAll (HttpResponse.Body resp) = inl e ->
         invoke c call w
         = (Some (Wrapf (operationWord call ++ " request failed with status "
                           ++ itoa (HttpResponse.StatusCode resp)
                           ++ " and could not read response body: ") e),
            {| sent := sent w ++ [req]; caller := caller w |})).
Proof.
  intros Ho Hd Hs. pose proof (invoke_outgoing c call w Ho) as H.
  rewrite Hd in H. destruct H as (_ & _ & Hread & Hfail). split.
  - intros data Hr. rewrite Hr in Hread. auto.
  - intros e Hun Hr. auto.
Qed.

(** X5.  A unary operation reads the whole body before it looks at the
    status: when reading fails, it returns the read error under "failed to
    read response body: ", whatever the status, an error status
    included. *)
Theorem X5_unary_read_failure (c : Client) (call : Call U) (w : World U)
    (req : HttpRequest.t) (resp : HttpResponse.t) (e : error) :
  isUnary call = true ->
  outgoing c call w = Some req ->
  Do (httpClient c) (ctxErr (caller w)) req = inr resp ->
  ResponseBody.readErr (HttpResponse.Body resp) = Some e ->
  invoke c call w
  = (Some (Wrapf (operationPrefix call) (Wrapf "failed to read response body: " e)),
     {| sent := sent w ++ [req]; caller := caller w |}).
Proof.
  intros Hun Ho Hd Hr. pose proof (invoke_outgoing c call w Ho) as H.
  rewrite Hd in H. destruct H as (_ & _ & Hread & _).
  unfold ResponseBody.ReadAll in Hread. rewrite Hr in Hread. auto.
Qed.

(** What [do] under the prefix of a unary operation returns for a
    successful answer with a body that can be read. *)
Lemma do_answered (A : Type) (c : Client) (prefix method path : string)
    (reqBody : option Payload) (unmarshal : string -> option A) (zero : A)
    (w : World U) (u : string) (body : option wire) (status : Z) (data : string) :
  urlJoinPath (baseURL c) path = inr u ->
  match reqBody with
  | Some p => match jsonMarshal p with inl _ => None | inr d => Some (Some d) end
  | None => Some None
  end = Some body ->
  httpNewRequestCheck method u = None ->
  Do (httpClient c) (ctxErr (caller w))
    {| HttpRequest.Method := method; HttpRequest.URL := u;
       HttpRequest.Header := [ ("Content-Type", "application/json");
                               ("Accept", "application/json") ];
       HttpRequest.Body := body |}
  = inr {| HttpResponse.StatusCode := status;
           HttpResponse.Body := {| ResponseBody.data := data;
                                   ResponseBody.readErr := None |} |} ->
  non2xx status = false ->
  tryM prefix (do c method path reqBody (Some unmarshal) zero) w
  = (bodyResult prefix unmarshal zero data,
     {| sent := sent w ++ [ {| HttpRequest.Method := method; HttpRequest.URL := u;
                               HttpRequest.Header := [ ("Content-Type", "application/json");
                                                       ("Accept", "application/json") ];
                               HttpRequest.Body := body |} ];
        caller := caller w |}).
Proof.
  intros Hu Hb Hn Hd Hs. unfold tryM, bodyResult. rewrite do_steps, Hu.
  destruct reqBody as [p|];
    [destruct (jsonMarshal p) as [?|d]; [discriminate|] |];
    injection Hb as <-; rewrite Hn; cbv zeta; rewrite Hd; cbn; rewrite Hs;
    (destruct (isEmpty data); [reflexivity|]; destruct (unmarshal data); reflexivity).
Qed.

(** X6.  On a successful answer the data-returning unary operations
    return what [json.Unmarshal] makes of the body: the zero value of the
    response type when the body is empty, the decoded response when the
    body decodes, and otherwise the JSON error under "failed to unmarshal
    response body: " below the operation's prefix. *)
Theorem X6_unary_result :
  (forall (c : Client) (w : World U) (req : HttpRequest.t) (status : Z) (data : string),
      outgoing c CallList w = Some req ->
      Do (httpClient c) (ctxErr (caller w)) req
      = inr {| HttpResponse.StatusCode := status;
               HttpResponse.Body := {| ResponseBody.data := data;
                                       ResponseBody.readErr := None |} |} ->
      non2xx status = false ->
      List c w
      = (bodyResult "failed to list models: "
           ListModelsResponse.unmarshal ListModelsResponse.zero data,
         {| sent := sent w ++ [req]; caller := caller w |}))
  /\ (forall (c : Client) (m : string) (w : World U) (req : HttpRequest.t)
             (status : Z) (data : string),
         outgoing c (CallShow m) w = Some req ->
         Do (httpClient c) (ctxErr (caller w)) req
         = inr {| HttpResponse.StatusCode := status;
                  HttpResponse.Body := {| ResponseBody.data := data;
                                          ResponseBody.readErr := None |} |} ->
         non2xx status = false ->
         Show c m w
         = (bodyResult ("failed to show model " ++ strconvQuote m ++ ": ")
              ModelResponse.unmarshal ModelResponse.zero data,
            {| sent := sent w ++ [req]; caller := caller w |}))
  /\ (forall (c : Client) (p : nat) (w : World U) (req : HttpRequest.t)
             (status : Z) (data : string),
         outgoing c (CallGenerate (Some p)) w = Some req ->
         Do (httpClient c) (ctxErr (caller w)) req
         = inr {| HttpResponse.StatusCode := status;
                  HttpResponse.Body := {| ResponseBody.data := data;
                                          ResponseBody.readErr := None |} |} ->
         non2xx status = false ->
         Generate c (Some p) w
         = (bodyResult "failed to generate text: "
              GenerateResponse.unmarshal GenerateResponse.zero data,
            {| sent := sent w ++ [req]; caller := caller w |}))
  /\ (forall (c : Client) (p : nat) (w : World U) (req : HttpRequest.t)
             (status : Z) (data : string),
         outgoing c (CallChat (Some p)) w = Some req ->
         Do (httpClient c) (ctxErr (caller w)) req
         = inr {| HttpResponse.StatusCode := status;
                  HttpResponse.Body := {| ResponseBody.data := data;
                                          ResponseBody.readErr := None |} |} ->
         non2xx status = false ->
         Chat c (Some p) w
         = (bodyResult "failed to chat: "
              ChatResponse.unmarshal ChatResponse.zero data,
            {| sent := sent w ++ [req]; caller := caller w |}))
  /\ (forall (c : Client) (p : nat) (w : World U) (req : HttpRequest.t)
             (status : Z) (data : string),
         outgoing c (CallEmbeddings (Some p)) w = Some req ->
         Do (httpClient c) (ctxErr (caller w)) req
         = inr {| HttpResponse.StatusCode := status;
                  HttpResponse.Body := {| ResponseBody.data := data;
                                          ResponseBody.readErr := None |} |} ->
         non2xx status = false ->
         Embeddings c (Some p) w
         = (bodyResult "failed to generate embeddings: "
              EmbeddingResponse.unmarshal EmbeddingResponse.zero data,
            {| sent := sent w ++ [req]; caller := caller w |}))
  /\ (forall (c : Client) (w : World U) (req : HttpRequest.t) (status : Z) (data : string),
         outgoing c CallPS w = Some req ->
         Do (httpClient c) (ctxErr (caller w)) req
         = inr {| HttpResponse.StatusCode := status;
                  HttpResponse.Body := {| ResponseBody.data := data;
                                          ResponseBody.readErr := None |} |} ->
         non2xx status = false ->
         PS c w
         = (bodyResult "failed to get process status: "
              PSResponse.unmarshal PSResponse.zero data,
            {| sent := sent w ++ [req]; caller := caller w |})).
Proof.
  repeat split; intros * Ho Hd Hs; open_outgoing Ho.
  - destruct (httpNewRequestCheck MethodGet u) eqn:Hn; [discriminate|].
    injection Ho as <-. unfold List.
    eapply do_answered; eauto.
  - destruct (httpNewRequestCheck MethodPost u) eqn:Hn; [discriminate|].
    injection Ho as <-. unfold Show. rewrite Hvalid.
    eapply do_answered; eauto.
  - destruct (jsonMarshal _) as [?|d] eqn:Hm; [discriminate|].
    destruct (httpNewRequestCheck MethodPost u) eqn:Hn; [discriminate|].
    injection Ho as <-. unfold Generate, bind, loadGenerateRequest. rewrite Hvalid.
    eapply do_answered; eauto. now rewrite Hm.
  - destruct (jsonMarshal _) as [?|d] eqn:Hm; [discriminate|].
    destruct (httpNewRequestCheck MethodPost u) eqn:Hn; [discriminate|].
    injection Ho as <-. unfold Chat, bind, loadChatRequest. rewrite Hvalid.
    destruct (ChatRequest.Messages (chatRequests (caller w) p)); [discriminate|].
    eapply do_answered; eauto. now rewrite Hm.
  - destruct (httpNewRequestCheck MethodPost u) eqn:Hn; [discriminate|].
    injection Ho as <-. unfold Embeddings, bind, loadEmbeddingRequest.
    rewrite Hvalid, Hvalid0.
    eapply do_answered; eauto.
  - destruct (httpNewRequestCheck MethodGet u) eqn:Hn; [discriminate|].
    injection Ho as <-. unfold PS.
    eapply do_answered; eauto.
Qed.

(** X7.  [Copy] and [Delete] take nothing from a successful answer: with
    any body that can be read, JSON or not, they return nil. *)
Theorem X7_copy_delete_ignore_body :
  (forall (c : Client) (s d : string) (w : World U) (req : HttpRequest.t)
          (status : Z) (data : string),
      outgoing c (CallCopy s d) w = Some req ->
      Do (httpClient c) (ctxErr (caller w)) req
      = inr {| HttpResponse.StatusCode := status;
               HttpResponse.Body := {| ResponseBody.data := data;
                                       ResponseBody.readErr := None |} |} ->
      non2xx status = false ->
      Copy c s d w = (inr tt, {| sent := sent w ++ [req]; caller := caller w |}))
  /\ (forall (c : Client) (m : string) (w : World U) (req : HttpRequest.t)
             (status : Z) (data : string),
         outgoing c (CallDelete m) w = Some req ->
         Do (httpClient c) (ctxErr (caller w)) req
         = inr {| HttpResponse.StatusCode := status;
                  HttpResponse.Body := {| ResponseBody.data := data;
                                          ResponseBody.readErr := None |} |} ->
         non2xx status = false ->
         Delete c m w = (inr tt, {| sent := sent w ++ [req]; caller := caller w |})).
Proof.
  split; intros * Ho Hd Hs; open_outgoing Ho.
  - destruct (httpNewRequestCheck MethodPost u) eqn:Hn; [discriminate|].
    injection Ho as <-. unfold Copy, tryM. rewrite Hvalid, Hvalid0, do_steps, Hurl.
    cbn [jsonMarshal]. rewrite Hn. cbv zeta. rewrite Hd. cbn. rewrite Hs. reflexivity.
  - destruct (httpNewRequestCheck MethodDelete u) eqn:Hn; [discriminate|].
    injection Ho as <-. unfold Delete, tryM. rewrite Hvalid, do_steps, Hurl.
    cbn [jsonMarshal]. rewrite Hn. cbv zeta. rewrite Hd. cbn. rewrite Hs. reflexivity.
Qed.

End RouteProperties.

(* ===================================================================== *)
(** * Lemmas and properties on streams in lines *)
(* ===================================================================== *)

Section StreamLoopFacts.
Context {rt : GoRuntime}.
Variable U : Type.
Import Bytes Strings Bufio.

(** What [stream] returns when its loop goes through all tokens. *)
Lemma stream_exhausted (prefix : string) (body : ResponseBody.t)
    (loop : list Token -> Caller U -> LoopExit * Caller U) (w : World U)
    (toks : list Token) (e : Ending) (k : Caller U) :
  ScanLines (ResponseBody.data body) = (toks, e) ->
  loop toks (caller w) = (Exhausted, k) ->
  stream prefix body loop w
  = (match e with
     | TooLong => inl (Wrapf prefix ErrTooLong)
     | Drained => match ResponseBody.readErr body with
                  | Some x => inl (Wrapf prefix x)
                  | None => inr tt
                  end
     end,
     {| sent := sent w; caller := k |}).
Proof.
  intros Hs Hl. unfold stream, NewScanner, bind, runCaller, fail, ret.
  rewrite Hs. cbn [tokens]. rewrite Hl. cbn [ScannerErr ending reader].
  destruct e; [destruct (ResponseBody.readErr body)|]; reflexivity.
Qed.

(** A streaming call that got a successful answer is its loop on the
    body of the answer. *)
Lemma invoke_streaming (c : Client) (call : Call U) (w : World U)
    (req : HttpRequest.t) (resp : HttpResponse.t) :
  isUnary call = false ->
  outgoing c call w = Some req ->
  Do (httpClient c) (ctxErr (caller w)) req = inr resp ->
  non2xx (HttpResponse.StatusCode resp) = false ->
  exists loop,
    loopOf call loop
    /\ invoke c call w
       = errorOf (stream ("error reading " ++ operationWord call ++ " response stream: ")
                    (HttpResponse.Body resp) loop
                    {| sent := sent w ++ [req]; caller := caller w |}).
Proof.
  intros Hun Ho Hd Hs. unfold outgoing in Ho.
  destruct (invalid call w) eqn:Hv; [discriminate|].
  destruct (invoke_route c call w Hv)
    as [(Hun' & _) | (_ & Hmeth & payload & loop & Hpay & Hloop & E)]; [congruence|].
  exists loop. split; [exact Hloop|]. rewrite E, streamingCall_steps.
  rewrite Hpay, Hmeth in Ho.
  destruct (urlJoinPath _ _) as [?|u]; [discriminate|].
  destruct (jsonMarshal payload) as [?|d]; [discriminate|].
  destruct (httpNewRequestCheck MethodPost u); [discriminate|].
  injection Ho as <-. cbv zeta. rewrite Hd, Hs. reflexivity.
Qed.

(** The loop of a streaming call that nothing interrupts goes through all
    tokens and delivers their records. *)
Lemma loop_uninterrupted (call : Call U)
    (loop : list Token -> Caller U -> LoopExit * Caller U)
    (lines : list string) (toks : list Token) (k : Caller U) :
  loopOf call loop ->
  (forall (R : Type) (unmarshal : string -> option R),
      decoded unmarshal toks = lineRecords unmarshal lines) ->
  uninterrupted call lines k ->
  loop toks k = (Exhausted, deliveries call lines k).
Proof.
  destruct call as [|m|s d|m|m fn|m f fn|m fn|req|req fn|req|req fn|req|];
    cbn [loopOf]; try contradiction;
    destruct fn as [fn|]; try contradiction; intros -> Hdec Hq;
    cbn [deliveries uninterrupted] in *.
  - rewrite progressLoop_spec, Hdec. reflexivity.
  - rewrite progressLoop_spec, Hdec. reflexivity.
  - rewrite progressLoop_spec, Hdec. reflexivity.
  - destruct Hq as [Hc Hcalm]. rewrite responseLoop_calm; rewrite ?Hdec; auto.
  - destruct Hq as [Hc Hcalm]. rewrite responseLoop_calm; rewrite ?Hdec; auto.
Qed.







End StreamLoopFacts.

Section StreamOutcomes.
Context {rt : GoRuntime}.
Variable U : Type.
Import Bytes Strings Bufio.

(** X8.  A streaming call reads a successful answer to its end: for every
    body whose lines fit the scanner, with or without a newline behind the
    last line, the callback has run on the records of the lines (blank
    lines and lines that do not decode give none), in order, when the call
    returns; the call returns nil when the body ends with end-of-file and
    the reader's error under "error reading <operation> response stream: "
    when it ends with an error, the records received before the error
    having been delivered.  ([GenerateStream], [ChatStream]: as long as no
    record ends the call early.) *)
Theorem X8_stream_outcome (c : Client) (call : Call U) (w : World U)
    (req : HttpRequest.t) (status : Z) (lines : list string) (last : string)
    (readErr : option error) :
  isUnary call = false ->
  outgoing c call w = Some req ->
  Do (httpClient c) (ctxErr (caller w)) req
  = inr {| HttpResponse.StatusCode := status;
           HttpResponse.Body := {| ResponseBody.data := framed true lines ++ last;
                                   ResponseBody.readErr := readErr |} |} ->
  non2xx status = false ->
  Forall fits lines ->
  fits last ->
  uninterrupted call (lines ++ [last]) (caller w) ->
  invoke c call w
  = (readerError call readErr,
     {| sent := sent w ++ [req];
        caller := deliveries call (lines ++ [last]) (caller w) |}).
Proof.
  intros Hun Ho Hd Hs Hfits Hlast Hq.
  destruct (invoke_streaming c call w Hun Ho Hd Hs) as (loop & Hloop & ->).
  cbn [HttpResponse.Body].
  rewrite stream_exhausted
    with (toks := (lineTokens true lines
                     ++ if isEmpty last then []
                        else [ {| text := dropCR last; atEnd := true |} ])%list)
         (e := Drained) (k := deliveries call (lines ++ [last]) (caller w)).
  - unfold errorOf, readerError. cbn [fst snd ResponseBody.readErr].
    destruct readErr; reflexivity.
  - cbn [ResponseBody.data]. now apply ScanLines_lines.
  - cbn [caller]. apply loop_uninterrupted with (lines := (lines ++ [last])%list); auto.
    intros R um. apply decoded_body.
Qed.






End StreamOutcomes.

Section PaddingFacts.
Import Bytes Strings Bufio.

Lemma asciiSpace_low (a : ascii) : asciiSpace a = true -> (code a <= 32)%N.
Proof.
  unfold asciiSpace, isByte. intros H.
  repeat (apply orb_true_iff in H as [H|H]); apply N.eqb_eq in H; lia.
Qed.

Lemma low_not_byte (n : N) (a : ascii) : (code a <= 32)%N -> (32 < n)%N -> isByte n a = false.
Proof. intros Ha Hn. unfold isByte. apply N.eqb_neq. lia. Qed.





Lemma space2_blank_first (a b : ascii) : asciiSpace a = true -> space2 a b = false.
Proof.
  intros H. apply asciiSpace_low in H. unfold space2.
  rewrite (low_not_byte _ H) by lia. reflexivity.
Qed.

Lemma space3_blank_first (a b c : ascii) : asciiSpace a = true -> space3 a b c = false.
Proof.
  intros H. apply asciiSpace_low in H. unfold space3.
  rewrite !(low_not_byte _ H) by lia. reflexivity.
Qed.










End PaddingFacts.

Section TwoServerFacts.
Context {rt : GoRuntime}.
Variable U : Type.
Import Bytes Strings Bufio.











End TwoServerFacts.

Section TwoServers.
Context {rt : GoRuntime}.
Variable U : Type.
Import Bytes Strings Bufio.



End TwoServers.

(* ===================================================================== *)
(** * Properties of decoding, of the test helper and of validation *)
(* ===================================================================== *)

Section DecodingFacts.
Import Bytes Json Decode.

Lemma field_skip (A : Type) (into : Into A) (name : string)
    (ms1 ms2 : list (string * json)) (k : string) (v : json) (start : A) :
  selects name k = false ->
  field into name (ms1 ++ (k, v) :: ms2) start = field into name (ms1 ++ ms2) start.
Proof.
  intros Hs. unfold field. rewrite !fold_left_app. cbn [fold_left fst snd].
  rewrite Hs. destruct (fold_left _ ms1 (Some start)); reflexivity.
Qed.

Lemma sliceField_skip (A : Type) (into : Into A) (zero : A) (name : string)
    (ms1 ms2 : list (string * json)) (k : string) (v : json) :
  selects name k = false ->
  sliceField into zero name (ms1 ++ (k, v) :: ms2) = sliceField into zero name (ms1 ++ ms2).
Proof. intros Hs. unfold sliceField. now rewrite field_skip. Qed.

Lemma intoInt64_any (v : json) (old : Z) : intoInt64 v 0 = None -> intoInt64 v old = None.
Proof. destruct v; cbn; congruence. Qed.

Lemma intoBool_any (v : json) (old : bool) : intoBool v false = None -> intoBool v old = None.
Proof. destruct v; cbn; congruence. Qed.

End DecodingFacts.

Section DecodingProperties.
Context {rt : GoRuntime}.
Import Bytes Json Decode.

(** X15.  A member that no field of the record takes is ignored: two
    documents that differ in such a member decode the same, for the
    records of the five streams and for the error envelope. *)
Theorem X15_unknown_member_ignored :
  (forall (s s' : string) (ms1 ms2 : list (string * json)) (k : string) (v : json),
      parse s = Some (JObject (ms1 ++ (k, v) :: ms2)) ->
      parse s' = Some (JObject (ms1 ++ ms2)) ->
      Forall (fun name => selects name k = false)
        [ "status"; "digest"; "total"; "completed" ] ->
      PullProgress.unmarshal s = PullProgress.unmarshal s'
      /\ PushProgress.unmarshal s = PushProgress.unmarshal s')
  /\ (forall (s s' : string) (ms1 ms2 : list (string * json)) (k : string) (v : json),
         parse s = Some (JObject (ms1 ++ (k, v) :: ms2)) ->
         parse s' = Some (JObject (ms1 ++ ms2)) ->
         selects "status" k = false ->
         CreateProgress.unmarshal s = CreateProgress.unmarshal s')
  /\ (forall (s s' : string) (ms1 ms2 : list (string * json)) (k : string) (v : json),
         parse s = Some (JObject (ms1 ++ (k, v) :: ms2)) ->
         parse s' = Some (JObject (ms1 ++ ms2)) ->
         Forall (fun name => selects name k = false)
           [ "model"; "created_at"; "response"; "done"; "context"; "total_duration";
             "load_duration"; "prompt_eval_count"; "prompt_eval_duration";
             "eval_count"; "eval_duration" ] ->
         GenerateResponse.unmarshal s = GenerateResponse.unmarshal s')
  /\ (forall (s s' : string) (ms1 ms2 : list (string * json)) (k : string) (v : json),
         parse s = Some (JObject (ms1 ++ (k, v) :: ms2)) ->
         parse s' = Some (JObject (ms1 ++ ms2)) ->
         Forall (fun name => selects name k = false)
           [ "model"; "created_at"; "message"; "done"; "total_duration";
             "load_duration"; "prompt_eval_count"; "prompt_eval_duration";
             "eval_count"; "eval_duration" ] ->
         ChatResponse.unmarshal s = ChatResponse.unmarshal s')
  /\ (forall (s s' : string) (ms1 ms2 : list (string * json)) (k : string) (v : json),
         parse s = Some (JObject (ms1 ++ (k, v) :: ms2)) ->
         parse s' = Some (JObject (ms1 ++ ms2)) ->
         selects "error" k = false ->
         ErrorResponse.unmarshal s = ErrorResponse.unmarshal s').
Proof.
  split; [|split; [|split; [|split]]]; intros * Hp Hp' Hk; try split;
    repeat match goal with
           | H : Forall _ (_ :: _) |- _ =>
               let a := fresh "Hname" in inversion H as [|? ? a ?]; subst; clear H
           | H : Forall _ [] |- _ => clear H
           end;
    unfold PullProgress.unmarshal, PushProgress.unmarshal, CreateProgress.unmarshal,
      GenerateResponse.unmarshal, ChatResponse.unmarshal, ErrorResponse.unmarshal,
      Unmarshal;
    rewrite Hp, Hp'; cbn [intoStruct];
    unfold PullProgress.fields, PushProgress.fields, CreateProgress.fields,
      GenerateResponse.fields, ChatResponse.fields, ErrorResponse.fields;
    rewrite ?field_skip, ?sliceField_skip by assumption; reflexivity.
Qed.

(** X16.  A member the record takes and cannot decode makes the whole
    document fail, so that a streaming call drops the line: a counter of
    a progress record that is not an integer (a string, a number with a
    fraction or an exponent, a number outside int64), a [done] flag that is
    not a boolean. *)
Theorem X16_mistyped_member_fails_record :
  (forall (s : string) (ms : list (string * json)) (k : string) (v : json),
      parse s = Some (JObject ms) ->
      In (k, v) ms ->
      selects "total" k = true \/ selects "completed" k = true ->
      intoInt64 v 0 = None ->
      PullProgress.unmarshal s = None /\ PushProgress.unmarshal s = None)
  /\ (forall (s : string) (ms : list (string * json)) (k : string) (v : json),
         parse s = Some (JObject ms) ->
         In (k, v) ms ->
         selects "done" k = true ->
         intoBool v false = None ->
         GenerateResponse.unmarshal s = None /\ ChatResponse.unmarshal s = None).
Proof.
  split; intros * Hp Hin Hk Hv.
  - assert (Hany : forall old, intoInt64 v old = None)
      by (intros old; now apply intoInt64_any).
    unfold PullProgress.unmarshal, PushProgress.unmarshal, Unmarshal.
    rewrite Hp. cbn [intoStruct]. unfold PullProgress.fields, PushProgress.fields.
    destruct Hk as [Hk|Hk];
      rewrite !(fun start => @field_None _ intoInt64 _ ms k v start Hin Hk Hany);
      split;
      repeat match goal with
             | |- context [field ?i ?n ms ?x] =>
                 destruct (field i n ms x); try reflexivity
             end.
  - assert (Hany : forall old, intoBool v old = None)
      by (intros old; now apply intoBool_any).
    unfold GenerateResponse.unmarshal, ChatResponse.unmarshal, Unmarshal.
    rewrite Hp. cbn [intoStruct]. unfold GenerateResponse.fields, ChatResponse.fields.
    rewrite !(fun start => @field_None _ intoBool _ ms k v start Hin Hk Hany).
    split;
      repeat match goal with
             | |- context [field ?i ?n ms ?x] =>
                 destruct (field i n ms x); try reflexivity
             end.
Qed.

End DecodingProperties.

Section ContainsFacts.
Import TypesTest.

Lemma substring_prefix (s sub : string) :
  String.substring 0 (String.length sub) s = sub -> exists post, s = sub ++ post.
Proof.
  revert s. induction sub as [|c sub IH]; intros s H.
  - exists s. reflexivity.
  - destruct s as [|a s]; [discriminate H|].
    cbn [String.length String.substring] in H. injection H as -> H.
    destruct (IH _ H) as (post & ->). exists post. reflexivity.
Qed.

Lemma substring_occurs (i : nat) (s sub : string) :
  String.substring i (String.length sub) s = sub ->
  exists pre post, s = pre ++ sub ++ post.
Proof.
  revert s. induction i as [|i IH]; intros s H.
  - destruct (substring_prefix _ H) as (post & ->).
    exists EmptyString, post. reflexivity.
  - destruct s as [|a s].
    + destruct sub; [|destruct i; discriminate H].
      exists EmptyString, EmptyString. reflexivity.
    + cbn [String.substring] in H. destruct (IH _ H) as (pre & post & ->).
      exists (String a pre), post. reflexivity.
Qed.

Lemma substring_at (pre sub post : string) :
  String.substring (String.length pre) (String.length sub) (pre ++ sub ++ post) = sub.
Proof.
  induction pre as [|a pre IH]; [|exact IH].
  cbn [String.length append]. induction sub as [|c sub IHs].
  - destruct post; reflexivity.
  - cbn [String.length append String.substring]. now rewrite IHs.
Qed.

Lemma slice_occurs (s sub : string) (i : nat) :
  slice s i (i + String.length sub) = sub -> exists pre post, s = pre ++ sub ++ post.
Proof.
  unfold slice. replace (i + String.length sub - i)%nat with (String.length sub) by lia.
  apply substring_occurs.
Qed.

Lemma slice_at (pre sub post : string) :
  slice (pre ++ sub ++ post) (String.length pre) (String.length pre + String.length sub)
  = sub.
Proof.
  unfold slice.
  replace (String.length pre + String.length sub - String.length pre)%nat
    with (String.length sub) by lia.
  apply substring_at.
Qed.

Lemma search_occurs (s sub : string) (i count : nat) :
  search s sub i count = true -> exists pre post, s = pre ++ sub ++ post.
Proof.
  revert i. induction count as [|count IH]; intros i; [discriminate|].
  cbn [search]. destruct (String.eqb_spec (slice s i (i + String.length sub)) sub) as [E|_].
  - intros _. now apply slice_occurs with (i := i).
  - apply IH.
Qed.

Lemma search_finds (s sub : string) (i count j : nat) :
  (i <= j < i + count)%nat ->
  slice s j (j + String.length sub) = sub ->
  search s sub i count = true.
Proof.
  revert i. induction count as [|count IH]; intros i Hj E; [lia|].
  cbn [search]. destruct (String.eqb_spec (slice s i (i + String.length sub)) sub) as [_|Hn];
    [reflexivity|].
  apply IH; [|exact E]. assert (i <> j) by congruence. lia.
Qed.

Lemma length_append (a b : string) :
  String.length (a ++ b) = (String.length a + String.length b)%nat.
Proof. induction a as [|x a IH]; cbn; [reflexivity | now rewrite IH]. Qed.

(** [contains] finds what occurs. *)
Lemma contains_complete (pre sub post : string) :
  contains (pre ++ sub ++ post) sub = true.
Proof.
  unfold contains. rewrite !length_append.
  apply andb_true_iff. split; [apply Nat.leb_le; lia|].
  destruct (String.eqb_spec (pre ++ sub ++ post) sub) as [_|Hne]; [reflexivity|].
  destruct (String.length sub =? 0)%nat eqn:Hz; [reflexivity|].
  cbn [orb].
  assert (Hlen : (String.length pre + String.length post <> 0)%nat).
  { intros H0. apply Hne.
    destruct pre; [|cbn in H0; lia]. destruct post; [|cbn in H0; lia].
    cbn [append]. clear. induction sub as [|c sub IH]; cbn; [reflexivity | now rewrite IH]. }
  apply andb_true_iff. split; [apply Nat.ltb_lt; lia|].
  destruct (String.eqb_spec (slice (pre ++ sub ++ post) 0 (String.length sub)) sub)
    as [_|Hp]; [reflexivity|].
  cbn [orb]. apply orb_true_iff. right.
  apply search_finds with (j := String.length pre).
  - split; [|lia]. destruct pre; [|cbn; lia].
    exfalso. apply Hp. apply (slice_at EmptyString sub post).
  - apply slice_at.
Qed.

(** And only that. *)
Lemma contains_sound (s sub : string) :
  contains s sub = true -> exists pre post, s = pre ++ sub ++ post.
Proof.
  unfold contains. intros H. apply andb_true_iff in H as [_ H].
  apply orb_true_iff in H as [H|H]; [apply orb_true_iff in H as [H|H]|].
  - apply String.eqb_eq in H as ->. exists EmptyString, EmptyString.
    cbn [append]. clear. induction sub as [|c sub IH]; cbn; [reflexivity | now rewrite <- IH].
  - apply Nat.eqb_eq in H. destruct sub; [|discriminate H].
    exists EmptyString, s. reflexivity.
  - apply andb_true_iff in H as [_ H].
    apply orb_true_iff in H as [H|H]; [apply orb_true_iff in H as [H|H]|].
    + apply String.eqb_eq in H. now apply slice_occurs with (i := 0%nat).
    + apply String.eqb_eq in H. unfold slice in H.
      destruct (Nat.le_gt_cases (String.length sub) (String.length s)) as [Hle|Hgt].
      * replace (String.length s - (String.length s - String.length sub))%nat
          with (String.length sub) in H by lia.
        now apply substring_occurs in H.
      * replace (String.length s - String.length sub)%nat with 0%nat in H by lia.
        rewrite Nat.sub_0_r in H.
        (* the slice is all of [s] *)
        assert (Hall : forall t, String.substring 0 (String.length t) t = t).
        { clear. induction t as [|c t IH]; cbn; [reflexivity | now rewrite IH]. }
        rewrite Hall in H. subst sub. lia.
    + now apply search_occurs in H.
Qed.

End ContainsFacts.

Section TestHelperProperties.
Import TypesTest.

(** X17.  The helper [contains] of the type tests decides whether
    [substr] occurs in [s]. *)
Theorem X17_contains_substring (s substr : string) :
  contains s substr = true <-> exists pre post, s = pre ++ substr ++ post.
Proof.
  split; [apply contains_sound|]. intros (pre & post & ->). apply contains_complete.
Qed.

(** X18.  The text of a structured error is never empty and shows both
    the status code, in decimal, and the message, as the type tests check
    it with [contains]. *)
Theorem X18_error_text_shows_status_and_message (e : OllamaError.t) :
  OllamaError.Error e <> EmptyString
  /\ contains (OllamaError.Error e) (Bytes.itoa (OllamaError.StatusCode e)) = true
  /\ contains (OllamaError.Error e) (OllamaError.Message e) = true.
Proof.
  unfold OllamaError.Error. split; [discriminate|]. split.
  - apply (contains_complete "Ollama API error (status "
             (Bytes.itoa (OllamaError.StatusCode e)) ("): " ++ OllamaError.Message e)).
  - assert (E : "Ollama API error (status " ++ Bytes.itoa (OllamaError.StatusCode e)
                  ++ "): " ++ OllamaError.Message e
                = ("Ollama API error (status " ++ Bytes.itoa (OllamaError.StatusCode e)
                     ++ "): ") ++ OllamaError.Message e ++ EmptyString).
    { now rewrite !append_assoc, append_nil_r. }
    rewrite E. apply contains_complete.
Qed.

End TestHelperProperties.

Section ClientProperties.
Import Bytes.

(** X19.  [NewClient] never fails, takes the first host it is given when
    that host is not empty and "http://localhost:11434" otherwise, and so
    never makes a client with an empty base URL; further hosts are
    ignored. *)
Theorem X19_NewClient_base_url (network : HttpClient) (host : list string) :
  snd (NewClient network host) = None
  /\ isEmpty (BaseURL (fst (NewClient network host))) = false
  /\ (forall h more, host = h :: more -> isEmpty h = false ->
        BaseURL (fst (NewClient network host)) = h)
  /\ (host = [] \/ (exists more, host = EmptyString :: more) ->
      BaseURL (fst (NewClient network host)) = "http://localhost:11434").
Proof.
  unfold NewClient, BaseURL. cbn [fst snd baseURL]. repeat split.
  - destruct host as [|h more]; [reflexivity|].
    destruct (isEmpty h) eqn:E; [reflexivity | exact E].
  - intros h more -> Hh. now rewrite Hh.
  - intros [-> | (more & ->)]; reflexivity.
Qed.

End ClientProperties.

Section ValidationProperties.
Context {rt : GoRuntime}.
Variable U : Type.
Import Bytes.

(** X20.  Which validation error a call gets: the operations make their
    checks in a fixed order (request, model name, further identifiers or
    messages, callback) and return the message of the first check that
    fails, with nothing sent and no callback run; a call that passes all
    its checks is not refused. *)
Theorem X20_validation_message (c : Client) (call : Call U) (w : World U) :
  match complaint call w with
  | Some msg => invoke c call w = (Some (Errorf msg), w)
  | None => invalid call w = false
  end.
Proof.
  destruct call as [|m|s d|m|m fn|m f fn|m fn|req|req fn|req|req fn|req|];
    cbn [complaint invalid invoke]; try reflexivity.
  - unfold Show. destruct (isEmpty m); reflexivity.
  - unfold Copy. destruct (isEmpty s); [reflexivity|]. destruct (isEmpty d); reflexivity.
  - unfold Delete. destruct (isEmpty m); reflexivity.
  - rewrite Pull_course. destruct (isEmpty m); [reflexivity|]. destruct fn; reflexivity.
  - rewrite Create_course. destruct (isEmpty m); [reflexivity|].
    destruct (isEmpty f); [reflexivity|]. destruct fn; reflexivity.
  - rewrite Push_course. destruct (isEmpty m); [reflexivity|]. destruct fn; reflexivity.
  - destruct req as [p|]; [|reflexivity]. unfold Generate, bind, loadGenerateRequest.
    destruct (isEmpty _); reflexivity.
  - destruct req as [p|]; [|reflexivity]. rewrite GenerateStream_course.
    destruct (isEmpty _); [reflexivity|]. destruct fn; reflexivity.
  - destruct req as [p|]; [|reflexivity]. unfold Chat, bind, loadChatRequest.
    destruct (isEmpty _); [reflexivity|].
    destruct (ChatRequest.Messages _); reflexivity.
  - destruct req as [p|]; [|reflexivity]. rewrite ChatStream_course.
    destruct (isEmpty _); [reflexivity|].
    destruct (ChatRequest.Messages _); [reflexivity|]. destruct fn; reflexivity.
  - destruct req as [p|]; [|reflexivity]. unfold Embeddings, bind, loadEmbeddingRequest.
    destruct (isEmpty (EmbeddingRequest.Model _)); [reflexivity|].
    destruct (isEmpty (EmbeddingRequest.Prompt _)); reflexivity.
Qed.

End ValidationProperties.

Section ConstructionProperties.
Context {rt : GoRuntime}.
Variable U : Type.
Import Bytes.

(** X21.  A call that passes validation and cannot build its request
    returns the error of the stage that failed, under that stage's prefix,
    with nothing sent and no callback run.  A unary operation joins the
    URL first and names the stage "failed to marshal request body: "; a
    streaming operation marshals first and names the operation in
    "failed to marshal <operation> request: ".  When no stage fails, the
    call has a request to send. *)
Theorem X21_construction_failure (c : Client) (call : Call U) (w : World U) :
  invalid call w = false ->
  match constructionError c call w with
  | Some e => invoke c call w = (Some e, w)
  | None => exists req, outgoing c call w = Some req
  end.
Proof.
  intros Hv. unfold constructionError, outgoing. rewrite Hv.
  destruct (invoke_route c call w Hv)
    as [(Hun & A & resBody & target & E) | (Hun & Hmeth & payload & loop & Hpay & Hloop & E)];
    rewrite Hun.
  - rewrite E. unfold errorOf, tryM. rewrite do_steps.
    destruct (urlJoinPath _ _) as [e|u]; [reflexivity|].
    destruct (payloadOf call w) as [p|];
      [destruct (jsonMarshal p) as [e|d]; [reflexivity|] |];
      (destruct (httpNewRequestCheck _ _); [reflexivity | eauto]).
  - rewrite E, Hpay. unfold errorOf. rewrite streamingCall_steps.
    destruct (jsonMarshal payload) as [e|d]; [reflexivity|].
    destruct (urlJoinPath _ _) as [e|u]; [reflexivity|].
    rewrite Hmeth.
    destruct (httpNewRequestCheck _ _); [reflexivity | eauto].
Qed.

End ConstructionProperties.

(* ===================================================================== *)
(** * The properties of what a call sends and of the errors it returns *)
(* ===================================================================== *)

Section ErrorFacts.
Context {rt : GoRuntime}.
Variable U : Type.
Import Bytes Strings Bufio.

(** The request of a call whose steps up to the transport succeed. *)
Lemma outgoing_built (c : Client) (call : Call U) (w : World U) (u : string)
    (body : option wire) :
  invalid call w = false ->
  urlJoinPath (baseURL c) (pathOf call) = inr u ->
  match payloadOf call w with
  | Some p => match jsonMarshal p with inl _ => None | inr d => Some (Some d) end
  | None => Some None
  end = Some body ->
  httpNewRequestCheck (methodOf call) u = None ->
  outgoing c call w
  = Some {| HttpRequest.Method := methodOf call; HttpRequest.URL := u;
            HttpRequest.Header := [ ("Content-Type", "application/json");
                                    ("Accept", "application/json") ];
            HttpRequest.Body := body |}.
Proof.
  intros Hv Hu Hb Hn. unfold outgoing. rewrite Hv, Hu, Hb, Hn. reflexivity.
Qed.

(** A unary call that passes validation is [do] at the operation's
    endpoint, decoding the answer into the operation's response type. *)
Lemma invoke_unary (c : Client) (call : Call U) (w : World U) :
  invalid call w = false ->
  isUnary call = true ->
  exists (A : Type) (resBody : option (string -> option A)) (target : A),
    invoke c call w
    = errorOf (tryM (operationPrefix call)
                 (do c (methodOf call) (pathOf call) (payloadOf call w)
                    resBody target) w)
    /\ forall data,
         match resBody with Some um => isNil (um data) | None => false end
         = undecoded call data.
Proof.
  destruct call as [|m|s d|m|m fn|m f fn|m fn|req|req fn|req|req fn|req|];
    cbn [invoke invalid isUnary operationPrefix payloadOf methodOf pathOf undecoded];
    intros Hv Hun; try discriminate Hun.
  - do 3 eexists. split; reflexivity.
  - unfold Show. rewrite Hv. do 3 eexists. split; reflexivity.
  - apply orb_false_iff in Hv as [Hs Hd].
    unfold Copy. rewrite Hs, Hd. do 3 eexists. split; reflexivity.
  - unfold Delete. rewrite Hv. do 3 eexists. split; reflexivity.
  - destruct req as [p|]; [|discriminate].
    unfold Generate, bind, loadGenerateRequest. rewrite Hv.
    do 3 eexists. split; reflexivity.
  - destruct req as [p|]; [|discriminate].
    apply orb_false_iff in Hv as [Hm Hs].
    unfold Chat, bind, loadChatRequest. rewrite Hm.
    destruct (ChatRequest.Messages (chatRequests (caller w) p)); [discriminate|].
    do 3 eexists. split; reflexivity.
  - destruct req as [p|]; [|discriminate].
    apply orb_false_iff in Hv as [Hm Hp].
    unfold Embeddings, bind, loadEmbeddingRequest. rewrite Hm, Hp.
    do 3 eexists. split; reflexivity.
  - do 3 eexists. split; reflexivity.
Qed.

(** The error of the part behind the status check: the scanner's error
    under the prefix, or what the loop returned from inside. *)
Lemma stream_error (prefix : string) (body : ResponseBody.t)
    (loop : list Token -> Caller U -> LoopExit * Caller U) (w : World U) (e : error) :
  fst (stream prefix body loop w) = inl e ->
  (exists x,
      e = Wrapf prefix x
      /\ ((snd (ScanLines (ResponseBody.data body)) = TooLong /\ x = ErrTooLong)
          \/ ResponseBody.readErr body = Some x))
  \/ loop (tokens (NewScanner body)) (caller w)
     = (Returned e, caller (snd (stream prefix body loop w))).
Proof.
  unfold stream, bind, runCaller, fail, ret, NewScanner.
  destruct (ScanLines (ResponseBody.data body)) as [toks en] eqn:Hs.
  cbn [tokens snd]. destruct (loop toks (caller w)) as [exit k].
  destruct exit as [|atEnd|e']; cbn [ScannerErr ending reader].
  - destruct en.
    + destruct (ResponseBody.readErr body) as [x|] eqn:Hr; cbn; intros [= <-].
      left. eauto.
    + cbn. intros [= <-]. left. eauto.
  - destruct atEnd; [|discriminate].
    destruct (ResponseBody.readErr body) as [x|] eqn:Hr; cbn; intros [= <-].
    left. eauto.
  - cbn. intros [= <-]. now right.
Qed.

(** Only the loops of [GenerateStream] and [ChatStream] return from
    inside, and only with the error of a context that is done. *)
Lemma loop_returned (call : Call U)
    (loop : list Token -> Caller U -> LoopExit * Caller U)
    (toks : list Token) (k k' : Caller U) (e : error) :
  loopOf call loop ->
  loop toks k = (Returned e, k') ->
  match call with CallGenerateStream _ _ | CallChatStream _ _ => True | _ => False end
  /\ exists x, e = ContextError x /\ ctxErr k' = Some x.
Proof.
  destruct call as [|m|s d|m|m fn|m f fn|m fn|req|req fn|req|req fn|req|];
    cbn [loopOf]; try contradiction;
    destruct fn as [fn|]; try contradiction; intros -> H;
    try (rewrite progressLoop_spec in H; discriminate H);
    (split; [exact I | now apply responseLoop_returned in H]).
Qed.

End ErrorFacts.

Section WireAndErrors.
Context {rt : GoRuntime}.
Variable U : Type.
Import Bytes Strings Bufio Json Decode.


(** C7 (error mapping), as amended.  When the answer to the request of a
    call has a status outside [200,300) and its body can be read, the
    error [parseErrorResponse] makes of status and body is the structured
    error with that status; [Pull], [Create], [Push], [GenerateStream] and
    [ChatStream] return it as it is, and the eight unary operations return
    it wrapped under their own prefix, where [errors.As] finds it and a
    type assertion on the returned error does not.  Its message is the
    [error] member of the envelope when the body is that envelope, and the
    raw body when the body is not JSON; status 404 with the envelope of
    "model not found" gives 404 and "model not found".  When the body of
    such an answer cannot be read, the call returns the read error under
    the prefix of that stage, and no structured error. *)
Theorem C7_error_mapping_amended :
  (forall (c : Client) (call : Call U) (w : World U)
          (req : HttpRequest.t) (resp : HttpResponse.t) (data : string),
      outgoing c call w = Some req ->
      Do (httpClient c) (ctxErr (caller w)) req = inr resp ->
      non2xx (HttpResponse.StatusCode resp) = true ->
      ResponseBody.ReadAll (HttpResponse.Body resp) = inr data ->
      exists msg e,
        parseErrorResponse (HttpResponse.StatusCode resp) data
        = ApiError {| OllamaError.StatusCode := HttpResponse.StatusCode resp;
                      OllamaError.Message := msg |}
        /\ fst (invoke c call w) = Some e
        /\ e = (if isUnary call
                then Wrapf (operationPrefix call)
                       (ApiError {| OllamaError.StatusCode := HttpResponse.StatusCode resp;
                                    OllamaError.Message := msg |})
                else ApiError {| OllamaError.StatusCode := HttpResponse.StatusCode resp;
                                 OllamaError.Message := msg |})
        /\ AsOllamaError e
           = Some {| OllamaError.StatusCode := HttpResponse.StatusCode resp;
                     OllamaError.Message := msg |})
  /\ (forall (c : Client) (call : Call U) (w : World U)
             (req : HttpRequest.t) (resp : HttpResponse.t) (x : error),
         outgoing c call w = Some req ->
         Do (httpClient c) (ctxErr (caller w)) req = inr resp ->
         non2xx (HttpResponse.StatusCode resp) = true ->
         ResponseBody.ReadAll (HttpResponse.Body resp) = inl x ->
         exists e,
           fst (invoke c call w) = Some e
           /\ e = (if isUnary call
                   then Wrapf (operationPrefix call)
                          (Wrapf "failed to read response body: " x)
                   else Wrapf (operationWord call ++ " request failed with status "
                                 ++ itoa (HttpResponse.StatusCode resp)
                                 ++ " and could not read response body: ") x)
           /\ AsOllamaError e = AsOllamaError x)
  /\ (forall (status : Z) (body k raw : string),
         parse body = Some (JObject [(k, JString raw)]) ->
         unquote k = "error" ->
         parseErrorResponse status body
         = ApiError {| OllamaError.StatusCode := status;
                       OllamaError.Message := unquote raw |})
  /\ (forall (status : Z) (body : string),
         parse body = None ->
         parseErrorResponse status body
         = ApiError {| OllamaError.StatusCode := status; OllamaError.Message := body |})
  /\ parseErrorResponse 404 (q "{'error':'model not found'}")
     = ApiError {| OllamaError.StatusCode := 404;
                   OllamaError.Message := "model not found" |}.
Proof.
  split; [|split; [|split; [|split]]].
  - intros c call w req resp data Ho Hd Hs Hr.
    pose proof (invoke_outgoing c call w Ho) as H.
    rewrite Hd, Hr in H. destruct H as (_ & _ & H & _). specialize (H Hs).
    destruct (parseErrorResponse_status (HttpResponse.StatusCode resp) data) as [msg Hp].
    exists msg. eexists. split; [exact Hp|].
    rewrite H, Hp. unfold passedOn. cbn [fst].
    split; [reflexivity|]. split; [reflexivity|].
    destruct (isUnary call); reflexivity.
  - intros c call w req resp x Ho Hd Hs Hr.
    pose proof (invoke_outgoing c call w Ho) as H.
    rewrite Hd, Hr in H. destruct H as (_ & _ & Hun & Hst).
    destruct (isUnary call) eqn:E.
    + rewrite (Hun eq_refl). eexists. repeat split.
    + rewrite (Hst eq_refl Hs x eq_refl). eexists. repeat split.
  - intros. eapply parseErrorResponse_envelope; eauto.
  - intros. now apply parseErrorResponse_invalid.
  - reflexivity.
Qed.

(** C9, as amended.  An error a call returns is of one of four kinds.
    (1) When validation refuses the call: a new error with one of the
    fixed messages, which wraps nothing.
    (2) When a library call fails ([url.JoinPath], [json.Marshal],
    [http.NewRequestWithContext], [httpClient.Do], [io.ReadAll],
    [json.Unmarshal] of the body of a unary answer, the scanner of a
    streaming one): the very error [x] the library returned, wrapped under
    the prefix of its stage, and for a unary operation wrapped once more
    under the operation's own prefix ("failed to list models: " and so
    on); [x] stays in the chain of the error returned.
    (3) On a status outside [200,300) with a body that can be
    read: the structured error, as it is from a streaming operation and
    under the operation's prefix from a unary one.  (4) From
    [GenerateStream] and [ChatStream] once the context is done: the
    context's error as it is. *)
Theorem C9_error_wrapping_amended (c : Client) (call : Call U) (w : World U)
    (e : error) :
  fst (invoke c call w) = Some e ->
  (invalid call w = true /\ isValidationError e /\ chain e = [e])
  \/ (invalid call w = false
      /\ ((exists (stage : Stage) (status : Z) (x : error),
              reports c call w stage status x
              /\ e = passedOn call (Wrapf (stagePrefix call stage status) x)
              /\ In x (chain e))
          \/ (exists (req : HttpRequest.t) (resp : HttpResponse.t) (data : string),
                 outgoing c call w = Some req
                 /\ Do (httpClient c) (ctxErr (caller w)) req = inr resp
                 /\ non2xx (HttpResponse.StatusCode resp) = true
                 /\ ResponseBody.ReadAll (HttpResponse.Body resp) = inr data
                 /\ e = passedOn call
                          (parseErrorResponse (HttpResponse.StatusCode resp) data))
          \/ (match call with
              | CallGenerateStream _ _ | CallChatStream _ _ => True
              | _ => False
              end
              /\ exists x : CtxErr,
                   ctxErr (caller (snd (invoke c call w))) = Some x
                   /\ e = ContextError x))).
Proof.
  intros He.
  destruct (invalid call w) eqn:Hv.
  { left. split; [reflexivity|].
    destruct (invoke_course c call w)
      as [(_ & e' & E & Hval) | [(Hv' & _) | (Hv' & _)]]; try congruence.
    rewrite E in He. injection He as <-. split; [exact Hval|].
    destruct Hval as (msg & -> & _). reflexivity. }
  right. split; [reflexivity|].
  assert (Hin : forall p1 p2 x, In x (chain (Wrapf p1 (Wrapf p2 x))))
    by (intros; cbn [chain In]; right; right; apply chain_self).
  assert (Hin' : forall p x, In x (chain (Wrapf p x)))
    by (intros; cbn [chain In]; right; apply chain_self).
  destruct (isUnary call) eqn:Hun.
  - (* a unary operation *)
    destruct (invoke_unary c call w Hv Hun) as (A & resBody & target & E & Hum).
    rewrite E in He. clear E.
    unfold errorOf, tryM in He. rewrite do_steps in He.
    destruct (urlJoinPath (baseURL c) (pathOf call)) as [x|u] eqn:Hu.
    { injection He as <-. left. exists JoinPath, 0, x.
      unfold passedOn, stagePrefix. rewrite Hun. cbn [reports]. auto. }
    destruct (match payloadOf call w with
              | Some p => match jsonMarshal p with
                          | inl e0 => inl e0
                          | inr d => inr (Some d)
                          end
              | None => inr None
              end) as [x|body] eqn:Hb.
    { injection He as <-. left. exists MarshalBody, 0, x.
      unfold passedOn, stagePrefix. rewrite Hun. cbn [reports].
      split; [|auto].
      destruct (payloadOf call w) as [p|]; [|discriminate].
      exists p. split; [reflexivity|].
      destruct (jsonMarshal p); [congruence | discriminate]. }
    destruct (httpNewRequestCheck (methodOf call) u) as [x|] eqn:Hn.
    { injection He as <-. left. exists NewRequest, 0, x.
      unfold passedOn, stagePrefix. rewrite Hun. cbn [reports]. eauto. }
    cbv zeta in He.
    assert (Ho : outgoing c call w
                 = Some {| HttpRequest.Method := methodOf call; HttpRequest.URL := u;
                           HttpRequest.Header := [ ("Content-Type", "application/json");
                                                   ("Accept", "application/json") ];
                           HttpRequest.Body := body |}).
    { apply outgoing_built; auto.
      destruct (payloadOf call w) as [p|]; [|congruence].
      destruct (jsonMarshal p); congruence. }
    destruct (Do (httpClient c) (ctxErr (caller w)) _) as [x|[status rbody]] eqn:Hd.
    { injection He as <-. left. exists Transport, 0, x.
      unfold passedOn, stagePrefix. rewrite Hun. cbn [reports]. eauto. }
    cbn [HttpResponse.Body HttpResponse.StatusCode] in He.
    destruct (ResponseBody.ReadAll rbody) as [x|data] eqn:Hr.
    { injection He as <-. left. exists ReadBody, status, x.
      unfold passedOn, stagePrefix. rewrite Hun. cbn [reports].
      split; [do 2 eexists; repeat split; eassumption | auto]. }
    destruct (non2xx status) eqn:Hs.
    { injection He as <-. right; left. do 3 eexists.
      split; [exact Ho|]. split; [exact Hd|].
      cbn [HttpResponse.Body HttpResponse.StatusCode].
      unfold passedOn. rewrite Hun. repeat split; eassumption || reflexivity. }
    destruct resBody as [um|]; [|discriminate].
    destruct (isEmpty data) eqn:Hem; [discriminate|].
    specialize (Hum data).
    destruct (um data); [discriminate|]. cbn [isNil] in Hum.
    injection He as <-. left. exists DecodeBody, status, JSONError.
    unfold passedOn, stagePrefix. rewrite Hun. cbn [reports].
    split; [|auto].
    destruct rbody as [rdata rerr]. unfold ResponseBody.ReadAll in Hr.
    cbn [ResponseBody.readErr ResponseBody.data] in Hr.
    destruct rerr; [discriminate|]. injection Hr as ->.
    eexists. exists data. repeat split; eassumption || reflexivity || auto.
  - (* a streaming operation *)
    destruct (invoke_route c call w Hv)
      as [(Hun' & _) | (_ & Hmeth & payload & loop & Hpay & Hloop & E)];
      [congruence|].
    rewrite E in He |- *. clear E.
    unfold errorOf in He |- *. rewrite streamingCall_steps in He |- *.
    destruct (jsonMarshal payload) as [x|d] eqn:Hm.
    { injection He as <-. left. exists MarshalBody, 0, x.
      unfold passedOn, stagePrefix. rewrite Hun. cbn [reports]. eauto. }
    destruct (urlJoinPath (baseURL c) (pathOf call)) as [x|u] eqn:Hu.
    { injection He as <-. left. exists JoinPath, 0, x.
      unfold passedOn, stagePrefix. rewrite Hun. cbn [reports]. auto. }
    destruct (httpNewRequestCheck MethodPost u) as [x|] eqn:Hn.
    { injection He as <-. left. exists NewRequest, 0, x.
      unfold passedOn, stagePrefix. rewrite Hun. cbn [reports]. rewrite Hmeth.
      eauto. }
    cbv zeta in He |- *.
    assert (Ho : outgoing c call w
                 = Some {| HttpRequest.Method := MethodPost; HttpRequest.URL := u;
                           HttpRequest.Header := [ ("Content-Type", "application/json");
                                                   ("Accept", "application/json") ];
                           HttpRequest.Body := Some d |}).
    { rewrite <- Hmeth. apply outgoing_built; auto; [|now rewrite Hmeth].
      now rewrite Hpay, Hm. }
    destruct (Do (httpClient c) (ctxErr (caller w)) _) as [x|[status rbody]] eqn:Hd.
    { injection He as <-. left. exists Transport, 0, x.
      unfold passedOn, stagePrefix. rewrite Hun. cbn [reports]. eauto. }
    cbn [HttpResponse.Body HttpResponse.StatusCode] in He |- *.
    destruct (non2xx status) eqn:Hs.
    { destruct (ResponseBody.ReadAll rbody) as [x|data] eqn:Hr; injection He as <-.
      - left. exists ReadBody, status, x.
        unfold passedOn, stagePrefix. rewrite Hun. cbn [reports].
      split; [do 2 eexists; repeat split; eassumption | auto].
      - right; left. do 3 eexists.
        split; [exact Ho|]. split; [exact Hd|].
        cbn [HttpResponse.Body HttpResponse.StatusCode].
        unfold passedOn. rewrite Hun. repeat split; eassumption || reflexivity. }
    cbn [fst snd] in He |- *.
    destruct (fst (stream _ rbody loop _)) as [e'|] eqn:Hst; [|discriminate].
    injection He as ->.
    apply stream_error in Hst as [(x & -> & Hx) | Hret].
    + left. exists Scan, status, x.
      unfold passedOn, stagePrefix. rewrite Hun. cbn [reports].
      split; [|auto]. do 2 eexists. split; [exact Hun|]. split; [exact Ho|].
      split; [exact Hd|]. split; [exact Hs | exact Hx].
    + right; right.
      eapply loop_returned in Hret as (Hcall & x & -> & Hc); [|exact Hloop].
      split; [exact Hcall|]. exists x. split; [exact Hc | reflexivity].
Qed.

End WireAndErrors.

(* ===================================================================== *)
(** * Worked cases *)
(* ===================================================================== *)

#[local] Existing Instance Sample.runtime.

(** The pull scenario of the specification: three lines, three
    invocations, the last one with status "success". *)
Example pull_scenario :
  Pull (Sample.client 200 (framed true Sample.pullLines)) "llama2"
    (Some Sample.record) (Sample.start PullProgress.t)
  = (inr tt,
     after (Sample.start PullProgress.t) (Sample.post "/api/pull" Sample.pullDoc)
       Sample.record Sample.pullRecords).
Proof. vm_compute. reflexivity. Qed.

(** A line of 64 KiB or more ends the stream with the scanner's error; the
    records before it have been delivered. *)
Example line_too_long :
  Pull (Sample.client 200
          (framed true [ Bytes.q "{'status':'downloading'}";
                         Bytes.replicate (N.to_nat Bufio.MaxScanTokenSize) "a";
                         Bytes.q "{'status':'success'}" ]))
    "llama2" (Some Sample.record) (Sample.start PullProgress.t)
  = (inl (Wrapf "error reading pull response stream: " ErrTooLong),
     after (Sample.start PullProgress.t) (Sample.post "/api/pull" Sample.pullDoc)
       Sample.record
       [ {| PullProgress.Status := "downloading"; PullProgress.Digest := EmptyString;
            PullProgress.Total := 0; PullProgress.Completed := 0 |} ]).
Proof. vm_compute. reflexivity. Qed.

(** [GenerateStream] looks at the context before every line: the callback
    that cancels on its first record sees no second one, and the call
    returns the context's error. *)
Example generate_stream_cancelled :
  GenerateStream (Sample.client 200 (framed true Sample.generateLines)) (Some 0%nat)
    (Some Sample.observeAndCancel) (Sample.start GenerateResponse.t)
  = (inl (ContextError Canceled),
     after (Sample.start GenerateResponse.t)
       (Sample.post "/api/generate" (Sample.generateDoc true))
       (effect Sample.observeAndCancel) [ Sample.generated "Why" false ]).
Proof. vm_compute. reflexivity. Qed.

(** The flag [GenerateStream] tests is the one in the struct the callback
    was given: a callback that sets it ends the stream behind its first
    record. *)
Example generate_stream_ended_by_callback :
  GenerateStream (Sample.client 200 (framed true Sample.generateLines)) (Some 0%nat)
    (Some Sample.observeAndFinish) (Sample.start GenerateResponse.t)
  = (inr tt,
     after (Sample.start GenerateResponse.t)
       (Sample.post "/api/generate" (Sample.generateDoc true))
       (effect Sample.observeAndFinish) [ Sample.generated "Why" false ]).
Proof. vm_compute. reflexivity. Qed.

(** C4 at work in [Pull].  The server answers with the three lines of the
    pull scenario; the callback cancels the context while it handles the
    first record.  [Pull] has no check of the context in its loop: the
    callback is invoked for the second and the third record all the same,
    and [Pull] returns nil. *)
Theorem C4_pull_ignores_cancellation :
  ctxErr (Sample.recordAndCancel
            (hd PullProgress.zero Sample.pullRecords)
            (caller (Sample.start PullProgress.t))) = Some Canceled
  /\ Pull (Sample.client 200 (framed true Sample.pullLines)) "llama2"
       (Some Sample.recordAndCancel) (Sample.start PullProgress.t)
     = (inr tt,
        after (Sample.start PullProgress.t) (Sample.post "/api/pull" Sample.pullDoc)
          Sample.recordAndCancel Sample.pullRecords).
Proof. split; vm_compute; reflexivity. Qed.

Lemma C1_stream_ordering_amended_witness :
  Pull (Sample.client 200 (framed true Sample.pullLines)) "llama2"
    (Some Sample.record) (Sample.start PullProgress.t)
  = (inr tt,
     after (Sample.start PullProgress.t) (Sample.post "/api/pull" Sample.pullDoc)
       Sample.record Sample.pullRecords)
  /\ Create (Sample.client 200 (framed true Sample.statusLines)) "mymodel" "FROM llama2"
       (Some Sample.record) (Sample.start CreateProgress.t)
     = (inr tt,
        after (Sample.start CreateProgress.t) (Sample.post "/api/create" Sample.createDoc)
          Sample.record Sample.createRecords)
  /\ Push (Sample.client 200 (framed false Sample.statusLines)) "llama2"
       (Some Sample.record) (Sample.start PushProgress.t)
     = (inr tt,
        after (Sample.start PushProgress.t) (Sample.post "/api/push" Sample.pushDoc)
          Sample.record Sample.pushRecords)
  /\ GenerateStream (Sample.client 200 (framed true Sample.generateLines)) (Some 0%nat)
       (Some Sample.observe) (Sample.start GenerateResponse.t)
     = (inr tt,
        after (Sample.start GenerateResponse.t)
          (Sample.post "/api/generate" (Sample.generateDoc true))
          (effect Sample.observe) Sample.generateRecords)
  /\ ChatStream (Sample.client 200 (framed true Sample.chatLines)) (Some 0%nat)
       (Some Sample.observe) (Sample.start ChatResponse.t)
     = (inr tt,
        after (Sample.start ChatResponse.t)
          (Sample.post "/api/chat" (Sample.chatDoc true))
          (effect Sample.observe) Sample.chatRecords).
Proof.
  pose proof (C1_stream_ordering_amended (rt := Sample.runtime)) as T.
  split; [|split; [|split; [|split]]].
  - apply (proj1 (T (list PullProgress.t))) with (terminated := true)
      (lines := Sample.pullLines);
      [reflexivity | served | lines_checked].
  - apply (proj1 (proj2 (T (list CreateProgress.t)))) with (terminated := true)
      (lines := Sample.statusLines);
      [reflexivity | reflexivity | served | lines_checked].
  - apply (proj1 (proj2 (proj2 (T (list PushProgress.t))))) with (terminated := false)
      (lines := Sample.statusLines);
      [reflexivity | served | lines_checked].
  - apply (proj1 (proj2 (proj2 (proj2 (T (list GenerateResponse.t))))))
      with (terminated := true) (lines := Sample.generateLines);
      [reflexivity | served | lines_checked | reflexivity | by_evaluation].
  - apply (proj2 (proj2 (proj2 (proj2 (T (list ChatResponse.t))))))
      with (terminated := true) (lines := Sample.chatLines);
      [reflexivity | discriminate | served | lines_checked | reflexivity
      | by_evaluation].
Defined.

Lemma C2_malformed_line_skipped_amended_witness :
  Pull (Sample.client 200
          (framed true [ Bytes.q "{'status':'downloading'}"; Sample.malformed;
                         Bytes.q "{'status':'success'}" ]))
    "llama2" (Some Sample.record) (Sample.start PullProgress.t)
  = (inr tt,
     after (Sample.start PullProgress.t) (Sample.post "/api/pull" Sample.pullDoc)
       Sample.record
       [ {| PullProgress.Status := "downloading"; PullProgress.Digest := EmptyString;
            PullProgress.Total := 0; PullProgress.Completed := 0 |};
         {| PullProgress.Status := "success"; PullProgress.Digest := EmptyString;
            PullProgress.Total := 0; PullProgress.Completed := 0 |} ])
  /\ Create (Sample.client 200
               (framed true [ Bytes.q "{'status':'reading model metadata'}";
                              Sample.malformed; Bytes.q "{'status':'success'}" ]))
       "mymodel" "FROM llama2" (Some Sample.record) (Sample.start CreateProgress.t)
     = (inr tt,
        after (Sample.start CreateProgress.t) (Sample.post "/api/create" Sample.createDoc)
          Sample.record Sample.createRecords)
  /\ Push (Sample.client 200
             (framed true [ Bytes.q "{'status':'reading model metadata'}";
                            Sample.malformed; Bytes.q "{'status':'success'}" ]))
       "llama2" (Some Sample.record) (Sample.start PushProgress.t)
     = (inr tt,
        after (Sample.start PushProgress.t) (Sample.post "/api/push" Sample.pushDoc)
          Sample.record Sample.pushRecords)
  /\ GenerateStream
       (Sample.client 200
          (framed true [ Bytes.q "{'model':'llama2','response':'Why','done':false}";
                         Sample.malformed;
                         Bytes.q "{'model':'llama2','response':' not','done':false}" ]))
       (Some 0%nat) (Some Sample.observe) (Sample.start GenerateResponse.t)
     = (inr tt,
        after (Sample.start GenerateResponse.t)
          (Sample.post "/api/generate" (Sample.generateDoc true))
          (effect Sample.observe) Sample.generateRecords)
  /\ ChatStream
       (Sample.client 200
          (framed true
             [ Bytes.q "{'model':'llama2','message':{'role':'assistant','content':'Hi'},'done':false}";
               Sample.malformed;
               Bytes.q "{'model':'llama2','message':{'role':'assistant','content':' there'},'done':false}" ]))
       (Some 0%nat) (Some Sample.observe) (Sample.start ChatResponse.t)
     = (inr tt,
        after (Sample.start ChatResponse.t)
          (Sample.post "/api/chat" (Sample.chatDoc true))
          (effect Sample.observe) Sample.chatRecords).
Proof.
  pose proof (C2_malformed_line_skipped_amended (rt := Sample.runtime)) as T.
  split; [|split; [|split; [|split]]].
  - apply (proj1 (T (list PullProgress.t))) with (terminated := true)
      (lines := [ Bytes.q "{'status':'downloading'}"; Sample.malformed;
                  Bytes.q "{'status':'success'}" ])
      (outcomes := [ Some {| PullProgress.Status := "downloading";
                             PullProgress.Digest := EmptyString;
                             PullProgress.Total := 0; PullProgress.Completed := 0 |};
                     None;
                     Some {| PullProgress.Status := "success";
                             PullProgress.Digest := EmptyString;
                             PullProgress.Total := 0; PullProgress.Completed := 0 |} ]);
      [reflexivity | served | lines_checked].
  - apply (proj1 (proj2 (T (list CreateProgress.t)))) with (terminated := true)
      (lines := [ Bytes.q "{'status':'reading model metadata'}"; Sample.malformed;
                  Bytes.q "{'status':'success'}" ])
      (outcomes := [ Some {| CreateProgress.Status := "reading model metadata" |}; None;
                     Some {| CreateProgress.Status := "success" |} ]);
      [reflexivity | reflexivity | served | lines_checked].
  - apply (proj1 (proj2 (proj2 (T (list PushProgress.t))))) with (terminated := true)
      (lines := [ Bytes.q "{'status':'reading model metadata'}"; Sample.malformed;
                  Bytes.q "{'status':'success'}" ])
      (outcomes := [ Some {| PushProgress.Status := "reading model metadata";
                             PushProgress.Digest := EmptyString;
                             PushProgress.Total := 0; PushProgress.Completed := 0 |};
                     None;
                     Some {| PushProgress.Status := "success";
                             PushProgress.Digest := EmptyString;
                             PushProgress.Total := 0; PushProgress.Completed := 0 |} ]);
      [reflexivity | served | lines_checked].
  - apply (proj1 (proj2 (proj2 (proj2 (T (list GenerateResponse.t))))))
      with (terminated := true)
      (lines := [ Bytes.q "{'model':'llama2','response':'Why','done':false}";
                  Sample.malformed;
                  Bytes.q "{'model':'llama2','response':' not','done':false}" ])
      (outcomes := [ Some (Sample.generated "Why" false); None;
                     Some (Sample.generated " not" false) ]);
      [reflexivity | served | lines_checked | reflexivity | by_evaluation].
  - apply (proj2 (proj2 (proj2 (proj2 (T (list ChatResponse.t))))))
      with (terminated := true)
      (lines := [ Bytes.q "{'model':'llama2','message':{'role':'assistant','content':'Hi'},'done':false}";
                  Sample.malformed;
                  Bytes.q "{'model':'llama2','message':{'role':'assistant','content':' there'},'done':false}" ])
      (outcomes := [ Some (Sample.chatted "Hi" false); None;
                     Some (Sample.chatted " there" false) ]);
      [reflexivity | discriminate | served | lines_checked | reflexivity
      | by_evaluation].
Defined.


Lemma C6_request_not_mutated_witness :
  sameRequests (Sample.start GenerateResponse.t) 1
    (caller (snd (invoke (Sample.client 200 (framed true Sample.generateLines))
                    (CallGenerateStream (Some 1%nat) (Some Sample.observe))
                    (Sample.start GenerateResponse.t)))).
Proof.
  apply C6_request_not_mutated. intros r k H. exact H.
Defined.

Lemma C8_validation_fail_fast_witness :
  exists e,
    invoke (Sample.client 200 EmptyString) (CallPull "llama2" None)
      (Sample.start PullProgress.t)
    = (Some e, Sample.start PullProgress.t)
    /\ isValidationError e.
Proof.
  apply C8_validation_fail_fast. reflexivity.
Defined.

Lemma C10_envelope_without_error_amended_witness :
  exists e,
    fst (invoke (Sample.client 500 (Bytes.q "{'message':'x'}"))
           (CallList (U := list unit)) (Sample.start unit)) = Some e
    /\ AsOllamaError e
       = Some {| OllamaError.StatusCode := 500; OllamaError.Message := EmptyString |}.
Proof.
  refine (proj1 (C10_envelope_without_error_amended (rt := Sample.runtime) (list unit))
            (Sample.client 500 (Bytes.q "{'message':'x'}"))
            CallList (Sample.start unit)
            {| HttpRequest.Method := "GET";
               HttpRequest.URL := "http://localhost:11434/api/tags";
               HttpRequest.Header := [("Content-Type", "application/json");
                                      ("Accept", "application/json")];
               HttpRequest.Body := None |}
            {| HttpResponse.StatusCode := 500;
               HttpResponse.Body :=
                 {| ResponseBody.data := Bytes.q "{'message':'x'}";
                    ResponseBody.readErr := None |} |}
            [("message", Json.JString "x")]
            eq_refl eq_refl eq_refl eq_refl eq_refl _).
  intros k v [E | []] Hs. inversion E; subst. discriminate Hs.
Defined.


(** Status 404 with the envelope of "model not found": [Pull] returns the
    structured error itself, [Generate] returns it under its prefix. *)
Lemma C7_error_mapping_amended_witness :
  (exists msg e,
      parseErrorResponse 404 (Bytes.q "{'error':'model not found'}")
      = ApiError {| OllamaError.StatusCode := 404; OllamaError.Message := msg |}
      /\ fst (invoke (Sample.client 404 (Bytes.q "{'error':'model not found'}"))
                (CallPull "llama2" (Some Sample.record)) (Sample.start PullProgress.t))
         = Some e
      /\ e = ApiError {| OllamaError.StatusCode := 404; OllamaError.Message := msg |}
      /\ AsOllamaError e
         = Some {| OllamaError.StatusCode := 404; OllamaError.Message := msg |})
  /\ (exists msg e,
         parseErrorResponse 404 (Bytes.q "{'error':'model not found'}")
         = ApiError {| OllamaError.StatusCode := 404; OllamaError.Message := msg |}
         /\ fst (invoke (Sample.client 404 (Bytes.q "{'error':'model not found'}"))
                   (CallGenerate (Some 0%nat)) (Sample.start unit))
            = Some e
         /\ e = Wrapf "failed to generate text: "
                  (ApiError {| OllamaError.StatusCode := 404;
                               OllamaError.Message := msg |})
         /\ AsOllamaError e
            = Some {| OllamaError.StatusCode := 404; OllamaError.Message := msg |}).
Proof.
  pose proof (proj1 (C7_error_mapping_amended (rt := Sample.runtime)
                       (list PullProgress.t))) as T1.
  pose proof (proj1 (C7_error_mapping_amended (rt := Sample.runtime) (list unit))) as T2.
  split.
  - exact (T1 (Sample.client 404 (Bytes.q "{'error':'model not found'}"))
              (CallPull "llama2" (Some Sample.record)) (Sample.start PullProgress.t)
              (Sample.post "/api/pull" Sample.pullDoc)
              {| HttpResponse.StatusCode := 404;
                 HttpResponse.Body :=
                   {| ResponseBody.data := Bytes.q "{'error':'model not found'}";
                      ResponseBody.readErr := None |} |}
              (Bytes.q "{'error':'model not found'}")
              eq_refl eq_refl eq_refl eq_refl).
  - exact (T2 (Sample.client 404 (Bytes.q "{'error':'model not found'}"))
              (CallGenerate (Some 0%nat)) (Sample.start unit)
              (Sample.post "/api/generate" (Sample.generateDoc false))
              {| HttpResponse.StatusCode := 404;
                 HttpResponse.Body :=
                   {| ResponseBody.data := Bytes.q "{'error':'model not found'}";
                      ResponseBody.readErr := None |} |}
              (Bytes.q "{'error':'model not found'}")
              eq_refl eq_refl eq_refl eq_refl).
Defined.

(** The transport reaches no server: the error [Pull] returns is the
    transport's error under "failed to execute pull request: ", and the
    transport's error is in its chain. *)
Lemma C9_error_wrapping_amended_witness :
  fst (invoke (fst (NewClient Cases.refusing []))
         (CallPull "llama2" (Some Sample.record)) (Sample.start PullProgress.t))
  = Some (Wrapf "failed to execute pull request: " (Foreign "connection refused"))
  /\ exists (stage : Stage) (status : Z) (x : error),
       reports (fst (NewClient Cases.refusing []))
         (CallPull "llama2" (Some Sample.record))
         (Sample.start PullProgress.t) stage status x
       /\ Wrapf "failed to execute pull request: " (Foreign "connection refused")
          = passedOn (CallPull "llama2" (Some Sample.record))
              (Wrapf (stagePrefix (CallPull "llama2" (Some Sample.record))
                        stage status) x)
       /\ In x (chain (Wrapf "failed to execute pull request: "
                         (Foreign "connection refused"))).
Proof.
  split; [reflexivity|].
  destruct (C9_error_wrapping_amended (fst (NewClient Cases.refusing []))
              (CallPull "llama2" (Some Sample.record)) (Sample.start PullProgress.t)
              eq_refl)
    as [(Hv & _) | (_ & [H | [(req & resp & data & Ho & Hd & _) | (_ & x & _ & E)]])].
  - discriminate Hv.
  - exact H.
  - discriminate Hd.
  - discriminate E.
Defined.

(** C1 as stated fails.  Both lines of the body are valid JSON and none is
    terminal, but the second is longer than a token of the scanner may be:
    [Pull] invokes the callback once, not twice, and returns the scanner's
    error.  And [GenerateStream] on the two valid lines of the sample
    invokes the callback once when the callback sets [Done] in the record
    it is handed (the call returns nil) or cancels the context (the call
    returns the context's error). *)
Lemma C1_counterexample :
  Forall2 (fun l r => Bytes.contains Bytes.LF l = false
                      /\ PullProgress.unmarshal l = Some r)
    Cases.longLines Cases.longRecords
  /\ Pull (Sample.client 200 (framed true Cases.longLines)) "llama2"
       (Some Sample.record) (Sample.start PullProgress.t)
     = (inl (Wrapf "error reading pull response stream: " ErrTooLong),
        after (Sample.start PullProgress.t) (Sample.post "/api/pull" Sample.pullDoc)
          Sample.record [ hd PullProgress.zero Cases.longRecords ])
  /\ Forall2 (fun l r => GenerateResponse.unmarshal l = Some r
                         /\ GenerateResponse.Done r = false)
       Sample.generateLines Sample.generateRecords
  /\ GenerateStream (Sample.client 200 (framed true Sample.generateLines)) (Some 0%nat)
       (Some Sample.observeAndFinish) (Sample.start GenerateResponse.t)
     = (inr tt,
        after (Sample.start GenerateResponse.t)
          (Sample.post "/api/generate" (Sample.generateDoc true))
          (effect Sample.observeAndFinish) [ Sample.generated "Why" false ])
  /\ GenerateStream (Sample.client 200 (framed true Sample.generateLines)) (Some 0%nat)
       (Some Sample.observeAndCancel) (Sample.start GenerateResponse.t)
     = (inl (ContextError Canceled),
        after (Sample.start GenerateResponse.t)
          (Sample.post "/api/generate" (Sample.generateDoc true))
          (effect Sample.observeAndCancel) [ Sample.generated "Why" false ])
  /\ ~ (forall (c : Client) (m : string)
               (fn : PullProgress.t -> Caller (list PullProgress.t)
                     -> Caller (list PullProgress.t))
               (w : World (list PullProgress.t)) (req : HttpRequest.t)
               (terminated : bool) (lines : list string) (rs : list PullProgress.t),
           Bytes.isEmpty m = false ->
           streams c w "/api/pull" (PPull {| PullRequest.Model := m |}) req
             {| ResponseBody.data := framed terminated lines;
                ResponseBody.readErr := None |} ->
           Forall2 (fun l r => Bytes.contains Bytes.LF l = false
                               /\ PullProgress.unmarshal l = Some r) lines rs ->
           Pull c m (Some fn) w = (inr tt, after w req fn rs)).
Proof.
  assert (Hvalid : Forall2 (fun l r => Bytes.contains Bytes.LF l = false
                                       /\ PullProgress.unmarshal l = Some r)
                     Cases.longLines Cases.longRecords).
  { repeat constructor; vm_compute; reflexivity. }
  split; [exact Hvalid|].
  split; [vm_compute; reflexivity|].
  split; [repeat constructor|].
  split; [vm_compute; reflexivity|].
  split; [vm_compute; reflexivity|].
  intros H.
  specialize (H (Sample.client 200 (framed true Cases.longLines)) "llama2"
                Sample.record (Sample.start PullProgress.t)
                (Sample.post "/api/pull" Sample.pullDoc) true
                Cases.longLines Cases.longRecords eq_refl).
  assert (Hs : streams (Sample.client 200 (framed true Cases.longLines))
                 (Sample.start PullProgress.t) "/api/pull"
                 (PPull {| PullRequest.Model := "llama2" |})
                 (Sample.post "/api/pull" Sample.pullDoc)
                 {| ResponseBody.data := framed true Cases.longLines;
                    ResponseBody.readErr := None |}) by served.
  specialize (H Hs Hvalid). vm_compute in H. discriminate H.
Qed.

(** C2 as stated fails.  The second line of the body is not blank and is
    not JSON, and it is 64 KiB long: [Pull] does not pass it over but
    returns the scanner's error, and the valid line behind it is never
    delivered. *)
Lemma C2_counterexample :
  Forall2 (fun l o => Bytes.contains Bytes.LF l = false
                      /\ Bytes.isEmpty (trimmed l) = false
                      /\ PullProgress.unmarshal (trimmed l) = o)
    Cases.noisyLines Cases.noisyOutcomes
  /\ Pull (Sample.client 200 (framed true Cases.noisyLines)) "llama2"
       (Some Sample.record) (Sample.start PullProgress.t)
     = (inl (Wrapf "error reading pull response stream: " ErrTooLong),
        after (Sample.start PullProgress.t) (Sample.post "/api/pull" Sample.pullDoc)
          Sample.record [ hd PullProgress.zero Cases.longRecords ])
  /\ ~ (forall (c : Client) (m : string)
               (fn : PullProgress.t -> Caller (list PullProgress.t)
                     -> Caller (list PullProgress.t))
               (w : World (list PullProgress.t)) (req : HttpRequest.t)
               (terminated : bool) (lines : list string)
               (outcomes : list (option PullProgress.t)),
           Bytes.isEmpty m = false ->
           streams c w "/api/pull" (PPull {| PullRequest.Model := m |}) req
             {| ResponseBody.data := framed terminated lines;
                ResponseBody.readErr := None |} ->
           Forall2 (fun l o => Bytes.contains Bytes.LF l = false
                               /\ Bytes.isEmpty (trimmed l) = false
                               /\ PullProgress.unmarshal (trimmed l) = o)
             lines outcomes ->
           Pull c m (Some fn) w = (inr tt, after w req fn (records outcomes))).
Proof.
  assert (Hlines : Forall2 (fun l o => Bytes.contains Bytes.LF l = false
                                       /\ Bytes.isEmpty (trimmed l) = false
                                       /\ PullProgress.unmarshal (trimmed l) = o)
                     Cases.noisyLines Cases.noisyOutcomes).
  { repeat constructor; vm_compute; reflexivity. }
  split; [exact Hlines|].
  split; [vm_compute; reflexivity|].
  intros H.
  specialize (H (Sample.client 200 (framed true Cases.noisyLines)) "llama2"
                Sample.record (Sample.start PullProgress.t)
                (Sample.post "/api/pull" Sample.pullDoc) true
                Cases.noisyLines Cases.noisyOutcomes eq_refl).
  assert (Hs : streams (Sample.client 200 (framed true Cases.noisyLines))
                 (Sample.start PullProgress.t) "/api/pull"
                 (PPull {| PullRequest.Model := "llama2" |})
                 (Sample.post "/api/pull" Sample.pullDoc)
                 {| ResponseBody.data := framed true Cases.noisyLines;
                    ResponseBody.readErr := None |}) by served.
  specialize (H Hs Hlines). vm_compute in H. discriminate H.
Qed.



(** C7 as stated fails.  On status 404 with the envelope of "model not
    found", [Generate] returns an error that wraps the structured error
    and is not it.  On status 500 with a body that breaks off, [Pull]
    returns the read error, in which there is no structured error. *)
Lemma C7_counterexample :
  fst (invoke (Sample.client 404 (Bytes.q "{'error':'model not found'}"))
         (CallGenerate (Some 0%nat)) (Sample.start unit))
  = Some (Wrapf "failed to generate text: "
            (ApiError {| OllamaError.StatusCode := 404;
                         OllamaError.Message := "model not found" |}))
  /\ fst (invoke {| httpClient := Cases.breaking 500 "{"; baseURL := Cases.base |}
            (CallPull "llama2" (Some Sample.record)) (Sample.start PullProgress.t))
     = Some (Wrapf "pull request failed with status 500 and could not read response body: "
               (Foreign "unexpected EOF"))
  /\ AsOllamaError
       (Wrapf "pull request failed with status 500 and could not read response body: "
          (Foreign "unexpected EOF")) = None
  /\ ~ (forall (c : Client) (call : Call (list unit)) (w : World (list unit))
               (req : HttpRequest.t) (resp : HttpResponse.t),
           outgoing c call w = Some req ->
           Do (httpClient c) (ctxErr (caller w)) req = inr resp ->
           non2xx (HttpResponse.StatusCode resp) = true ->
           exists msg,
             fst (invoke c call w)
             = Some (ApiError {| OllamaError.StatusCode := HttpResponse.StatusCode resp;
                                 OllamaError.Message := msg |})).
Proof.
  split; [reflexivity|]. split; [reflexivity|]. split; [reflexivity|].
  intros H.
  destruct (H (Sample.client 404 (Bytes.q "{'error':'model not found'}"))
              (CallGenerate (Some 0%nat)) (Sample.start unit)
              (Sample.post "/api/generate" (Sample.generateDoc false))
              _ eq_refl eq_refl eq_refl) as [msg E].
  discriminate E.
Qed.

(** C9 as stated fails: the structured error comes out of [Pull] as it
    is, with no prefix and nothing to unwrap, and the validation error of
    [Show] is the one of [Delete], word for word. *)
Lemma C9_counterexample :
  fst (invoke (Sample.client 404 (Bytes.q "{'error':'model not found'}"))
         (CallPull "llama2" (Some Sample.record)) (Sample.start PullProgress.t))
  = Some (ApiError {| OllamaError.StatusCode := 404;
                      OllamaError.Message := "model not found" |})
  /\ Unwrap (ApiError {| OllamaError.StatusCode := 404;
                         OllamaError.Message := "model not found" |}) = None
  /\ fst (invoke (Sample.client 200 EmptyString) (CallShow EmptyString)
            (Sample.start unit))
     = Some (Errorf "model name cannot be empty")
  /\ fst (invoke (Sample.client 200 EmptyString) (CallDelete EmptyString)
            (Sample.start unit))
     = Some (Errorf "model name cannot be empty")
  /\ ~ (forall (c : Client) (call : Call (list PullProgress.t))
               (w : World (list PullProgress.t)) (e : error),
           fst (invoke c call w) = Some e ->
           exists prefix cause, e = Wrapf prefix cause).
Proof.
  repeat split; try reflexivity.
  intros H.
  destruct (H (Sample.client 404 (Bytes.q "{'error':'model not found'}"))
              (CallPull "llama2" (Some Sample.record)) (Sample.start PullProgress.t)
              _ eq_refl) as (prefix & cause & E).
  discriminate E.
Qed.

(** C10 as stated fails: the bodies [[1,2]] and [{"error":5}] are valid
    JSON without a string [error] member, and the message is the raw body,
    not the empty string. *)
Lemma C10_counterexample :
  Json.parse (Bytes.q "[1,2]") = Some (Json.JArray [Json.JNumber "1"; Json.JNumber "2"])
  /\ parseErrorResponse 500 (Bytes.q "[1,2]")
     = ApiError {| OllamaError.StatusCode := 500; OllamaError.Message := "[1,2]" |}
  /\ Json.parse (Bytes.q "{'error':5}")
     = Some (Json.JObject [("error", Json.JNumber "5")])
  /\ parseErrorResponse 500 (Bytes.q "{'error':5}")
     = ApiError {| OllamaError.StatusCode := 500;
                   OllamaError.Message := Bytes.q "{'error':5}" |}
  /\ fst (invoke (Sample.client 500 (Bytes.q "[1,2]")) (CallList (U := list unit))
            (Sample.start unit))
     = Some (Wrapf "failed to list models: "
               (ApiError {| OllamaError.StatusCode := 500;
                            OllamaError.Message := "[1,2]" |}))
  /\ ~ (forall (status : Z) (body : string) (v : Json.json),
           Json.parse body = Some v ->
           (forall ms k raw, v = Json.JObject ms ->
                             In (k, Json.JString raw) ms ->
                             Decode.unquote k <> "error") ->
           parseErrorResponse status body
           = ApiError {| OllamaError.StatusCode := status;
                         OllamaError.Message := EmptyString |}).
Proof.
  repeat split; try reflexivity.
  intros H.
  specialize (H 500 (Bytes.q "[1,2]") _ eq_refl).
  assert (Hno : forall ms k raw,
             Json.JArray [Json.JNumber "1"; Json.JNumber "2"] = Json.JObject ms ->
             In (k, Json.JString raw) ms -> Decode.unquote k <> "error")
    by (intros ms k raw E; discriminate E).
  specialize (H Hno). discriminate H.
Qed.

(** ** Worked cases of the further properties *)

Lemma X3_transport_failure_witness :
  invoke (fst (NewClient Cases.refusing [])) (CallPull "llama2" (Some Sample.record))
    (Sample.start PullProgress.t)
  = (Some (Wrapf "failed to execute pull request: " (Foreign "connection refused")),
     {| sent := [Sample.post "/api/pull" Sample.pullDoc];
        caller := caller (Sample.start PullProgress.t) |}).
Proof.
  exact (X3_transport_failure (fst (NewClient Cases.refusing []))
           (CallPull "llama2" (Some Sample.record)) (Sample.start PullProgress.t)
           (req := Sample.post "/api/pull" Sample.pullDoc) eq_refl eq_refl).
Defined.

Lemma X4_failed_status_witness :
  invoke (Sample.client 404 (Bytes.q "{'error':'model not found'}"))
    (CallGenerateStream (Some 0%nat) (Some Sample.observe))
    (Sample.start GenerateResponse.t)
  = (Some (ApiError {| OllamaError.StatusCode := 404;
                       OllamaError.Message := "model not found" |}),
     {| sent := [Sample.post "/api/generate" (Sample.generateDoc true)];
        caller := caller (Sample.start GenerateResponse.t) |}).
Proof.
  refine (eq_trans
            (proj1 (X4_failed_status
                      (Sample.client 404 (Bytes.q "{'error':'model not found'}"))
                      (CallGenerateStream (Some 0%nat) (Some Sample.observe))
                      (Sample.start GenerateResponse.t)
                      (req := Sample.post "/api/generate" (Sample.generateDoc true))
                      eq_refl eq_refl eq_refl)
               (Bytes.q "{'error':'model not found'}") eq_refl) _).
  vm_compute. reflexivity.
Defined.

Lemma X5_unary_read_failure_witness :
  invoke {| httpClient := Cases.breaking 500 "{"; baseURL := Cases.base |}
    (CallPS (U := list unit)) (Sample.start unit)
  = (Some (Wrapf "failed to get process status: "
             (Wrapf "failed to read response body: " (Foreign "unexpected EOF"))),
     {| sent := [ {| HttpRequest.Method := "GET";
                     HttpRequest.URL := "http://localhost:11434/api/ps";
                     HttpRequest.Header := [ ("Content-Type", "application/json");
                                             ("Accept", "application/json") ];
                     HttpRequest.Body := None |} ];
        caller := caller (Sample.start unit) |}).
Proof.
  exact (X5_unary_read_failure
           {| httpClient := Cases.breaking 500 "{"; baseURL := Cases.base |}
           (CallPS (U := list unit)) (Sample.start unit)
           eq_refl eq_refl eq_refl eq_refl).
Defined.

Lemma X6_unary_result_witness :
  fst (Embeddings (Sample.client 200 EmptyString) (Some 0%nat) (Sample.start unit))
  = inr EmbeddingResponse.zero
  /\ fst (Generate (Sample.client 200 (Bytes.q "{'model':'llama2','response':'Why','done':true}"))
            (Some 0%nat) (Sample.start unit))
     = inr (Sample.generated "Why" true)
  /\ fst (Generate (Sample.client 200 "<html>") (Some 0%nat) (Sample.start unit))
     = inl (Wrapf "failed to generate text: "
              (Wrapf "failed to unmarshal response body: " JSONError)).
Proof.
  pose proof (X6_unary_result (rt := Sample.runtime) (list unit))
    as (_ & _ & Hgenerate & _ & Hembeddings & _).
  split; [|split].
  - rewrite (Hembeddings (Sample.client 200 EmptyString) 0%nat (Sample.start unit)
               _ 200 EmptyString eq_refl eq_refl eq_refl).
    reflexivity.
  - rewrite (Hgenerate (Sample.client 200 (Bytes.q "{'model':'llama2','response':'Why','done':true}"))
               0%nat (Sample.start unit) _ 200 _ eq_refl eq_refl eq_refl).
    vm_compute. reflexivity.
  - rewrite (Hgenerate (Sample.client 200 "<html>")
               0%nat (Sample.start unit) _ 200 _ eq_refl eq_refl eq_refl).
    vm_compute. reflexivity.
Defined.

Lemma X7_copy_delete_ignore_body_witness :
  fst (Copy (Sample.client 200 "<html>done</html>") "llama2" "llama2-backup"
         (Sample.start unit)) = inr tt
  /\ fst (Delete (Sample.client 204 EmptyString) "llama2" (Sample.start unit)) = inr tt.
Proof.
  pose proof (X7_copy_delete_ignore_body (rt := Sample.runtime) (list unit))
    as (Hcopy & Hdelete).
  split.
  - rewrite (Hcopy (Sample.client 200 "<html>done</html>") "llama2" "llama2-backup"
               (Sample.start unit) _ 200 _ eq_refl eq_refl eq_refl).
    reflexivity.
  - rewrite (Hdelete (Sample.client 204 EmptyString) "llama2"
               (Sample.start unit) _ 204 _ eq_refl eq_refl eq_refl).
    reflexivity.
Defined.

Lemma X8_stream_outcome_witness :
  invoke {| httpClient :=
              Cases.breaking 200
                (framed true [ Bytes.q "{'status':'downloading'}"; EmptyString;
                               Sample.malformed ]
                   ++ Bytes.q "{'status':'success'}");
            baseURL := Cases.base |}
    (CallPull "llama2" (Some Sample.record)) (Sample.start PullProgress.t)
  = (Some (Wrapf "error reading pull response stream: " (Foreign "unexpected EOF")),
     after (Sample.start PullProgress.t) (Sample.post "/api/pull" Sample.pullDoc)
       Sample.record
       [ {| PullProgress.Status := "downloading"; PullProgress.Digest := EmptyString;
            PullProgress.Total := 0; PullProgress.Completed := 0 |};
         {| PullProgress.Status := "success"; PullProgress.Digest := EmptyString;
            PullProgress.Total := 0; PullProgress.Completed := 0 |} ]).
Proof.
  etransitivity.
  - apply X8_stream_outcome
      with (req := Sample.post "/api/pull" Sample.pullDoc) (status := 200)
           (lines := [ Bytes.q "{'status':'downloading'}"; EmptyString; Sample.malformed ])
           (last := Bytes.q "{'status':'success'}")
           (readErr := Some (Foreign "unexpected EOF"));
      [reflexivity | reflexivity | reflexivity | reflexivity | lines_checked
      | by_evaluation | exact I].
  - vm_compute. reflexivity.
Defined.






Lemma X15_unknown_member_ignored_witness :
  PullProgress.unmarshal (Bytes.q "{'status':'ok','eta':5}")
  = PullProgress.unmarshal (Bytes.q "{'status':'ok'}").
Proof.
  apply (proj1 (X15_unknown_member_ignored (rt := Sample.runtime)))
    with (ms1 := [("status", Json.JString "ok")]) (ms2 := [])
         (k := "eta") (v := Json.JNumber "5");
    [reflexivity | reflexivity | repeat constructor].
Defined.

Lemma X16_mistyped_member_fails_record_witness :
  PullProgress.unmarshal (Bytes.q "{'status':'ok','total':'12'}") = None
  /\ GenerateResponse.unmarshal (Bytes.q "{'response':'!','done':'true'}") = None.
Proof.
  pose proof (X16_mistyped_member_fails_record (rt := Sample.runtime)) as [Hcount Hflag].
  split.
  - apply (Hcount _ [("status", Json.JString "ok"); ("total", Json.JString "12")]
             "total" (Json.JString "12"));
      [reflexivity | right; left; reflexivity | left; reflexivity | reflexivity].
  - apply (Hflag _ [("response", Json.JString "!"); ("done", Json.JString "true")]
             "done" (Json.JString "true"));
      [reflexivity | right; left; reflexivity | reflexivity | reflexivity].
Defined.

Lemma X21_construction_failure_witness :
  exists req,
    outgoing (Sample.client 200 EmptyString)
      (CallDelete (U := list unit) "llama2") (Sample.start unit) = Some req.
Proof.
  exact (X21_construction_failure (Sample.client 200 EmptyString)
           (CallDelete (U := list unit) "llama2") (Sample.start unit) eq_refl).
Defined.
